(** * bmpxxx: a shallow embedding of the Bosch BMP58x/BMP390/BMP280 driver

    The driver of [micropython_bmpxxx/bmpxxx.py] is embedded as state-passing
    functions over one record that holds the mock I2C bus (presence of
    devices, register bytes, a transport-fault oracle, a transaction log) and
    the attributes of the device handle.  Python exceptions are results.

    Numbers:
    - registers, bit fields, calibration constants and configuration values
      are [Z], with the bit operations written out;
    - Python floats of the compensation pipeline are IEEE-754 binary64
      ([PrimFloat]), division raising [ZeroDivisionError] on a zero divisor;
    - the barometric formula uses [**], which is not an IEEE operation: the
      operator is modelled as the interpreter implements it, with the
      value the C library's [pow] returns outside the cases the C standard
      fixes as a parameter. *)

From Stdlib Require Import ZArith Lia List String Bool.
From Stdlib Require Import Floats.
Import ListNotations.
Local Open Scope Z_scope.

(** ** Python results *)

Inductive exn : Type :=
| ValueError
| RuntimeError
| OSError
| IndexError
| ZeroDivisionError
| OverflowError.

Inductive result (A : Type) : Type :=
| Ok (a : A)
| Raise (e : exn).

Arguments Ok {A} a.
Arguments Raise {A} e.

(** ** The mock bus and the device handle *)

Inductive event : Type :=
| Probe (addr : Z)
| MemRead (addr reg : Z) (n : nat)
| MemWrite (addr reg : Z) (data : list Z)
| Sleep (ms : Z).

(** [present] tells which addresses acknowledge; [mem addr reg] is the register
    cell (only its low 8 bits are observable); every memory transaction
    consumes one entry of [faults] ([true]: the transport fails), an empty
    oracle meaning a transport that never fails; [log] is chronological.
    [_address], [_sea_level_pressure] and [t_fine] are the attributes of
    [self]. *)
Record state : Type := mkState {
  present : Z -> bool;
  mem : Z -> Z -> Z;
  faults : list bool;
  log : list event;
  _address : Z;
  _sea_level_pressure : float;
  t_fine : Z
}.

Definition M (A : Type) : Type := state -> result A * state.

Definition ret {A : Type} (a : A) : M A := fun s => (Ok a, s).

Definition raise {A : Type} (e : exn) : M A := fun s => (Raise e, s).

Definition bind {A B : Type} (m : M A) (k : A -> M B) : M B :=
  fun s =>
    match m s with
    | (Ok a, s') => k a s'
    | (Raise e, s') => (Raise e, s')
    end.

Notation "x <- m ;; k" := (bind m (fun x => k))
  (at level 61, m at next level, right associativity).
Notation "m ;;; k" := (bind m (fun _ => k))
  (at level 61, right associativity).

Definition add_log (es : list event) (s : state) : state :=
  mkState (present s) (mem s) (faults s) (log s ++ es)
          (_address s) (_sea_level_pressure s) (t_fine s).

Definition with_faults (fs : list bool) (s : state) : state :=
  mkState (present s) (mem s) fs (log s)
          (_address s) (_sea_level_pressure s) (t_fine s).

Definition with_mem (m : Z -> Z -> Z) (s : state) : state :=
  mkState (present s) m (faults s) (log s)
          (_address s) (_sea_level_pressure s) (t_fine s).

Definition with_address (a : Z) (s : state) : state :=
  mkState (present s) (mem s) (faults s) (log s)
          a (_sea_level_pressure s) (t_fine s).

Definition with_sea_level_pressure (p : float) (s : state) : state :=
  mkState (present s) (mem s) (faults s) (log s)
          (_address s) p (t_fine s).

Definition with_t_fine (t : Z) (s : state) : state :=
  mkState (present s) (mem s) (faults s) (log s)
          (_address s) (_sea_level_pressure s) t.

(** The byte a register cell shows on the bus. *)
Definition byte_at (s : state) (addr reg : Z) : Z := Z.land (mem s addr reg) 255.

(** Whether the next memory transaction with [addr] goes through. *)
Definition transact (addr : Z) (s : state) : bool * state :=
  match faults s with
  | [] => (present s addr, s)
  | f :: fs => (negb f && present s addr, with_faults fs s)
  end.

(** [i2c.writeto(address, b"")]: the presence probe. *)
Definition writeto_empty (addr : Z) : M unit :=
  fun s =>
    let s1 := add_log [Probe addr] s in
    if present s1 addr then (Ok tt, s1) else (Raise OSError, s1).

(** [i2c.readfrom_mem(address, reg, n)]. *)
Definition readfrom_mem (addr reg : Z) (n : nat) : M (list Z) :=
  fun s =>
    let '(ok, s2) := transact addr (add_log [MemRead addr reg n] s) in
    if ok
    then (Ok (map (fun k => byte_at s2 addr (reg + Z.of_nat k)) (seq 0 n)), s2)
    else (Raise OSError, s2).

Definition store (addr reg : Z) (data : list Z) (m : Z -> Z -> Z) : Z -> Z -> Z :=
  fun a r =>
    if (a =? addr) && (reg <=? r) && (r <? reg + Z.of_nat (List.length data))
    then nth (Z.to_nat (r - reg)) data 0
    else m a r.

(** [i2c.writeto_mem(address, reg, data)]. *)
Definition writeto_mem (addr reg : Z) (data : list Z) : M unit :=
  fun s =>
    let '(ok, s2) := transact addr (add_log [MemWrite addr reg data] s) in
    if ok
    then (Ok tt, with_mem (store addr reg data (mem s2)) s2)
    else (Raise OSError, s2).

(** [time.sleep_ms(ms)]. *)
Definition sleep_ms (ms : Z) : M unit :=
  fun s => (Ok tt, add_log [Sleep ms] s).

(** ** The register helpers [CBits] and [RegisterStruct] *)

Record CBits : Type := mkCBits {
  num_bits : Z;
  register_address : Z;
  start_bit : Z;
  register_width : nat
}.

(** The first byte of a span is the least significant one, as the driver
    itself relies on in [_get_raw_temp_pressure]. *)
Fixpoint le_assemble (bytes : list Z) : Z :=
  match bytes with
  | [] => 0
  | b :: rest => Z.lor b (Z.shiftl (le_assemble rest) 8)
  end.

Fixpoint le_bytes (n : nat) (reg : Z) : list Z :=
  match n with
  | O => []
  | S n' => Z.land reg 255 :: le_bytes n' (Z.shiftr reg 8)
  end.

Definition bit_mask (d : CBits) : Z := Z.shiftl (Z.ones (num_bits d)) (start_bit d).

Definition field_of (d : CBits) (reg : Z) : Z :=
  Z.land (Z.shiftr reg (start_bit d)) (Z.ones (num_bits d)).

Definition merge_field (d : CBits) (reg value : Z) : Z :=
  Z.lor (Z.land reg (Z.lnot (bit_mask d)))
        (Z.land (Z.shiftl value (start_bit d)) (bit_mask d)).

(** Modelled from the spec: [CBits.__get__] of [i2c_helpers.py], which is not
    among the sources.  It reads the byte span at the base register and
    returns the field, shifted by the bit offset and masked to the width. *)
Definition cbits_get (d : CBits) : M Z :=
  fun s =>
    (bytes <- readfrom_mem (_address s) (register_address d) (register_width d) ;;
     ret (field_of d (le_assemble bytes))) s.

(** Modelled from the spec: [CBits.__set__] of [i2c_helpers.py], which is not
    among the sources.  It reads the existing span, merges the new field
    value at its offset and mask, and writes the span back. *)
Definition cbits_set (d : CBits) (value : Z) : M unit :=
  fun s =>
    (bytes <- readfrom_mem (_address s) (register_address d) (register_width d) ;;
     writeto_mem (_address s) (register_address d)
       (le_bytes (register_width d) (merge_field d (le_assemble bytes) value))) s.

(** Modelled from the spec: [RegisterStruct.__get__] of [i2c_helpers.py] for
    the format ["B"], one unsigned byte. *)
Definition register_struct_get (reg : Z) : M Z :=
  fun s =>
    (bytes <- readfrom_mem (_address s) reg 1 ;;
     ret (nth 0 bytes 0)) s.

(** ** Classes and constants *)

Inductive variant : Type := BMP581 | BMP585 | BMP390 | BMP280.

Definition WORLD_AVERAGE_SEA_LEVEL_PRESSURE : float := 1013.25%float.

(** [const] names are substituted by the MicroPython compiler in the whole
    module, which is how the subclasses see them. *)
Definition STANDBY : Z := 0x00.
Definition NORMAL : Z := 0x01.
Definition FORCED : Z := 0x02.
Definition NON_STOP : Z := 0x03.

Definition OSR1 : Z := 0x00.
Definition OSR2 : Z := 0x01.
Definition OSR4 : Z := 0x02.
Definition OSR8 : Z := 0x03.
Definition OSR16 : Z := 0x04.
Definition OSR32 : Z := 0x05.
Definition OSR64 : Z := 0x06.
Definition OSR128 : Z := 0x07.

Definition COEF_0 : Z := 0x00.
Definition COEF_1 : Z := 0x01.
Definition COEF_3 : Z := 0x02.
Definition COEF_7 : Z := 0x03.
Definition COEF_15 : Z := 0x04.
Definition COEF_31 : Z := 0x05.
Definition COEF_63 : Z := 0x06.
Definition COEF_127 : Z := 0x07.

Definition BMP280_NORMAL_POWER : Z := 0x03.
Definition BMP280_FORCED_POWER : Z := 0x01.
Definition OSR_SKIP : Z := 0x05.

(** Class attributes, resolved on the class of [self]. *)
Definition power_mode_values (self : variant) : list Z :=
  match self with
  | BMP581 | BMP585 => [STANDBY; NORMAL; FORCED; NON_STOP]
  | BMP390 | BMP280 => [STANDBY; FORCED; NORMAL]
  end.

Definition pressure_oversample_rate_values (self : variant) : list Z :=
  match self with
  | BMP581 | BMP585 => [OSR1; OSR2; OSR4; OSR8; OSR16; OSR32; OSR64; OSR128]
  | BMP390 => [OSR1; OSR2; OSR4; OSR8; OSR16; OSR32]
  | BMP280 => [OSR1; OSR2; OSR4; OSR8; OSR16]
  end.

Definition temperature_oversample_rate_values (self : variant) : list Z :=
  match self with
  | BMP581 | BMP585 => [OSR1; OSR2; OSR4; OSR8; OSR16; OSR32; OSR64; OSR128]
  | BMP390 => [OSR1; OSR2; OSR4; OSR8; OSR16; OSR32]
  | BMP280 => [OSR1; OSR2; OSR4; OSR8; OSR16]
  end.

Definition iir_coefficient_values (self : variant) : list Z :=
  [COEF_0; COEF_1; COEF_3; COEF_7; COEF_15; COEF_31; COEF_63; COEF_127].

(** Register descriptors, resolved on the class of [self]. *)
Definition _REG_WHOAMI (self : variant) : Z :=
  match self with
  | BMP581 | BMP585 => 0x01
  | BMP390 => 0x00
  | BMP280 => 0xd0
  end.

Definition _power_mode (self : variant) : CBits :=
  match self with
  | BMP581 | BMP585 => mkCBits 2 0x37 0 1
  | BMP390 => mkCBits 2 0x1b 4 1
  | BMP280 => mkCBits 2 0xF4 0 1
  end.

Definition _temperature_oversample_rate (self : variant) : CBits :=
  match self with
  | BMP581 | BMP585 => mkCBits 3 0x36 0 1
  | BMP390 => mkCBits 3 0x1c 3 1
  | BMP280 => mkCBits 3 0xF4 5 1
  end.

Definition _pressure_oversample_rate (self : variant) : CBits :=
  match self with
  | BMP581 | BMP585 => mkCBits 3 0x36 3 1
  | BMP390 => mkCBits 3 0x1c 0 1
  | BMP280 => mkCBits 3 0xF4 2 1
  end.

Definition _pressure_enabled (self : variant) : CBits :=
  match self with
  | BMP581 | BMP585 | BMP280 => mkCBits 1 0x36 6 1
  | BMP390 => mkCBits 1 0x1b 0 1
  end.

Definition _iir_coefficient (self : variant) : CBits :=
  match self with
  | BMP581 | BMP585 => mkCBits 3 0x31 3 1
  | BMP390 => mkCBits 3 0x1f 1 1
  | BMP280 => mkCBits 3 0xf5 0 1
  end.

(** Declared by [BMP581] only and inherited by every subclass. *)
Definition _iir_temp_coefficient (self : variant) : CBits := mkCBits 3 0x31 0 1.

Definition _temperature (self : variant) : CBits :=
  match self with
  | BMP581 | BMP585 | BMP280 => mkCBits 24 0x1D 0 3
  | BMP390 => mkCBits 24 0x07 0 3
  end.

Definition _pressure (self : variant) : CBits :=
  match self with
  | BMP581 | BMP585 | BMP280 => mkCBits 24 0x20 0 3
  | BMP390 => mkCBits 24 0x04 0 3
  end.

(** Declared by [BMP280] only. *)
Definition _control_register : CBits := mkCBits 8 0xF4 0 1.
Definition _config_register : CBits := mkCBits 8 0xf5 0 1.
Definition _d : CBits := mkCBits 48 0xf7 0 6.

(** ** Small Python idioms *)

(** [value in values] *)
Definition py_in (value : Z) (values : list Z) : bool := existsb (Z.eqb value) values.

(** [names[i]] on a tuple, for an index that is never negative here. *)
Definition py_index (names : list string) (i : Z) : M string :=
  match nth_error names (Z.to_nat i) with
  | Some name => ret name
  | None => raise IndexError
  end.

(** ** The configuration surface

    Every method takes the class of [self], on which class attributes,
    descriptors and properties are resolved. *)

(** *** Power mode *)

Definition BMP581_power_mode (self : variant) : M string :=
  i <- cbits_get (_power_mode self) ;;
  py_index ["STANDBY"; "NORMAL"; "FORCED"; "NON_STOP"]%string i.

Definition BMP581_power_mode_setter (self : variant) (value : Z) : M unit :=
  if negb (py_in value (power_mode_values self))
  then raise ValueError
  else cbits_set (_power_mode self) value.

Definition BMP390_power_mode (self : variant) : M string :=
  i <- cbits_get (_power_mode self) ;;
  py_index ["STANDBY"; "FORCED"; "NORMAL"]%string i.

Definition BMP390_power_mode_setter (self : variant) (value : Z) : M unit :=
  if negb (py_in value (power_mode_values self))
  then raise ValueError
  else cbits_set (_power_mode self) value.

Definition BMP280_power_mode (self : variant) : M string :=
  i <- cbits_get (_power_mode self) ;;
  py_index ["STANDBY"; "FORCED"; "FORCED"; "NORMAL"]%string i.

(** The two remapping tests are consecutive [if] statements; the [print] of the
    source writes to the console only and is left out. *)
Definition BMP280_power_mode_setter (self : variant) (value : Z) : M unit :=
  if negb (py_in value (power_mode_values self))
  then raise ValueError
  else
    let value := if value =? 0x01 then BMP280_NORMAL_POWER else value in
    let value := if value =? 0x03 then BMP280_FORCED_POWER else value in
    cbits_set (_power_mode self) value.

Definition power_mode (self : variant) : M string :=
  match self with
  | BMP581 | BMP585 => BMP581_power_mode self
  | BMP390 => BMP390_power_mode self
  | BMP280 => BMP280_power_mode self
  end.

Definition power_mode_setter (self : variant) (value : Z) : M unit :=
  match self with
  | BMP581 | BMP585 => BMP581_power_mode_setter self value
  | BMP390 => BMP390_power_mode_setter self value
  | BMP280 => BMP280_power_mode_setter self value
  end.

(** *** Oversampling *)

Definition BMP581_pressure_oversample_rate (self : variant) : M string :=
  i <- cbits_get (_pressure_oversample_rate self) ;;
  py_index ["OSR1"; "OSR2"; "OSR4"; "OSR8"; "OSR16"; "OSR32"; "OSR64"; "OSR128"]%string i.

Definition BMP581_pressure_oversample_rate_setter (self : variant) (value : Z) : M unit :=
  if negb (py_in value (pressure_oversample_rate_values self))
  then raise ValueError
  else cbits_set (_pressure_oversample_rate self) value.

Definition BMP581_temperature_oversample_rate (self : variant) : M string :=
  i <- cbits_get (_temperature_oversample_rate self) ;;
  py_index ["OSR1"; "OSR2"; "OSR4"; "OSR8"; "OSR16"; "OSR32"; "OSR64"; "OSR128"]%string i.

Definition BMP581_temperature_oversample_rate_setter (self : variant) (value : Z) : M unit :=
  if negb (py_in value (temperature_oversample_rate_values self))
  then raise ValueError
  else cbits_set (_temperature_oversample_rate self) value.

Definition BMP390_pressure_oversample_rate (self : variant) : M string :=
  i <- cbits_get (_pressure_oversample_rate self) ;;
  py_index ["OSR1"; "OSR2"; "OSR4"; "OSR8"; "OSR16"; "OSR32"]%string i.

Definition BMP390_pressure_oversample_rate_setter (self : variant) (value : Z) : M unit :=
  if negb (py_in value (pressure_oversample_rate_values self))
  then raise ValueError
  else cbits_set (_pressure_oversample_rate self) value.

Definition BMP390_temperature_oversample_rate (self : variant) : M string :=
  i <- cbits_get (_temperature_oversample_rate self) ;;
  py_index ["OSR1"; "OSR2"; "OSR4"; "OSR8"; "OSR16"; "OSR32"]%string i.

Definition BMP390_temperature_oversample_rate_setter (self : variant) (value : Z) : M unit :=
  if negb (py_in value (temperature_oversample_rate_values self))
  then raise ValueError
  else cbits_set (_temperature_oversample_rate self) value.

(** [osr_map.get(osr_value, 0)] on the dictionary of [_translate_osr_bmp280]. *)
Definition _translate_osr_bmp280 (osr_value : Z) : Z :=
  if osr_value =? OSR1 then 1
  else if osr_value =? OSR2 then 2
  else if osr_value =? OSR4 then 3
  else if osr_value =? OSR8 then 4
  else if osr_value =? OSR16 then 5
  else if osr_value =? OSR_SKIP then 0
  else 0.

Definition BMP280_pressure_oversample_rate (self : variant) : M string :=
  i <- cbits_get (_pressure_oversample_rate self) ;;
  py_index ["OSR_SKIP"; "OSR1"; "OSR2"; "OSR4"; "OSR8"; "OSR16"]%string i.

Definition BMP280_pressure_oversample_rate_setter (self : variant) (value : Z) : M unit :=
  if negb (py_in value (pressure_oversample_rate_values self))
  then raise ValueError
  else
    current_control_register <- cbits_get _control_register ;;
    let current_control_register :=
      Z.land current_control_register 0xe3 + Z.shiftl (_translate_osr_bmp280 value) 2 in
    cbits_set _config_register 0x00 ;;;
    cbits_set _control_register current_control_register.

Definition BMP280_temperature_oversample_rate (self : variant) : M string :=
  i <- cbits_get (_temperature_oversample_rate self) ;;
  py_index ["OSR_SKIP"; "OSR1"; "OSR2"; "OSR4"; "OSR8"; "OSR16"]%string i.

Definition BMP280_temperature_oversample_rate_setter (self : variant) (value : Z) : M unit :=
  if negb (py_in value (temperature_oversample_rate_values self))
  then raise ValueError
  else
    current_control_register <- cbits_get _control_register ;;
    let current_control_register :=
      Z.land current_control_register 0x1f + Z.shiftl (_translate_osr_bmp280 value) 5 in
    cbits_set _config_register 0x00 ;;;
    cbits_set _control_register current_control_register.

Definition pressure_oversample_rate (self : variant) : M string :=
  match self with
  | BMP581 | BMP585 => BMP581_pressure_oversample_rate self
  | BMP390 => BMP390_pressure_oversample_rate self
  | BMP280 => BMP280_pressure_oversample_rate self
  end.

Definition pressure_oversample_rate_setter (self : variant) (value : Z) : M unit :=
  match self with
  | BMP581 | BMP585 => BMP581_pressure_oversample_rate_setter self value
  | BMP390 => BMP390_pressure_oversample_rate_setter self value
  | BMP280 => BMP280_pressure_oversample_rate_setter self value
  end.

Definition temperature_oversample_rate (self : variant) : M string :=
  match self with
  | BMP581 | BMP585 => BMP581_temperature_oversample_rate self
  | BMP390 => BMP390_temperature_oversample_rate self
  | BMP280 => BMP280_temperature_oversample_rate self
  end.

Definition temperature_oversample_rate_setter (self : variant) (value : Z) : M unit :=
  match self with
  | BMP581 | BMP585 => BMP581_temperature_oversample_rate_setter self value
  | BMP390 => BMP390_temperature_oversample_rate_setter self value
  | BMP280 => BMP280_temperature_oversample_rate_setter self value
  end.

(** *** IIR coefficient *)

Definition BMP581_iir_coefficient (self : variant) : M string :=
  i <- cbits_get (_iir_coefficient self) ;;
  py_index ["COEF_0"; "COEF_1"; "COEF_3"; "COEF_7";
            "COEF_15"; "COEF_31"; "COEF_63"; "COEF_127"]%string i.

(** [self.power_mode = ...] goes through the property of the class of [self]. *)
Definition BMP581_iir_coefficient_setter (self : variant) (value : Z) : M unit :=
  if negb (py_in value (iir_coefficient_values self))
  then raise ValueError
  else
    original_mode <- cbits_get (_power_mode self) ;;
    (if negb (original_mode =? STANDBY)
     then power_mode_setter self STANDBY
     else ret tt) ;;;
    cbits_set (_iir_coefficient self) value ;;;
    cbits_set (_iir_temp_coefficient self) value ;;;
    power_mode_setter self original_mode.

Definition BMP390_iir_coefficient (self : variant) : M string :=
  i <- cbits_get (_iir_coefficient self) ;;
  py_index ["COEF_0"; "COEF_1"; "COEF_3"; "COEF_7";
            "COEF_15"; "COEF_31"; "COEF_63"; "COEF_127"]%string i.

Definition BMP390_iir_coefficient_setter (self : variant) (value : Z) : M unit :=
  if negb (py_in value (iir_coefficient_values self))
  then raise ValueError
  else cbits_set (_iir_coefficient self) value.

(** [BMP280] does not override the IIR property and inherits [BMP581]'s. *)
Definition iir_coefficient (self : variant) : M string :=
  match self with
  | BMP581 | BMP585 | BMP280 => BMP581_iir_coefficient self
  | BMP390 => BMP390_iir_coefficient self
  end.

Definition iir_coefficient_setter (self : variant) (value : Z) : M unit :=
  match self with
  | BMP581 | BMP585 | BMP280 => BMP581_iir_coefficient_setter self value
  | BMP390 => BMP390_iir_coefficient_setter self value
  end.

(** *** The four settings as one family *)

Inductive setting : Type :=
| PowerMode
| PressureOversampleRate
| TemperatureOversampleRate
| IirCoefficient.

Definition legal_values (self : variant) (what : setting) : list Z :=
  match what with
  | PowerMode => power_mode_values self
  | PressureOversampleRate => pressure_oversample_rate_values self
  | TemperatureOversampleRate => temperature_oversample_rate_values self
  | IirCoefficient => iir_coefficient_values self
  end.

Definition setter (self : variant) (what : setting) (value : Z) : M unit :=
  match what with
  | PowerMode => power_mode_setter self value
  | PressureOversampleRate => pressure_oversample_rate_setter self value
  | TemperatureOversampleRate => temperature_oversample_rate_setter self value
  | IirCoefficient => iir_coefficient_setter self value
  end.

Definition getter (self : variant) (what : setting) : M string :=
  match what with
  | PowerMode => power_mode self
  | PressureOversampleRate => pressure_oversample_rate self
  | TemperatureOversampleRate => temperature_oversample_rate self
  | IirCoefficient => iir_coefficient self
  end.

(** ** Calibration constants *)

(** [BMP280._combine_unsigned] *)
Definition _combine_unsigned (msb lsb : Z) : Z :=
  Z.land (Z.lor (Z.shiftl msb 8) lsb) 0xFFFF.

(** [BMP280._combine_signed] *)
Definition _combine_signed (msb lsb : Z) : Z :=
  let combined := Z.lor (Z.shiftl msb 8) lsb in
  if negb (Z.land combined 0x8000 =? 0) then combined - 0x10000 else combined.

(** [BMP390.par_t1], unsigned and masked to 16 bits. *)
Definition par_t1 : M Z :=
  msb_value <- cbits_get (mkCBits 8 0x32 0 1) ;;
  lsb_value <- cbits_get (mkCBits 8 0x31 0 1) ;;
  ret (Z.land (Z.lor (Z.shiftl msb_value 8) lsb_value) 0xFFFF).

(** [BMP390.par_t3], one signed byte; the conditional expression reads the
    register for its test and again for its value. *)
Definition par_t3 : M Z :=
  test <- cbits_get (mkCBits 8 0x35 0 1) ;;
  if test <=? 127
  then cbits_get (mkCBits 8 0x35 0 1)
  else (again <- cbits_get (mkCBits 8 0x35 0 1) ;; ret (again - 256)).

(** [BMP390.par_p1], signed 16 bits. *)
Definition par_p1 : M Z :=
  msb_value <- cbits_get (mkCBits 8 0x37 0 1) ;;
  lsb_value <- cbits_get (mkCBits 8 0x36 0 1) ;;
  let combined_value := Z.lor (Z.shiftl msb_value 8) lsb_value in
  if combined_value >=? 0x8000
  then ret (combined_value - 0x10000)
  else ret combined_value.

(** [BMP390.par_p5], unsigned 16 bits. *)
Definition par_p5 : M Z :=
  msb_value <- cbits_get (mkCBits 8 0x3D 0 1) ;;
  lsb_value <- cbits_get (mkCBits 8 0x3C 0 1) ;;
  ret (Z.lor (Z.shiftl msb_value 8) lsb_value).

(** The [BMP280] properties [dig_t1] ... [dig_p9]: the most significant byte
    is read first. *)
Definition dig_unsigned (msb_reg lsb_reg : Z) : M Z :=
  msb <- cbits_get (mkCBits 8 msb_reg 0 1) ;;
  lsb <- cbits_get (mkCBits 8 lsb_reg 0 1) ;;
  ret (_combine_unsigned msb lsb).

Definition dig_signed (msb_reg lsb_reg : Z) : M Z :=
  msb <- cbits_get (mkCBits 8 msb_reg 0 1) ;;
  lsb <- cbits_get (mkCBits 8 lsb_reg 0 1) ;;
  ret (_combine_signed msb lsb).

Definition dig_t1 : M Z := dig_unsigned 0x89 0x88.
Definition dig_t2 : M Z := dig_signed 0x8b 0x8a.
Definition dig_t3 : M Z := dig_signed 0x8d 0x8c.
Definition dig_p1 : M Z := dig_unsigned 0x8f 0x8e.
Definition dig_p2 : M Z := dig_signed 0x91 0x90.
Definition dig_p3 : M Z := dig_signed 0x93 0x92.
Definition dig_p4 : M Z := dig_signed 0x95 0x94.
Definition dig_p5 : M Z := dig_signed 0x97 0x96.
Definition dig_p6 : M Z := dig_signed 0x99 0x98.
Definition dig_p7 : M Z := dig_signed 0x9b 0x9a.
Definition dig_p8 : M Z := dig_signed 0x9d 0x9c.
Definition dig_p9 : M Z := dig_signed 0x9f 0x9e.

(** ** Readings *)

(** [int] to [float], exact below 2^53; the driver converts no integer of more
    than 48 bits. *)
Definition float_of_int (z : Z) : float :=
  match z with
  | Z0 => 0%float
  | Zpos _ => PrimFloat.of_uint63 (Uint63.of_Z z)
  | Zneg p => (- PrimFloat.of_uint63 (Uint63.of_Z (Zpos p)))%float
  end.

(** [int(x)] on a float: truncation toward zero. *)
Definition int_of_float (x : float) : M Z :=
  match Prim2SF x with
  | S754_zero _ => ret 0
  | S754_finite sign m e =>
      let magnitude := if 0 <=? e then Zpos m * 2 ^ e else Zpos m / 2 ^ (- e) in
      ret (if sign then - magnitude else magnitude)
  | S754_infinity _ => raise OverflowError
  | S754_nan => raise ValueError
  end.

(** [x / y] on floats. *)
Definition fdiv (x y : float) : M float :=
  if (y =? 0)%float then raise ZeroDivisionError else ret (x / y)%float.

(** [BMP581._twos_comp] *)
Definition _twos_comp (val bits : Z) : Z :=
  if negb (Z.land val (Z.shiftl 1 (bits - 1)) =? 0)
  then val - Z.shiftl 1 bits
  else val.

(** [BMP581.temperature] *)
Definition BMP581_temperature (self : variant) : M float :=
  raw_temp <- cbits_get (_temperature self) ;;
  fdiv (float_of_int (_twos_comp raw_temp 24)) 65536.0%float.

(** [BMP581.pressure] *)
Definition BMP581_pressure (self : variant) : M float :=
  raw_pressure <- cbits_get (_pressure self) ;;
  scaled <- fdiv (float_of_int (_twos_comp raw_pressure 24)) 64.0%float ;;
  fdiv scaled 100.0%float.

(** [BMP280._get_raw_temp_pressure]; the attributes [_p_raw] and [_t_raw] it
    also sets are read nowhere. *)
Definition _get_raw_temp_pressure : M (Z * Z) :=
  raw_data <- cbits_get _d ;;
  let t_xlsb := Z.land (Z.shiftr raw_data 40) 0xFF in
  let t_lsb := Z.land (Z.shiftr raw_data 32) 0xFF in
  let t_msb := Z.land (Z.shiftr raw_data 24) 0xFF in
  let p_xlsb := Z.land (Z.shiftr raw_data 16) 0xFF in
  let p_lsb := Z.land (Z.shiftr raw_data 8) 0xFF in
  let p_msb := Z.land raw_data 0xFF in
  let p_raw := Z.lor (Z.lor (Z.shiftl p_msb 12) (Z.shiftl p_lsb 4)) (Z.shiftr p_xlsb 4) in
  let t_raw := Z.lor (Z.lor (Z.shiftl t_msb 12) (Z.shiftl t_lsb 4)) (Z.shiftr t_xlsb 4) in
  ret (t_raw, p_raw).

Definition set_t_fine (t : Z) : M unit := fun s => (Ok tt, with_t_fine t s).

Definition get_t_fine : M Z := fun s => (Ok (t_fine s), s).

(** [BMP280._calculate_temperature_compensation_bmp280] *)
Definition _calculate_temperature_compensation_bmp280 (raw_temp : Z) : M float :=
  a1 <- fdiv (float_of_int raw_temp) 16384.0%float ;;
  t1 <- dig_t1 ;;
  b1 <- fdiv (float_of_int t1) 1024.0%float ;;
  t2 <- dig_t2 ;;
  let var1 := ((a1 - b1) * float_of_int t2)%float in
  a2 <- fdiv (float_of_int raw_temp) 131072.0%float ;;
  t1 <- dig_t1 ;;
  b2 <- fdiv (float_of_int t1) 8192.0%float ;;
  a3 <- fdiv (float_of_int raw_temp) 131072.0%float ;;
  t1 <- dig_t1 ;;
  b3 <- fdiv (float_of_int t1) 8192.0%float ;;
  t3 <- dig_t3 ;;
  let var2 := (((a2 - b2) * (a3 - b3)) * float_of_int t3)%float in
  fine <- int_of_float (var1 + var2)%float ;;
  set_t_fine fine ;;;
  fdiv (var1 + var2)%float 5120.0%float.

(** What a compensation helper returns: the sentinel is the integer [0]. *)
Inductive pynum : Type :=
| PyInt (z : Z)
| PyFloat (x : float).

Definition to_float (v : pynum) : float :=
  match v with
  | PyInt z => float_of_int z
  | PyFloat x => x
  end.

(** [BMP280._calculate_pressure_compensation_bmp280] *)
Definition _calculate_pressure_compensation_bmp280 (raw_pressure : Z) (tempc : float)
  : M pynum :=
  fine <- get_t_fine ;;
  half <- fdiv (float_of_int fine) 2.0%float ;;
  let var1 := (half - 64000.0)%float in
  p6 <- dig_p6 ;;
  var2 <- fdiv (var1 * var1 * float_of_int p6)%float 32768.0%float ;;
  p5 <- dig_p5 ;;
  let var2 := (var2 + var1 * float_of_int p5 * 2.0)%float in
  q <- fdiv var2 4.0%float ;;
  p4 <- dig_p4 ;;
  let var2 := (q + float_of_int p4 * 65536.0)%float in
  p3 <- dig_p3 ;;
  c <- fdiv (float_of_int p3 * var1 * var1)%float 524288.0%float ;;
  p2 <- dig_p2 ;;
  var1 <- fdiv (c + float_of_int p2 * var1)%float 524288.0%float ;;
  r <- fdiv var1 32768.0%float ;;
  p1 <- dig_p1 ;;
  let var1 := ((1.0 + r) * float_of_int p1)%float in
  if (var1 =? 0.0)%float
  then ret (PyInt 0)
  else
    let p := (1048576.0 - float_of_int raw_pressure)%float in
    w <- fdiv var2 4096.0%float ;;
    p <- fdiv ((p - w) * 6250.0)%float var1 ;;
    p9 <- dig_p9 ;;
    var1 <- fdiv (float_of_int p9 * p * p)%float 2147483648.0%float ;;
    p8 <- dig_p8 ;;
    var2 <- fdiv (p * float_of_int p8)%float 32768.0%float ;;
    p7 <- dig_p7 ;;
    tail <- fdiv (var1 + var2 + float_of_int p7)%float 16.0%float ;;
    ret (PyFloat (p + tail)%float).

(** [BMP280.pressure] *)
Definition BMP280_pressure : M float :=
  raw <- _get_raw_temp_pressure ;;
  let '(raw_temp, raw_pressure) := raw in
  tempc <- _calculate_temperature_compensation_bmp280 raw_temp ;;
  comp_press <- _calculate_pressure_compensation_bmp280 raw_pressure tempc ;;
  fdiv (to_float comp_press) 100.0%float.

(** ** Construction *)

(** [BMP581._check_address]: an [OSError] of the probe means "not present". *)
Definition _check_address (address : Z) : M bool :=
  fun s =>
    match writeto_empty address s with
    | (Ok _, s') => (Ok true, s')
    | (Raise OSError, s') => (Ok false, s')
    | (Raise e, s') => (Raise e, s')
    end.

Definition _read_device_id (self : variant) : M Z :=
  register_struct_get (_REG_WHOAMI self).

(** The address resolution every [__init__] opens with, for the default and
    secondary address of its class. *)
Definition resolve_address (default secondary : Z) (address : option Z) : M Z :=
  match address with
  | None =>
      found <- _check_address default ;;
      if found then ret default
      else
        found <- _check_address secondary ;;
        if found then ret secondary else raise RuntimeError
  | Some address =>
      found <- _check_address address ;;
      if negb found then raise RuntimeError else ret address
  end.

Definition set_address (address : Z) : M unit :=
  fun s => (Ok tt, with_address address s).

Definition sea_level_pressure_setter (value : float) : M unit :=
  fun s => (Ok tt, with_sea_level_pressure value s).

Definition BMP581___init__ (address : option Z) : M unit :=
  sleep_ms 3 ;;;
  address <- resolve_address 0x47 0x46 address ;;
  set_address address ;;;
  id <- _read_device_id BMP581 ;;
  if negb (id =? 0x50) then raise RuntimeError
  else
    cbits_set (_power_mode BMP581) STANDBY ;;;
    sleep_ms 5 ;;;
    cbits_set (_iir_coefficient BMP581) COEF_0 ;;;
    cbits_set (_iir_temp_coefficient BMP581) COEF_0 ;;;
    cbits_set (_power_mode BMP581) NORMAL ;;;
    sleep_ms 5 ;;;
    cbits_set (_pressure_enabled BMP581) 1 ;;;
    sea_level_pressure_setter WORLD_AVERAGE_SEA_LEVEL_PRESSURE.

Definition BMP585___init__ (address : option Z) : M unit :=
  sleep_ms 3 ;;;
  address <- resolve_address 0x47 0x46 address ;;
  set_address address ;;;
  id <- _read_device_id BMP585 ;;
  if negb (id =? 0x51) then raise RuntimeError
  else
    cbits_set (_power_mode BMP585) STANDBY ;;;
    sleep_ms 5 ;;;
    cbits_set (_iir_coefficient BMP585) COEF_0 ;;;
    cbits_set (_iir_temp_coefficient BMP585) COEF_0 ;;;
    cbits_set (_power_mode BMP585) NORMAL ;;;
    sleep_ms 5 ;;;
    cbits_set (_pressure_enabled BMP585) 1 ;;;
    sea_level_pressure_setter WORLD_AVERAGE_SEA_LEVEL_PRESSURE.

Definition BMP390___init__ (address : option Z) : M unit :=
  sleep_ms 3 ;;;
  address <- resolve_address 0x7f 0x7e address ;;
  set_address address ;;;
  id <- _read_device_id BMP390 ;;
  if negb (id =? 0x60) then raise RuntimeError
  else
    cbits_set (_power_mode BMP390) NORMAL ;;;
    sleep_ms 4 ;;;
    cbits_set (_pressure_enabled BMP390) 1 ;;;
    sea_level_pressure_setter WORLD_AVERAGE_SEA_LEVEL_PRESSURE.

Definition BMP280___init__ (address : option Z) : M unit :=
  sleep_ms 3 ;;;
  address <- resolve_address 0x77 0x76 address ;;
  set_address address ;;;
  id <- _read_device_id BMP280 ;;
  if negb (id =? 0x58) then raise RuntimeError
  else
    cbits_set _config_register 0x00 ;;;
    cbits_set _control_register
      (Z.shiftl (_translate_osr_bmp280 OSR1) 5
       + Z.shiftl (_translate_osr_bmp280 OSR1) 2
       + BMP280_NORMAL_POWER) ;;;
    BMP280_pressure ;;;
    sleep_ms 4 ;;;
    sleep_ms 63 ;;;
    sea_level_pressure_setter WORLD_AVERAGE_SEA_LEVEL_PRESSURE ;;;
    set_t_fine 0.

Definition __init__ (self : variant) (address : option Z) : M unit :=
  match self with
  | BMP581 => BMP581___init__ address
  | BMP585 => BMP585___init__ address
  | BMP390 => BMP390___init__ address
  | BMP280 => BMP280___init__ address
  end.

(** ** Further methods *)

(** [_output_data_rate]: [BMP390] declares its own, [BMP280] inherits the
    one of [BMP581]. *)
Definition _output_data_rate (self : variant) : CBits :=
  match self with
  | BMP581 | BMP585 | BMP280 => mkCBits 5 0x37 2 1
  | BMP390 => mkCBits 5 0x1d 0 1
  end.

(** [BMP581.output_data_rate], which no subclass overrides. *)
Definition output_data_rate (self : variant) : M Z :=
  cbits_get (_output_data_rate self).

(** [BMP581.output_data_rate] setter: [value not in range(0, 32, 1)]. *)
Definition output_data_rate_setter (self : variant) (value : Z) : M unit :=
  if negb ((0 <=? value) && (value <? 32))
  then raise ValueError
  else cbits_set (_output_data_rate self) value.

(** [BMP280.temperature] *)
Definition BMP280_temperature : M float :=
  raw <- _get_raw_temp_pressure ;;
  let '(raw_temp, raw_pressure) := raw in
  _calculate_temperature_compensation_bmp280 raw_temp.

(** ** The readings of the BMP390 *)

(** [2.0 ** n] for the literal exponents of the compensation formulas: the
    power of two itself, which a binary64 float holds exactly. *)
Definition pow2 (n : Z) : float := Z.ldexp 1%float n.

(** [BMP390.par_t2], unsigned and masked to 16 bits. *)
Definition par_t2 : M Z :=
  msb_value <- cbits_get (mkCBits 8 0x34 0 1) ;;
  lsb_value <- cbits_get (mkCBits 8 0x33 0 1) ;;
  ret (Z.land (Z.lor (Z.shiftl msb_value 8) lsb_value) 0xFFFF).

(** [BMP390.par_p2] and [par_p9], signed 16 bits, as [par_p1]. *)
Definition par_signed_word (msb_reg lsb_reg : Z) : M Z :=
  msb_value <- cbits_get (mkCBits 8 msb_reg 0 1) ;;
  lsb_value <- cbits_get (mkCBits 8 lsb_reg 0 1) ;;
  let combined_value := Z.lor (Z.shiftl msb_value 8) lsb_value in
  if combined_value >=? 0x8000
  then ret (combined_value - 0x10000)
  else ret combined_value.

Definition par_p2 : M Z := par_signed_word 0x39 0x38.
Definition par_p9 : M Z := par_signed_word 0x43 0x42.

(** [BMP390.par_p3], [par_p4], [par_p7], [par_p8], [par_p10] and [par_p11],
    one signed byte, as [par_t3]: the register is read for the test and
    again for the value. *)
Definition par_signed_byte (reg : Z) : M Z :=
  test <- cbits_get (mkCBits 8 reg 0 1) ;;
  if test <=? 127
  then cbits_get (mkCBits 8 reg 0 1)
  else (again <- cbits_get (mkCBits 8 reg 0 1) ;; ret (again - 256)).

Definition par_p3 : M Z := par_signed_byte 0x3A.
Definition par_p4 : M Z := par_signed_byte 0x3B.
Definition par_p7 : M Z := par_signed_byte 0x40.
Definition par_p8 : M Z := par_signed_byte 0x41.
Definition par_p10 : M Z := par_signed_byte 0x44.
Definition par_p11 : M Z := par_signed_byte 0x45.

(** [BMP390.par_p6], unsigned 16 bits. *)
Definition par_p6 : M Z :=
  msb_value <- cbits_get (mkCBits 8 0x3F 0 1) ;;
  lsb_value <- cbits_get (mkCBits 8 0x3E 0 1) ;;
  ret (Z.lor (Z.shiftl msb_value 8) lsb_value).

(** [BMP390._calculate_temperature_compensation]; an integer [raw_temp] is
    converted by the subtraction. *)
Definition _calculate_temperature_compensation (raw_temp : float) : M float :=
  t1 <- par_t1 ;;
  let partial_data1 := (raw_temp - float_of_int t1 * 256.0)%float in
  t2 <- par_t2 ;;
  q2 <- fdiv (float_of_int t2) (pow2 30) ;;
  let partial_data2 := (partial_data1 * q2)%float in
  t3 <- par_t3 ;;
  q3 <- fdiv (float_of_int t3) (pow2 48) ;;
  ret (partial_data2 + (partial_data1 * partial_data1) * q3)%float.

(** [BMP390._calculate_pressure_compensation] *)
Definition _calculate_pressure_compensation (raw_pressure tempc : float) : M float :=
  p6 <- par_p6 ;;
  q6 <- fdiv (float_of_int p6) 64.0%float ;;
  let partial_data1 := (q6 * tempc)%float in
  p7 <- par_p7 ;;
  q7 <- fdiv (float_of_int p7) 256.0%float ;;
  let partial_data2 := (q7 * (tempc * tempc))%float in
  p8 <- par_p8 ;;
  q8 <- fdiv (float_of_int p8) (pow2 15) ;;
  let partial_data3 := (q8 * (tempc * tempc * tempc))%float in
  p5 <- par_p5 ;;
  let partial_out1 :=
    (float_of_int p5 * 8.0 + partial_data1 + partial_data2 + partial_data3)%float in
  p2 <- par_p2 ;;
  q2 <- fdiv (float_of_int p2 - 16384.0)%float (pow2 29) ;;
  let partial_data1 := (q2 * tempc)%float in
  p3 <- par_p3 ;;
  q3 <- fdiv (float_of_int p3) (pow2 32) ;;
  let partial_data2 := (q3 * (tempc * tempc))%float in
  p4 <- par_p4 ;;
  q4 <- fdiv (float_of_int p4) (pow2 37) ;;
  let partial_data3 := (q4 * (tempc * tempc * tempc))%float in
  p1 <- par_p1 ;;
  q1 <- fdiv (float_of_int p1 - 16384.0)%float (pow2 20) ;;
  let partial_out2 :=
    (raw_pressure * (q1 + partial_data1 + partial_data2 + partial_data3))%float in
  let partial_data1 := (raw_pressure * raw_pressure)%float in
  p9 <- par_p9 ;;
  q9 <- fdiv (float_of_int p9) (pow2 48) ;;
  p10 <- par_p10 ;;
  q10 <- fdiv (float_of_int p10) (pow2 48) ;;
  let partial_data2 := (q9 + q10 * tempc)%float in
  let partial_data3 := (partial_data1 * partial_data2)%float in
  p11 <- par_p11 ;;
  q11 <- fdiv (float_of_int p11) (pow2 65) ;;
  let partial_data4 :=
    (partial_data3 + (raw_pressure * raw_pressure * raw_pressure) * q11)%float in
  ret (partial_out1 + partial_out2 + partial_data4)%float.

(** [BMP390.temperature] *)
Definition BMP390_temperature : M float :=
  raw_temp <- cbits_get (_temperature BMP390) ;;
  _calculate_temperature_compensation (float_of_int raw_temp).

(** [BMP390.pressure] *)
Definition BMP390_pressure : M float :=
  raw_pressure <- cbits_get (_pressure BMP390) ;;
  raw_temp <- cbits_get (_temperature BMP390) ;;
  tempc <- _calculate_temperature_compensation (float_of_int raw_temp) ;;
  comp_press <- _calculate_pressure_compensation (float_of_int raw_pressure) tempc ;;
  fdiv comp_press 100.0%float.

(** The [temperature] and [pressure] properties, resolved on the class of
    [self]. *)
Definition temperature (self : variant) : M float :=
  match self with
  | BMP581 | BMP585 => BMP581_temperature self
  | BMP390 => BMP390_temperature
  | BMP280 => BMP280_temperature
  end.

Definition pressure (self : variant) : M float :=
  match self with
  | BMP581 | BMP585 => BMP581_pressure self
  | BMP390 => BMP390_pressure
  | BMP280 => BMP280_pressure
  end.

(** ** The altitude and the diagnostic property *)

(** The literals [0.1902632] and [44330.77] of the barometric formula, as
    the compiler rounds them to binary64. *)
Definition BAROMETRIC_EXPONENT : float := 0x1.85a8b66d0ef71p-3%float.
Definition BAROMETRIC_SCALE : float := 0x1.5a558a3d70a3dp+15%float.

(** A float that is a number and not a whole one: what the interpreter
    tests by [y != floor(y)] on a [y] that is not a NaN. *)
Definition fractional (y : float) : bool :=
  match Prim2SF y with
  | S754_finite _ m e => if 0 <=? e then false else negb (Zpos m mod 2 ^ (- e) =? 0)
  | _ => false
  end.

(** [BMP581.sea_level_pressure] *)
Definition sea_level_pressure : M float :=
  fun s => (Ok (_sea_level_pressure s), s).

Section FloatPower.

(** The value of C's [pow] where the C standard leaves it to the library. *)
Variable libm_pow : float -> float -> float.

(** [x ** y] on floats, as the MicroPython float object computes it on a
    build without complex numbers: a zero base with a negative finite
    exponent raises [ZeroDivisionError], a negative base with a fractional
    exponent raises [ValueError], and everything else is C's [pow], which
    is 1 at a base of 1 or an exponent of 0 and +0 at a zero base with a
    positive fractional exponent. *)
Definition float_pow (x y : float) : M float :=
  if (x =? 0)%float && (y <? 0)%float && negb (is_infinity y)
  then raise ZeroDivisionError
  else if (x <? 0)%float && fractional y
  then raise ValueError
  else if (x =? 1)%float || (y =? 0)%float
  then ret 1%float
  else if (x =? 0)%float && (0 <? y)%float && fractional y
  then ret 0%float
  else ret (libm_pow x y).

(** [BMP581.altitude], which no subclass overrides; [self.pressure] is the
    property of the class of [self]. *)
Definition altitude (self : variant) : M float :=
  p <- pressure self ;;
  reference <- sea_level_pressure ;;
  ratio <- fdiv p reference ;;
  w <- float_pow ratio BAROMETRIC_EXPONENT ;;
  ret (BAROMETRIC_SCALE * (1.0 - w))%float.


(** [BMP581.config], which no subclass overrides: it only prints.  The
    [print] calls write to the console; their arguments are evaluated in
    order. *)
Definition config (self : variant) : M unit :=
  register_struct_get (_REG_WHOAMI self) ;;;
  power_mode self ;;;
  pressure_oversample_rate self ;;;
  temperature_oversample_rate self ;;;
  iir_coefficient self ;;;
  sea_level_pressure ;;;
  pressure self ;;;
  temperature self ;;;
  altitude self ;;;
  ret tt.

End FloatPower.

(** ** Views used in the statements *)

(** A transport without faults and a device that answers at [self._address]. *)
Definition healthy (s : state) : Prop :=
  faults s = [] /\ present s (_address s) = true.

(** The register byte of the device of [self]. *)
Definition reg_byte (s : state) (reg : Z) : Z := byte_at s (_address s) reg.

(** One register cell of the device of [self] overwritten. *)
Definition poke (reg x : Z) (s : state) : state :=
  with_mem (store (_address s) reg [x] (mem s)) s.

(** The register writes of a transaction log, in order. *)
Fixpoint writes (l : list event) : list (Z * list Z) :=
  match l with
  | [] => []
  | MemWrite _ reg data :: rest => (reg, data) :: writes rest
  | _ :: rest => writes rest
  end.

(** A bounded search, used to settle facts about all bytes by evaluation. *)
Fixpoint all_from (n : nat) (k : Z) (P : Z -> bool) : bool :=
  match n with
  | O => true
  | S n' => P k && all_from n' (k + 1) P
  end.

Definition all_below (n : Z) (P : Z -> bool) : bool := all_from (Z.to_nat n) 0 P.

(** The name the source gives to the constant of a setting: [STANDBY],
    [NORMAL], ... for a power mode, [OSR1], ... for an oversampling rate,
    [COEF_0], ... for an IIR coefficient. *)
Definition constant_names (what : setting) : list string :=
  match what with
  | PowerMode => ["STANDBY"; "NORMAL"; "FORCED"; "NON_STOP"]%string
  | PressureOversampleRate | TemperatureOversampleRate =>
      ["OSR1"; "OSR2"; "OSR4"; "OSR8"; "OSR16"; "OSR32"; "OSR64"; "OSR128"]%string
  | IirCoefficient =>
      ["COEF_0"; "COEF_1"; "COEF_3"; "COEF_7";
       "COEF_15"; "COEF_31"; "COEF_63"; "COEF_127"]%string
  end.

Definition constant_name (what : setting) (value : Z) : option string :=
  if value <? 0 then None else nth_error (constant_names what) (Z.to_nat value).

(** Setting [value] succeeds and the getter then names the same constant. *)
Definition round_trips (self : variant) (what : setting) (value : Z) (s : state) : Prop :=
  exists (s' : state) (name : string),
    setter self what value s = (Ok tt, s') /\
    constant_name what value = Some name /\
    fst (getter self what s') = Ok name.

(** A concrete bus with one device that answers everywhere, all registers
    zero. *)
Definition quiet_state : state :=
  mkState (fun _ => true) (fun _ _ => 0) [] [] 0x47 WORLD_AVERAGE_SEA_LEVEL_PRESSURE 0.

(** The documented addresses and device identifiers of the four chips. *)
Definition default_address (self : variant) : Z :=
  match self with
  | BMP581 | BMP585 => 0x47
  | BMP390 => 0x7f
  | BMP280 => 0x77
  end.

Definition secondary_address (self : variant) : Z :=
  match self with
  | BMP581 | BMP585 => 0x46
  | BMP390 => 0x7e
  | BMP280 => 0x76
  end.

Definition expected_id (self : variant) : Z :=
  match self with
  | BMP581 => 0x50
  | BMP585 => 0x51
  | BMP390 => 0x60
  | BMP280 => 0x58
  end.

(** The first candidate address at which a device acknowledges: the address
    of the caller when there is one, else the default, then the secondary. *)
Definition acknowledging_candidate (self : variant) (address : option Z) (s : state)
  : option Z :=
  match address with
  | Some a => if present s a then Some a else None
  | None =>
      if present s (default_address self) then Some (default_address self)
      else if present s (secondary_address self) then Some (secondary_address self)
      else None
  end.

(** Whether the transport lets the next memory transaction through. *)
Definition next_transaction_ok (s : state) : bool :=
  match faults s with
  | [] => true
  | f :: _ => negb f
  end.

(** A computation that never raises [RuntimeError]. *)
Definition no_runtime_error {A : Type} (m : M A) : Prop :=
  forall s, fst (m s) <> Raise RuntimeError.

(** Two's-complement sign extension over [bits] bits, in the words of the
    specification: subtract [2 ^ bits] when the top bit is set. *)
Definition sign_extend (bits raw : Z) : Z :=
  if raw <? 2 ^ (bits - 1) then raw else raw - 2 ^ bits.

(** The field a descriptor selects in the registers of the device. *)
Definition raw_reading (d : CBits) (s : state) : Z :=
  field_of d (le_assemble
                (map (fun k => reg_byte s (register_address d + Z.of_nat k))
                     (seq 0 (register_width d)))).

(** The calibration constants of the BMP280, as the registers hold them. *)
Definition dig_u (s : state) (msb_reg lsb_reg : Z) : float :=
  float_of_int (_combine_unsigned (reg_byte s msb_reg) (reg_byte s lsb_reg)).

Definition dig_s (s : state) (msb_reg lsb_reg : Z) : float :=
  float_of_int (_combine_signed (reg_byte s msb_reg) (reg_byte s lsb_reg)).

(** The intermediate denominator [var1] of the BMP280 pressure compensation,
    the numerator term [var2], and the rational polynomial in the raw
    pressure, as the data sheet and the specification describe them. *)
Definition pressure_denominator (s : state) : float :=
  let v := (float_of_int (t_fine s) / 2.0 - 64000.0)%float in
  ((1.0 + (dig_s s 0x93 0x92 * v * v / 524288.0 + dig_s s 0x91 0x90 * v)
            / 524288.0 / 32768.0)
   * dig_u s 0x8f 0x8e)%float.

Definition pressure_offset (s : state) : float :=
  let v := (float_of_int (t_fine s) / 2.0 - 64000.0)%float in
  ((v * v * dig_s s 0x99 0x98 / 32768.0 + v * dig_s s 0x97 0x96 * 2.0) / 4.0
   + dig_s s 0x95 0x94 * 65536.0)%float.

Definition pressure_polynomial (s : state) (raw_pressure : Z) : float :=
  let p := ((1048576.0 - float_of_int raw_pressure - pressure_offset s / 4096.0)
            * 6250.0 / pressure_denominator s)%float in
  (p + (dig_s s 0x9f 0x9e * p * p / 2147483648.0
        + p * dig_s s 0x9d 0x9c / 32768.0
        + dig_s s 0x9b 0x9a) / 16.0)%float.

(** The calibration example of the BMP280 data sheet, with [t_fine] as its
    temperature compensation leaves it. *)
Definition datasheet_registers : list (Z * Z) :=
  [(0x8e, 0x7D); (0x8f, 0x8E); (0x90, 0x43); (0x91, 0xD6); (0x92, 0xD0); (0x93, 0x0B);
   (0x94, 0x27); (0x95, 0x0B); (0x96, 0x8C); (0x97, 0x00); (0x98, 0xF9); (0x99, 0xFF);
   (0x9a, 0x8C); (0x9b, 0x3C); (0x9c, 0xF8); (0x9d, 0xC6); (0x9e, 0x70); (0x9f, 0x17)].

Fixpoint lookup_register (table : list (Z * Z)) (reg : Z) : Z :=
  match table with
  | [] => 0
  | (r, b) :: rest => if r =? reg then b else lookup_register rest reg
  end.

Definition datasheet_state : state :=
  mkState (fun _ => true) (fun _ reg => lookup_register datasheet_registers reg) [] []
          0x77 WORLD_AVERAGE_SEA_LEVEL_PRESSURE 128422.

(** What the BMP280 setters must do to the control byte [c]: stay within a
    byte, put the translated rate into its field, keep the two other fields. *)
Definition control_update_ok (clear shift : Z) (kept1 kept2 : CBits) (value c : Z) : bool :=
  let w := Z.land c clear + Z.shiftl (_translate_osr_bmp280 value) shift in
  (0 <=? w) && (w <? 256)
  && (field_of (mkCBits 3 0xF4 shift 1) w =? _translate_osr_bmp280 value)
  && (field_of kept1 w =? field_of kept1 c)
  && (field_of kept2 w =? field_of kept2 c).

(** The descriptor and the tuple of names a getter of the configuration
    surface uses, by class. *)
Definition descriptor (self : variant) (what : setting) : CBits :=
  match what with
  | PowerMode => _power_mode self
  | PressureOversampleRate => _pressure_oversample_rate self
  | TemperatureOversampleRate => _temperature_oversample_rate self
  | IirCoefficient => _iir_coefficient self
  end.

Definition getter_names (self : variant) (what : setting) : list string :=
  match what, self with
  | PowerMode, (BMP581 | BMP585) => ["STANDBY"; "NORMAL"; "FORCED"; "NON_STOP"]%string
  | PowerMode, BMP390 => ["STANDBY"; "FORCED"; "NORMAL"]%string
  | PowerMode, BMP280 => ["STANDBY"; "FORCED"; "FORCED"; "NORMAL"]%string
  | (PressureOversampleRate | TemperatureOversampleRate), (BMP581 | BMP585) =>
      ["OSR1"; "OSR2"; "OSR4"; "OSR8"; "OSR16"; "OSR32"; "OSR64"; "OSR128"]%string
  | (PressureOversampleRate | TemperatureOversampleRate), BMP390 =>
      ["OSR1"; "OSR2"; "OSR4"; "OSR8"; "OSR16"; "OSR32"]%string
  | (PressureOversampleRate | TemperatureOversampleRate), BMP280 =>
      ["OSR_SKIP"; "OSR1"; "OSR2"; "OSR4"; "OSR8"; "OSR16"]%string
  | IirCoefficient, _ =>
      ["COEF_0"; "COEF_1"; "COEF_3"; "COEF_7";
       "COEF_15"; "COEF_31"; "COEF_63"; "COEF_127"]%string
  end.

(** The value of the field of a setting in the registers of the device. *)
Definition stored (self : variant) (what : setting) (s : state) : Z :=
  field_of (descriptor self what) (reg_byte s (register_address (descriptor self what))).

(** The setters that validate and then write one field; the value they
    write is the value set, except for the remapping of the [BMP280] power
    mode. *)
Definition single_write (self : variant) (what : setting) : Prop :=
  match self, what with
  | (BMP581 | BMP585 | BMP280), IirCoefficient => False
  | BMP280, (PressureOversampleRate | TemperatureOversampleRate) => False
  | _, _ => True
  end.

Definition written (self : variant) (what : setting) (value : Z) : Z :=
  match self, what with
  | BMP280, PowerMode =>
      let value := if value =? 0x01 then BMP280_NORMAL_POWER else value in
      if value =? 0x03 then BMP280_FORCED_POWER else value
  | _, _ => value
  end.

(** Two one-byte fields that do not overlap. *)
Definition apart (d d' : CBits) : Prop :=
  register_address d <> register_address d' \/
  start_bit d' + num_bits d' <= start_bit d \/
  start_bit d + num_bits d <= start_bit d'.

Definition one_byte (d : CBits) : Prop :=
  register_width d = 1%nat /\ 0 <= num_bits d /\ 0 <= start_bit d /\
  start_bit d + num_bits d <= 8.

(** The next memory transaction with the device of [self] will fail: the
    transport drops it, or the device does not answer. *)
Definition blocked (s : state) : Prop :=
  next_transaction_ok s = false \/ present s (_address s) = false.

(** The pair [_get_raw_temp_pressure] computes from the 48-bit block. *)
Definition raw_pair (raw_data : Z) : Z * Z :=
  let t_xlsb := Z.land (Z.shiftr raw_data 40) 0xFF in
  let t_lsb := Z.land (Z.shiftr raw_data 32) 0xFF in
  let t_msb := Z.land (Z.shiftr raw_data 24) 0xFF in
  let p_xlsb := Z.land (Z.shiftr raw_data 16) 0xFF in
  let p_lsb := Z.land (Z.shiftr raw_data 8) 0xFF in
  let p_msb := Z.land raw_data 0xFF in
  let p_raw := Z.lor (Z.lor (Z.shiftl p_msb 12) (Z.shiftl p_lsb 4)) (Z.shiftr p_xlsb 4) in
  let t_raw := Z.lor (Z.lor (Z.shiftl t_msb 12) (Z.shiftl t_lsb 4)) (Z.shiftr t_xlsb 4) in
  (t_raw, p_raw).

(** The probes [__init__] issues while it looks for the device: the caller's
    address alone, or the default address and, when it stays silent, the
    secondary one. *)
Definition probes_of (self : variant) (address : option Z) (s : state) : list event :=
  match address with
  | Some a => [Probe a]
  | None =>
      if present s (default_address self)
      then [Probe (default_address self)]
      else [Probe (default_address self); Probe (secondary_address self)]
  end.

(** A computation that leaves every register cell and the sea level
    reference as they are and logs no register write, whatever its
    result. *)
Definition read_only {A : Type} (m : M A) : Prop :=
  forall s,
    mem (snd (m s)) = mem s /\
    writes (log (snd (m s))) = writes (log s) /\
    _sea_level_pressure (snd (m s)) = _sea_level_pressure s.

(** On a bus without faults, a computation that leaves the transport, the
    address and the registers as they are, logs no register write, and can
    fail in the conversion of a float to an integer only. *)
Definition reads_quietly {A : Type} (m : M A) : Prop :=
  forall s,
    healthy s ->
    healthy (snd (m s)) /\
    _address (snd (m s)) = _address s /\
    mem (snd (m s)) = mem s /\
    writes (log (snd (m s))) = writes (log s) /\
    forall e, fst (m s) = Raise e -> e = OverflowError \/ e = ValueError.

(** The register reads of a list of spans, as log events. *)
Definition reads_of (address : Z) (spans : list (Z * Z)) : list event :=
  map (fun span => MemRead address (fst span) (Z.to_nat (snd span))) spans.

(** The spans one [BMP390] reading fetches, in order: the data registers,
    then every calibration constant its formula mentions. *)
Definition BMP390_temperature_spans : list (Z * Z) :=
  [(0x07, 3); (0x32, 1); (0x31, 1); (0x34, 1); (0x33, 1); (0x35, 1); (0x35, 1)].

Definition BMP390_pressure_spans : list (Z * Z) :=
  [(0x04, 3); (0x07, 3);
   (0x32, 1); (0x31, 1); (0x34, 1); (0x33, 1); (0x35, 1); (0x35, 1);
   (0x3F, 1); (0x3E, 1); (0x40, 1); (0x40, 1); (0x41, 1); (0x41, 1);
   (0x3D, 1); (0x3C, 1);
   (0x39, 1); (0x38, 1); (0x3A, 1); (0x3A, 1); (0x3B, 1); (0x3B, 1);
   (0x37, 1); (0x36, 1);
   (0x43, 1); (0x42, 1); (0x44, 1); (0x44, 1); (0x45, 1); (0x45, 1)].

(** On a bus without faults the computation returns, and all it does to
    the state is to log the reads of [spans]. *)
Definition traced {A : Type} (spans : list (Z * Z)) (m : M A) : Prop :=
  forall s,
    healthy s ->
    exists x : A, m s = (Ok x, add_log (reads_of (_address s) spans) s).

(** The computation raises [OSError] after one attempted read, with the
    registers as they were. *)
Definition fails_at_first_read {A : Type} (m : M A) (s : state) : Prop :=
  exists s' reg n,
    m s = (Raise OSError, s') /\
    mem s' = mem s /\
    log s' = log s ++ [MemRead (_address s) reg n].

(** The pressure a [BMP581] or [BMP585] reads from the registers as they
    are. *)
Definition linear_pressure (self : variant) (s : state) : float :=
  (float_of_int (_twos_comp (raw_reading (_pressure self) s) 24) / 64.0 / 100.0)%float.

(** The calibration properties of the [BMP390] ([par_*]) and of the
    [BMP280] ([dig_*]) by the decoding they apply: 16-bit words with the
    registers of their most and least significant byte, and single bytes
    with their register. *)
Definition signed_words : list (M Z * Z * Z) :=
  [(par_p1, 0x37, 0x36); (par_p2, 0x39, 0x38); (par_p9, 0x43, 0x42);
   (dig_t2, 0x8b, 0x8a); (dig_t3, 0x8d, 0x8c);
   (dig_p2, 0x91, 0x90); (dig_p3, 0x93, 0x92); (dig_p4, 0x95, 0x94);
   (dig_p5, 0x97, 0x96); (dig_p6, 0x99, 0x98); (dig_p7, 0x9b, 0x9a);
   (dig_p8, 0x9d, 0x9c); (dig_p9, 0x9f, 0x9e)].

Definition unsigned_words : list (M Z * Z * Z) :=
  [(par_t1, 0x32, 0x31); (par_t2, 0x34, 0x33); (par_p5, 0x3D, 0x3C); (par_p6, 0x3F, 0x3E);
   (dig_t1, 0x89, 0x88); (dig_p1, 0x8f, 0x8e)].

Definition signed_bytes : list (M Z * Z) :=
  [(par_t3, 0x35); (par_p3, 0x3A); (par_p4, 0x3B); (par_p7, 0x40); (par_p8, 0x41);
   (par_p10, 0x44); (par_p11, 0x45)].


(** * Properties *)

(** ** The monad *)

Lemma bind_run {A B : Type} (m : M A) (k : A -> M B) (s s' : state) (a : A) :
  m s = (Ok a, s') -> bind m k s = k a s'.
Proof. intros E. unfold bind. rewrite E. reflexivity. Qed.

Lemma bind_raise {A B : Type} (m : M A) (k : A -> M B) (s s' : state) (e : exn) :
  m s = (Raise e, s') -> bind m k s = (Raise e, s').
Proof. intros E. unfold bind. rewrite E. reflexivity. Qed.

(** ** The bus *)

Lemma healthy_add_log (es : list event) (s : state) :
  healthy s -> healthy (add_log es s).
Proof. intros [F P]. split; assumption. Qed.

Lemma healthy_poke (reg x : Z) (s : state) :
  healthy s -> healthy (poke reg x s).
Proof. intros [F P]. split; assumption. Qed.

Lemma healthy_t_fine (t : Z) (s : state) :
  healthy s -> healthy (with_t_fine t s).
Proof. intros [F P]. split; assumption. Qed.

Lemma reg_byte_add_log (es : list event) (s : state) (reg : Z) :
  reg_byte (add_log es s) reg = reg_byte s reg.
Proof. reflexivity. Qed.

Lemma reg_byte_t_fine (t : Z) (s : state) (reg : Z) :
  reg_byte (with_t_fine t s) reg = reg_byte s reg.
Proof. reflexivity. Qed.

Lemma reg_byte_poke (reg x : Z) (s : state) (r : Z) :
  reg_byte (poke reg x s) r = if r =? reg then Z.land x 255 else reg_byte s r.
Proof.
  unfold reg_byte, byte_at, poke, store. cbn.
  rewrite Z.eqb_refl. cbn.
  destruct (Z.eqb_spec r reg) as [->|N].
  - rewrite Z.leb_refl.
    replace (reg <? reg + 1) with true by (symmetry; apply Z.ltb_lt; lia).
    cbn. rewrite Z.sub_diag. reflexivity.
  - destruct (reg <=? r) eqn:L; cbn; [|reflexivity].
    destruct (r <? reg + 1) eqn:U; [|reflexivity].
    apply Z.leb_le in L. apply Z.ltb_lt in U. lia.
Qed.

Lemma log_add_log (es : list event) (s : state) : log (add_log es s) = log s ++ es.
Proof. reflexivity. Qed.

Lemma log_poke (reg x : Z) (s : state) : log (poke reg x s) = log s.
Proof. reflexivity. Qed.

Lemma add_log_add_log (es es' : list event) (s : state) :
  add_log es' (add_log es s) = add_log (es ++ es') s.
Proof. unfold add_log. cbn. rewrite app_assoc. reflexivity. Qed.

Lemma transact_healthy (s : state) :
  healthy s -> transact (_address s) s = (true, s).
Proof. intros [F P]. unfold transact. rewrite F, P. reflexivity. Qed.

Lemma readfrom_mem_healthy (reg : Z) (n : nat) (s : state) :
  healthy s ->
  readfrom_mem (_address s) reg n s =
    (Ok (map (fun k => reg_byte s (reg + Z.of_nat k)) (seq 0 n)),
     add_log [MemRead (_address s) reg n] s).
Proof.
  intros H. unfold readfrom_mem.
  change (_address s) with (_address (add_log [MemRead (_address s) reg n] s)) at 1.
  rewrite transact_healthy by (apply healthy_add_log; exact H).
  reflexivity.
Qed.

Lemma writeto_mem_healthy (reg x : Z) (s : state) :
  healthy s ->
  writeto_mem (_address s) reg [x] s =
    (Ok tt, poke reg x (add_log [MemWrite (_address s) reg [x]] s)).
Proof.
  intros H. unfold writeto_mem.
  change (_address s) with (_address (add_log [MemWrite (_address s) reg [x]] s)) at 1.
  rewrite transact_healthy by (apply healthy_add_log; exact H).
  reflexivity.
Qed.

(** ** The register helpers on one-byte spans *)

Lemma le_assemble_one (b : Z) : le_assemble [b] = b.
Proof. cbn. apply Z.lor_0_r. Qed.

Lemma cbits_get_healthy (d : CBits) (s : state) :
  healthy s -> register_width d = 1%nat ->
  cbits_get d s =
    (Ok (field_of d (reg_byte s (register_address d))),
     add_log [MemRead (_address s) (register_address d) 1] s).
Proof.
  intros H W. unfold cbits_get.
  erewrite bind_run by (apply readfrom_mem_healthy; exact H).
  rewrite W. cbn [seq map]. rewrite le_assemble_one, Z.add_0_r. reflexivity.
Qed.

Lemma cbits_set_healthy (d : CBits) (value : Z) (s : state) :
  healthy s -> register_width d = 1%nat ->
  cbits_set d value s =
    (Ok tt,
     poke (register_address d)
       (Z.land (merge_field d (reg_byte s (register_address d)) value) 255)
       (add_log [MemRead (_address s) (register_address d) 1;
                 MemWrite (_address s) (register_address d)
                   [Z.land (merge_field d (reg_byte s (register_address d)) value) 255]] s)).
Proof.
  intros H W. unfold cbits_set.
  erewrite bind_run by (apply readfrom_mem_healthy; exact H).
  rewrite W. cbn [seq map le_bytes]. rewrite le_assemble_one, Z.add_0_r.
  change (_address s) with (_address (add_log [MemRead (_address s) (register_address d) 1] s)) at 1.
  rewrite writeto_mem_healthy by (apply healthy_add_log; exact H).
  rewrite add_log_add_log. reflexivity.
Qed.

(** ** Bit fields inside one byte *)

Lemma testbit_255 (i : Z) : Z.testbit 255 i = (0 <=? i) && (i <? 8).
Proof. change 255 with (Z.ones 8). apply Z.testbit_ones. lia. Qed.

Lemma testbit_mask (d : CBits) (i : Z) :
  0 <= num_bits d -> 0 <= start_bit d -> 0 <= i ->
  Z.testbit (bit_mask d) i = (start_bit d <=? i) && (i <? start_bit d + num_bits d).
Proof.
  intros N S I. unfold bit_mask.
  rewrite Z.shiftl_spec by exact I.
  rewrite Z.testbit_ones by exact N.
  destruct (Z.leb_spec (start_bit d) i), (Z.leb_spec 0 (i - start_bit d)),
    (Z.ltb_spec (i - start_bit d) (num_bits d)), (Z.ltb_spec i (start_bit d + num_bits d));
    cbn; try reflexivity; lia.
Qed.

Ltac decide_range :=
  repeat match goal with
    | |- context [?a <=? ?b] =>
        first [ replace (a <=? b) with true by (symmetry; apply Z.leb_le; lia)
              | replace (a <=? b) with false by (symmetry; apply Z.leb_gt; lia) ]
    | |- context [?a <? ?b] =>
        first [ replace (a <? b) with true by (symmetry; apply Z.ltb_lt; lia)
              | replace (a <? b) with false by (symmetry; apply Z.ltb_ge; lia) ]
    end.

Lemma field_of_merge_field (d : CBits) (old value : Z) :
  0 <= num_bits d -> 0 <= start_bit d -> start_bit d + num_bits d <= 8 ->
  field_of d (Z.land (merge_field d old value) 255) = Z.land value (Z.ones (num_bits d)).
Proof.
  intros N S W. unfold field_of, merge_field.
  apply Z.bits_inj'. intros i I.
  rewrite !Z.land_spec, Z.shiftr_spec, Z.land_spec, Z.lor_spec, !Z.land_spec by exact I.
  rewrite testbit_255, Z.lnot_spec, testbit_mask, Z.shiftl_spec, Z.testbit_ones by lia.
  replace (i + start_bit d - start_bit d) with i by lia.
  destruct (Z.ltb_spec i (num_bits d)); decide_range; cbn.
  - rewrite andb_false_r, !andb_true_r. reflexivity.
  - rewrite !andb_false_r. reflexivity.
Qed.

Lemma field_of_merge_other (d d' : CBits) (old value : Z) :
  0 <= num_bits d -> 0 <= start_bit d ->
  0 <= num_bits d' -> 0 <= start_bit d' -> start_bit d' + num_bits d' <= 8 ->
  start_bit d' + num_bits d' <= start_bit d \/ start_bit d + num_bits d <= start_bit d' ->
  field_of d' (Z.land (merge_field d old value) 255) = field_of d' old.
Proof.
  intros N S N' S' W D. unfold field_of, merge_field.
  apply Z.bits_inj'. intros i I.
  rewrite !Z.land_spec, !Z.shiftr_spec, Z.land_spec, Z.lor_spec, !Z.land_spec by exact I.
  rewrite testbit_255, Z.lnot_spec, testbit_mask, Z.testbit_ones by lia.
  destruct (Z.ltb_spec i (num_bits d')); decide_range; cbn.
  - assert ((start_bit d <=? i + start_bit d') && (i + start_bit d' <? start_bit d + num_bits d) = false) as ->.
    { apply andb_false_iff. destruct D; [left; apply Z.leb_gt | right; apply Z.ltb_ge]; lia. }
    cbn. rewrite andb_false_r, orb_false_r, !andb_true_r. reflexivity.
  - rewrite !andb_false_r. reflexivity.
Qed.

Lemma field_of_range (d : CBits) (reg : Z) :
  0 <= num_bits d -> 0 <= field_of d reg < 2 ^ num_bits d.
Proof.
  intros N. unfold field_of. rewrite Z.land_ones by exact N.
  apply Z.mod_pos_bound. apply Z.pow_pos_nonneg; lia.
Qed.

Lemma reg_byte_range (s : state) (reg : Z) : 0 <= reg_byte s reg < 256.
Proof.
  unfold reg_byte, byte_at. change 255 with (Z.ones 8).
  rewrite Z.land_ones by lia. apply Z.mod_pos_bound. reflexivity.
Qed.

Lemma all_from_spec (n : nat) (P : Z -> bool) :
  forall k, all_from n k P = true -> forall z, k <= z < k + Z.of_nat n -> P z = true.
Proof.
  induction n as [|n' IH]; intros k A z R.
  - lia.
  - cbn [all_from] in A. apply andb_true_iff in A as [Here Later].
    destruct (Z.eq_dec z k) as [->|N].
    + exact Here.
    + apply (IH (k + 1)); [exact Later | lia].
Qed.

Lemma all_below_spec (n : Z) (P : Z -> bool) :
  all_below n P = true -> forall z, 0 <= z < n -> P z = true.
Proof.
  intros A z R. apply (all_from_spec _ _ 0 A). rewrite Z2Nat.id by lia. lia.
Qed.

Lemma py_in_spec (value : Z) (values : list Z) :
  py_in value values = true <-> In value values.
Proof.
  unfold py_in. rewrite existsb_exists. split.
  - intros (x & I & E). apply Z.eqb_eq in E. subst. exact I.
  - intros I. exists value. split; [exact I | apply Z.eqb_refl].
Qed.

Lemma py_in_false (value : Z) (values : list Z) :
  ~ In value values -> py_in value values = false.
Proof.
  intros N. destruct (py_in value values) eqn:E; [|reflexivity].
  apply py_in_spec in E. contradiction.
Qed.

(** ** Calibration decoding *)

Lemma combine_bytes (c : Z) :
  0 <= c < 0x10000 ->
  0 <= Z.shiftr c 8 < 256 /\ 0 <= Z.land c 0xFF < 256 /\
  Z.lor (Z.shiftl (Z.shiftr c 8) 8) (Z.land c 0xFF) = c.
Proof.
  intros R.
  assert (all_below 65536
            (fun c => (0 <=? Z.shiftr c 8) && (Z.shiftr c 8 <? 256)
                      && (0 <=? Z.land c 0xFF) && (Z.land c 0xFF <? 256)
                      && (Z.lor (Z.shiftl (Z.shiftr c 8) 8) (Z.land c 0xFF) =? c)) = true)
    as A by (vm_compute; reflexivity).
  apply all_below_spec with (z := c) in A; [|exact R].
  repeat (apply andb_true_iff in A as [A ?]).
  repeat split; try (apply Z.leb_le; assumption); try (apply Z.ltb_lt; assumption).
  apply Z.eqb_eq. assumption.
Qed.

Lemma combine_signed_spec (c : Z) :
  0 <= c < 0x10000 ->
  _combine_signed (Z.shiftr c 8) (Z.land c 0xFF) = if c <? 0x8000 then c else c - 0x10000.
Proof.
  intros R.
  assert (all_below 65536
            (fun c => _combine_signed (Z.shiftr c 8) (Z.land c 0xFF)
                      =? (if c <? 0x8000 then c else c - 0x10000)) = true)
    as A by (vm_compute; reflexivity).
  apply Z.eqb_eq. exact (all_below_spec _ _ A c R).
Qed.

Lemma combine_unsigned_spec (c : Z) :
  0 <= c < 0x10000 ->
  _combine_unsigned (Z.shiftr c 8) (Z.land c 0xFF) = c.
Proof.
  intros R.
  assert (all_below 65536
            (fun c => _combine_unsigned (Z.shiftr c 8) (Z.land c 0xFF) =? c) = true)
    as A by (vm_compute; reflexivity).
  apply Z.eqb_eq. exact (all_below_spec _ _ A c R).
Qed.

Lemma field_of_whole_byte (reg b : Z) :
  0 <= b < 256 -> field_of (mkCBits 8 reg 0 1) b = b.
Proof.
  intros R. unfold field_of. cbn [start_bit num_bits].
  rewrite Z.shiftr_0_r, Z.land_ones by lia. apply Z.mod_small. exact R.
Qed.

Lemma byte_get_healthy (reg : Z) (s : state) :
  healthy s ->
  cbits_get (mkCBits 8 reg 0 1) s =
    (Ok (reg_byte s reg), add_log [MemRead (_address s) reg 1] s).
Proof.
  intros H. rewrite cbits_get_healthy by (exact H || reflexivity).
  cbn [register_address]. rewrite field_of_whole_byte by apply reg_byte_range.
  reflexivity.
Qed.

Lemma land_255_small (b : Z) : 0 <= b < 256 -> Z.land b 255 = b.
Proof.
  intros R. change 255 with (Z.ones 8). rewrite Z.land_ones by lia.
  apply Z.mod_small. exact R.
Qed.

Create HintDb bus.
Create Rewrite HintDb bus.
#[local] Hint Resolve healthy_add_log healthy_poke healthy_t_fine : bus.
Lemma address_add_log (es : list event) (s : state) :
  _address (add_log es s) = _address s.
Proof. reflexivity. Qed.

Lemma address_poke (reg x : Z) (s : state) : _address (poke reg x s) = _address s.
Proof. reflexivity. Qed.

#[local] Hint Rewrite reg_byte_add_log reg_byte_t_fine reg_byte_poke
  address_add_log address_poke log_poke log_add_log : bus.

(** Runs the next register access of a computation on a healthy bus. *)
Ltac run_get :=
  erewrite bind_run
    by (first [ apply byte_get_healthy
              | apply cbits_get_healthy; [|first [reflexivity | assumption]] ];
        auto with bus).
Ltac run_set :=
  erewrite bind_run
    by (apply cbits_set_healthy; [|first [reflexivity | assumption]]; auto with bus).

Lemma healthy_quiet_state : healthy quiet_state.
Proof. split; reflexivity. Qed.

Lemma word_read (mr lr c : Z) (k : Z -> M Z) (s : state) :
  (lr =? mr) = false -> 0 <= c < 0x10000 -> healthy s ->
  (msb_value <- cbits_get (mkCBits 8 mr 0 1) ;;
   lsb_value <- cbits_get (mkCBits 8 lr 0 1) ;;
   k (Z.lor (Z.shiftl msb_value 8) lsb_value))
    (poke mr (Z.shiftr c 8) (poke lr (Z.land c 0xFF) s))
  = k c (add_log [MemRead (_address s) mr 1; MemRead (_address s) lr 1]
           (poke mr (Z.shiftr c 8) (poke lr (Z.land c 0xFF) s))).
Proof.
  intros Apart R H. destruct (combine_bytes c R) as (Rm & Rl & E).
  run_get. run_get.
  autorewrite with bus. rewrite Z.eqb_refl, Apart, Z.eqb_refl.
  rewrite !land_255_small by assumption. rewrite E, add_log_add_log. reflexivity.
Qed.

Lemma signed_threshold (c : Z) :
  0 <= c < 0x10000 ->
  (if negb (Z.land c 0x8000 =? 0) then c - 0x10000 else c)
  = (if c <? 0x8000 then c else c - 0x10000).
Proof.
  intros R. pose proof (combine_signed_spec c R) as S.
  destruct (combine_bytes c R) as (_ & _ & E).
  unfold _combine_signed in S. cbv zeta in S. rewrite E in S. exact S.
Qed.

Ltac read_word k :=
  match goal with
  | |- fst (_ (poke ?mr (Z.shiftr ?c 8) (poke ?lr (Z.land ?c 0xFF) ?s))) = ?v =>
      change (fst ((msb_value <- cbits_get (mkCBits 8 mr 0 1) ;;
                    lsb_value <- cbits_get (mkCBits 8 lr 0 1) ;;
                    k (Z.lor (Z.shiftl msb_value 8) lsb_value))
                     (poke mr (Z.shiftr c 8) (poke lr (Z.land c 0xFF) s))) = v);
      rewrite word_read by (reflexivity || assumption)
  end.

Lemma signed_word_decodes (g : M Z) (mr lr c : Z) (s : state) :
  In (g, mr, lr) signed_words ->
  0 <= c < 0x10000 -> healthy s ->
  fst (g (poke mr (Z.shiftr c 8) (poke lr (Z.land c 0xFF) s)))
  = Ok (if c <? 0x8000 then c else c - 0x10000).
Proof.
  intros Listed R H. unfold signed_words in Listed. cbn [In] in Listed.
  repeat (destruct Listed as [Entry|Listed]; [injection Entry as <- <- <-|]);
    try contradiction;
    first
      [ read_word (fun combined_value : Z =>
                     if combined_value >=? 0x8000
                     then @ret Z (combined_value - 0x10000)
                     else ret combined_value);
        destruct (Z.ltb_spec c 0x8000), (Z.geb_spec c 0x8000); try lia; reflexivity
      | read_word (fun combined : Z =>
                     @ret Z (if negb (Z.land combined 0x8000 =? 0)
                             then combined - 0x10000 else combined));
        cbn [ret fst]; rewrite signed_threshold by exact R; reflexivity ].
Qed.

Lemma unsigned_word_decodes (g : M Z) (mr lr c : Z) (s : state) :
  In (g, mr, lr) unsigned_words ->
  0 <= c < 0x10000 -> healthy s ->
  fst (g (poke mr (Z.shiftr c 8) (poke lr (Z.land c 0xFF) s))) = Ok c.
Proof.
  intros Listed R H. unfold unsigned_words in Listed. cbn [In] in Listed.
  assert (Z.land c 0xFFFF = c) as Masked.
  { change 0xFFFF with (Z.ones 16). rewrite Z.land_ones by lia.
    apply Z.mod_small. exact R. }
  repeat (destruct Listed as [Entry|Listed]; [injection Entry as <- <- <-|]);
    try contradiction;
    first
      [ read_word (fun combined : Z => @ret Z (Z.land combined 0xFFFF));
        cbn [ret fst]; rewrite Masked; reflexivity
      | read_word (fun combined : Z => @ret Z combined); reflexivity ].
Qed.

Lemma par_signed_byte_run (reg : Z) (s : state) :
  healthy s ->
  par_signed_byte reg s =
    (Ok (if reg_byte s reg <=? 127 then reg_byte s reg else reg_byte s reg - 256),
     add_log [MemRead (_address s) reg 1; MemRead (_address s) reg 1] s).
Proof.
  intros H. unfold par_signed_byte. run_get.
  destruct (reg_byte s reg <=? 127).
  - rewrite byte_get_healthy by auto with bus.
    autorewrite with bus. rewrite add_log_add_log. reflexivity.
  - run_get. autorewrite with bus. unfold ret. rewrite add_log_add_log. reflexivity.
Qed.

Lemma signed_byte_decodes (g : M Z) (reg b : Z) (s : state) :
  In (g, reg) signed_bytes ->
  0 <= b < 256 -> healthy s ->
  fst (g (poke reg b s)) = Ok (if b <=? 127 then b else b - 256).
Proof.
  intros Listed R H. unfold signed_bytes in Listed. cbn [In] in Listed.
  repeat (destruct Listed as [Entry|Listed]; [injection Entry as <- <-|]);
    try contradiction;
    match goal with
    | |- fst (_ (poke ?r _ _)) = _ => change (fst (par_signed_byte r (poke r b s))
                                              = Ok (if b <=? 127 then b else b - 256))
    end;
    rewrite par_signed_byte_run by auto with bus;
    autorewrite with bus; rewrite Z.eqb_refl, land_255_small by exact R; reflexivity.
Qed.

(** C4. Every 16-bit combination [c] of two calibration bytes decodes, as a
    signed constant, to [c] below [0x8000] and to [c - 0x10000] from there on,
    by [BMP280._combine_signed] and by every signed 16-bit calibration
    property ([par_p1], [par_p2], [par_p9], [dig_t2], [dig_t3], [dig_p2] to
    [dig_p9]) reading the two bytes from its registers; as an unsigned
    constant it decodes to [c] itself, by [BMP280._combine_unsigned] and by
    [par_t1], [par_t2], [par_p5], [par_p6], [dig_t1] and [dig_p1]; every byte
    [b] decodes, as a signed constant, to [b] up to 127 and to [b - 256]
    above, by [par_t3], [par_p3], [par_p4], [par_p7], [par_p8], [par_p10]
    and [par_p11]. *)
Theorem C4_calibration_decoding (c b : Z) (s : state) :
  0 <= c < 0x10000 -> 0 <= b < 256 -> healthy s ->
  let msb := Z.shiftr c 8 in
  let lsb := Z.land c 0xFF in
  Z.lor (Z.shiftl msb 8) lsb = c /\
  _combine_signed msb lsb = (if c <? 0x8000 then c else c - 0x10000) /\
  _combine_unsigned msb lsb = c /\
  (forall g msb_reg lsb_reg,
      In (g, msb_reg, lsb_reg) signed_words ->
      fst (g (poke msb_reg msb (poke lsb_reg lsb s)))
      = Ok (if c <? 0x8000 then c else c - 0x10000)) /\
  (forall g msb_reg lsb_reg,
      In (g, msb_reg, lsb_reg) unsigned_words ->
      fst (g (poke msb_reg msb (poke lsb_reg lsb s))) = Ok c) /\
  (forall g reg,
      In (g, reg) signed_bytes ->
      fst (g (poke reg b s)) = Ok (if b <=? 127 then b else b - 256)).
Proof.
  intros Rc Rb H msb lsb. subst msb lsb.
  split; [apply (combine_bytes c Rc)|].
  split; [apply combine_signed_spec; exact Rc|].
  split; [apply combine_unsigned_spec; exact Rc|].
  split; [intros g mr lr Listed; apply signed_word_decodes; assumption|].
  split; [intros g mr lr Listed; apply unsigned_word_decodes; assumption|].
  intros g reg Listed. apply signed_byte_decodes; assumption.
Qed.

Lemma C4_calibration_decoding_witness :
  _combine_signed 0x80 0x01 = -32767 /\
  _combine_unsigned 0x80 0x01 = 32769 /\
  fst (par_p1 (poke 0x37 0x80 (poke 0x36 0x01 quiet_state))) = Ok (-32767) /\
  fst (par_p9 (poke 0x43 0x80 (poke 0x42 0x01 quiet_state))) = Ok (-32767) /\
  fst (dig_t3 (poke 0x8d 0x80 (poke 0x8c 0x01 quiet_state))) = Ok (-32767) /\
  fst (par_t2 (poke 0x34 0x80 (poke 0x33 0x01 quiet_state))) = Ok 32769 /\
  fst (par_t3 (poke 0x35 200 quiet_state)) = Ok (-56) /\
  fst (par_p11 (poke 0x45 200 quiet_state)) = Ok (-56).
Proof.
  assert (0 <= 0x8001 < 0x10000) as Rc by lia.
  assert (0 <= 200 < 256) as Rb by lia.
  assert (healthy quiet_state) as H by (split; reflexivity).
  destruct (C4_calibration_decoding 0x8001 200 quiet_state Rc Rb H)
    as (_ & S & U & Words & Unsigned & Bytes).
  split; [exact S|]. split; [exact U|].
  split; [apply (Words par_p1 0x37 0x36); cbn; tauto|].
  split; [apply (Words par_p9 0x43 0x42); cbn; tauto|].
  split; [apply (Words dig_t3 0x8d 0x8c); cbn; tauto|].
  split; [apply (Unsigned par_t2 0x34 0x33); cbn; tauto|].
  split; [apply (Bytes par_t3 0x35); cbn; tauto|].
  apply (Bytes par_p11 0x45); cbn; tauto.
Defined.

(** ** Validation of the configuration setters *)

(** C5. For every class and every configuration setter, a value outside the
    legal set of the class raises [ValueError] with the state as it was: no
    bus transaction is logged, no register is written. *)
Theorem C5_invalid_value_rejected (self : variant) (what : setting) (value : Z) (s : state) :
  ~ In value (legal_values self what) ->
  setter self what value s = (Raise ValueError, s).
Proof.
  intros Out. apply py_in_false in Out.
  destruct self, what; cbn [setter legal_values] in *;
    unfold power_mode_setter, pressure_oversample_rate_setter,
      temperature_oversample_rate_setter, iir_coefficient_setter,
      BMP581_power_mode_setter, BMP390_power_mode_setter, BMP280_power_mode_setter,
      BMP581_pressure_oversample_rate_setter, BMP390_pressure_oversample_rate_setter,
      BMP280_pressure_oversample_rate_setter,
      BMP581_temperature_oversample_rate_setter, BMP390_temperature_oversample_rate_setter,
      BMP280_temperature_oversample_rate_setter,
      BMP581_iir_coefficient_setter, BMP390_iir_coefficient_setter;
    rewrite Out; reflexivity.
Qed.

Lemma C5_invalid_value_rejected_witness :
  setter BMP280 PressureOversampleRate OSR32 quiet_state = (Raise ValueError, quiet_state) /\
  writes (log (snd (setter BMP280 PressureOversampleRate OSR32 quiet_state))) = [].
Proof.
  assert (~ In OSR32 (legal_values BMP280 PressureOversampleRate)) as Out
    by (simpl; unfold OSR32, OSR1, OSR2, OSR4, OSR8, OSR16; lia).
  rewrite (C5_invalid_value_rejected BMP280 PressureOversampleRate OSR32 quiet_state Out).
  split; reflexivity.
Defined.

(** ** Round trips of the configuration surface *)

Lemma land_255_twice (x : Z) : Z.land (Z.land x 255) 255 = Z.land x 255.
Proof. rewrite <- Z.land_assoc. reflexivity. Qed.

(** A setter that only writes a field, followed by a getter that indexes a
    tuple of names by that field. *)
Lemma plain_round_trip (d : CBits) (names : list string) (value : Z) (name : string)
    (s : state) :
  healthy s -> register_width d = 1%nat ->
  0 <= num_bits d -> 0 <= start_bit d -> start_bit d + num_bits d <= 8 ->
  Z.land value (Z.ones (num_bits d)) = value ->
  nth_error names (Z.to_nat value) = Some name ->
  exists s',
    cbits_set d value s = (Ok tt, s') /\ healthy s' /\
    fst ((i <- cbits_get d ;; py_index names i) s') = Ok name.
Proof.
  intros H W N S B Fits Named.
  eexists. split; [apply cbits_set_healthy; assumption|].
  split; [auto with bus|].
  run_get. autorewrite with bus. rewrite Z.eqb_refl, land_255_twice.
  rewrite field_of_merge_field, Fits by assumption.
  unfold py_index. rewrite Named. reflexivity.
Qed.

Ltac plain_case d names :=
  match goal with
  | H : healthy ?s |- round_trips ?self ?what ?value ?s =>
      let s' := fresh "s'" in
      let E := fresh "E" in
      let G := fresh "G" in
      destruct (plain_round_trip d names value
                  (nth (Z.to_nat value) names EmptyString) s H)
        as (s' & E & _ & G);
      [ reflexivity | cbn; lia | cbn; lia | cbn; lia | reflexivity | reflexivity | ];
      exists s', (nth (Z.to_nat value) names EmptyString);
      split; [exact E | split; [reflexivity | exact G]]
  end.

Ltac each_legal_value I :=
  cbn [legal_values power_mode_values pressure_oversample_rate_values
       temperature_oversample_rate_values iir_coefficient_values In] in I;
  repeat (destruct I as [<-|I]); [..|contradiction].

Lemma round_trip_BMP58x_power_mode (self : variant) (value : Z) (s : state) :
  self = BMP581 \/ self = BMP585 ->
  healthy s -> In value (legal_values self PowerMode) ->
  round_trips self PowerMode value s.
Proof.
  intros [-> | ->] H I; each_legal_value I;
    plain_case (mkCBits 2 0x37 0 1) ["STANDBY"; "NORMAL"; "FORCED"; "NON_STOP"]%string.
Qed.

Lemma round_trip_BMP58x_oversample_rate (self : variant) (what : setting) (value : Z)
    (s : state) :
  self = BMP581 \/ self = BMP585 ->
  what = PressureOversampleRate \/ what = TemperatureOversampleRate ->
  healthy s -> In value (legal_values self what) ->
  round_trips self what value s.
Proof.
  intros [-> | ->] [-> | ->] H I; each_legal_value I;
    first
      [ plain_case (mkCBits 3 0x36 3 1)
          ["OSR1"; "OSR2"; "OSR4"; "OSR8"; "OSR16"; "OSR32"; "OSR64"; "OSR128"]%string
      | plain_case (mkCBits 3 0x36 0 1)
          ["OSR1"; "OSR2"; "OSR4"; "OSR8"; "OSR16"; "OSR32"; "OSR64"; "OSR128"]%string ].
Qed.

Lemma round_trip_BMP390_oversample_rate (what : setting) (value : Z) (s : state) :
  what = PressureOversampleRate \/ what = TemperatureOversampleRate ->
  healthy s -> In value (legal_values BMP390 what) ->
  round_trips BMP390 what value s.
Proof.
  intros [-> | ->] H I; each_legal_value I;
    first
      [ plain_case (mkCBits 3 0x1c 0 1)
          ["OSR1"; "OSR2"; "OSR4"; "OSR8"; "OSR16"; "OSR32"]%string
      | plain_case (mkCBits 3 0x1c 3 1)
          ["OSR1"; "OSR2"; "OSR4"; "OSR8"; "OSR16"; "OSR32"]%string ].
Qed.

Lemma round_trip_BMP390_iir_coefficient (value : Z) (s : state) :
  healthy s -> In value (legal_values BMP390 IirCoefficient) ->
  round_trips BMP390 IirCoefficient value s.
Proof.
  intros H I; each_legal_value I;
    plain_case (mkCBits 3 0x1f 1 1)
      ["COEF_0"; "COEF_1"; "COEF_3"; "COEF_7";
       "COEF_15"; "COEF_31"; "COEF_63"; "COEF_127"]%string.
Qed.

Lemma round_trip_BMP390_standby (s : state) :
  healthy s -> round_trips BMP390 PowerMode STANDBY s.
Proof.
  intros H. plain_case (mkCBits 2 0x1b 4 1) ["STANDBY"; "FORCED"; "NORMAL"]%string.
Qed.

Lemma round_trip_BMP280_standby_forced (value : Z) (s : state) :
  value = STANDBY \/ value = FORCED ->
  healthy s -> round_trips BMP280 PowerMode value s.
Proof.
  intros [-> | ->] H;
    plain_case (mkCBits 2 0xF4 0 1) ["STANDBY"; "FORCED"; "FORCED"; "NORMAL"]%string.
Qed.

(** What a setter that wrote [written] into the field makes the getter say. *)
Ltac reads_back d names written :=
  match goal with
  | H : healthy ?s |- _ =>
      let s' := fresh "s'" in
      let E := fresh "E" in
      let G := fresh "G" in
      destruct (plain_round_trip d names written
                  (nth (Z.to_nat written) names EmptyString) s H)
        as (s' & E & _ & G);
      [ reflexivity | cbn; lia | cbn; lia | cbn; lia | reflexivity | reflexivity | ];
      exists s'; split; [exact E | exact G]
  end.

Lemma BMP280_normal_reads_forced (s : state) :
  healthy s ->
  exists s',
    setter BMP280 PowerMode NORMAL s = (Ok tt, s') /\
    fst (getter BMP280 PowerMode s') = Ok "FORCED"%string.
Proof.
  intros H.
  reads_back (mkCBits 2 0xF4 0 1) ["STANDBY"; "FORCED"; "FORCED"; "NORMAL"]%string
             BMP280_FORCED_POWER.
Qed.

Lemma BMP390_normal_reads_forced (s : state) :
  healthy s ->
  exists s',
    setter BMP390 PowerMode NORMAL s = (Ok tt, s') /\
    fst (getter BMP390 PowerMode s') = Ok "FORCED"%string.
Proof.
  intros H.
  reads_back (mkCBits 2 0x1b 4 1) ["STANDBY"; "FORCED"; "NORMAL"]%string NORMAL.
Qed.

Lemma BMP390_forced_reads_normal (s : state) :
  healthy s ->
  exists s',
    setter BMP390 PowerMode FORCED s = (Ok tt, s') /\
    fst (getter BMP390 PowerMode s') = Ok "NORMAL"%string.
Proof.
  intros H.
  reads_back (mkCBits 2 0x1b 4 1) ["STANDBY"; "FORCED"; "NORMAL"]%string FORCED.
Qed.

(** C1. The round trip of the claim fails on the code: on a [BMP280],
    [NORMAL] is a legal power mode, its setter succeeds, but the second
    remapping test turns the remapped [0x03] back into [0x01], and the getter
    then answers ["FORCED"], not the name of [NORMAL]. *)
Theorem C1_BMP280_power_mode_normal_does_not_round_trip (s : state) :
  healthy s ->
  In NORMAL (legal_values BMP280 PowerMode) /\
  constant_name PowerMode NORMAL = Some "NORMAL"%string /\
  (exists s',
     setter BMP280 PowerMode NORMAL s = (Ok tt, s') /\
     fst (getter BMP280 PowerMode s') = Ok "FORCED"%string) /\
  ~ round_trips BMP280 PowerMode NORMAL s.
Proof.
  intros H. split; [cbn; auto|]. split; [reflexivity|].
  destruct (BMP280_normal_reads_forced s H) as (s' & E & G).
  split; [exists s'; split; assumption|].
  intros (s2 & name & E2 & Named & G2).
  rewrite E in E2. injection E2 as <-.
  cbv in Named. injection Named as <-.
  rewrite G in G2. discriminate G2.
Qed.

Lemma C1_BMP280_power_mode_normal_does_not_round_trip_witness :
  ~ round_trips BMP280 PowerMode NORMAL quiet_state.
Proof.
  assert (healthy quiet_state) as H by (split; reflexivity).
  exact (proj2 (proj2 (proj2
    (C1_BMP280_power_mode_normal_does_not_round_trip quiet_state H)))).
Defined.

(** ** The IIR coefficient on the STANDBY-only classes *)

Lemma power_mode_field_cases (self : variant) (reg : Z) :
  field_of (_power_mode self) reg = 0 \/ field_of (_power_mode self) reg = 1 \/
  field_of (_power_mode self) reg = 2 \/ field_of (_power_mode self) reg = 3.
Proof.
  assert (0 <= field_of (_power_mode self) reg < 2 ^ num_bits (_power_mode self)) as R
    by (apply field_of_range; destruct self; cbn; lia).
  replace (num_bits (_power_mode self)) with 2 in R by (destruct self; reflexivity).
  change (2 ^ 2) with 4 in R. lia.
Qed.

Lemma BMP58x_power_mode_setter_writes (self : variant) (value : Z) :
  self = BMP581 \/ self = BMP585 -> 0 <= value < 4 ->
  power_mode_setter self value = cbits_set (mkCBits 2 0x37 0 1) value.
Proof.
  intros Self R.
  assert (value = 0 \/ value = 1 \/ value = 2 \/ value = 3) as [->|[->|[->| ->]]] by lia;
    destruct Self as [-> | ->]; reflexivity.
Qed.

Lemma BMP58x_iir_coefficient_setter_run (self : variant) (value : Z) (s : state) :
  self = BMP581 \/ self = BMP585 ->
  healthy s -> In value (iir_coefficient_values self) ->
  let a := _address s in
  let mode := field_of (mkCBits 2 0x37 0 1) (reg_byte s 0x37) in
  let w1 := Z.land (merge_field (mkCBits 2 0x37 0 1) (reg_byte s 0x37) STANDBY) 255 in
  let w2 := Z.land (merge_field (mkCBits 3 0x31 3 1) (reg_byte s 0x31) value) 255 in
  let w3 := Z.land (merge_field (mkCBits 3 0x31 0 1) w2 value) 255 in
  let w4 := Z.land (merge_field (mkCBits 2 0x37 0 1) w1 mode) 255 in
  mode <> STANDBY ->
  exists s',
    iir_coefficient_setter self value s = (Ok tt, s') /\
    healthy s' /\
    log s' = log s ++ [MemRead a 0x37 1;
                       MemRead a 0x37 1; MemWrite a 0x37 [w1];
                       MemRead a 0x31 1; MemWrite a 0x31 [w2];
                       MemRead a 0x31 1; MemWrite a 0x31 [w3];
                       MemRead a 0x37 1; MemWrite a 0x37 [w4]] /\
    reg_byte s' 0x37 = w4 /\ reg_byte s' 0x31 = w3.
Proof.
  intros Self H I a mode w1 w2 w3 w4 Running.
  apply py_in_spec in I.
  assert (iir_coefficient_setter self value = BMP581_iir_coefficient_setter self value) as ->
    by (destruct Self as [-> | ->]; reflexivity).
  unfold BMP581_iir_coefficient_setter. rewrite I. cbn [negb].
  replace (_power_mode self) with (mkCBits 2 0x37 0 1)
    by (destruct Self as [-> | ->]; reflexivity).
  replace (_iir_coefficient self) with (mkCBits 3 0x31 3 1)
    by (destruct Self as [-> | ->]; reflexivity).
  unfold _iir_temp_coefficient.
  eexists. split.
  - run_get. cbn [register_address]. fold mode.
    apply Z.eqb_neq in Running. rewrite Running. cbn [negb].
    rewrite !BMP58x_power_mode_setter_writes
      by (first [exact Self | unfold STANDBY; lia
                | subst mode; apply (field_of_range (mkCBits 2 0x37 0 1)); cbn; lia]).
    run_set. run_set. run_set.
    rewrite cbits_set_healthy by (auto with bus || reflexivity).
    reflexivity.
  - split; [auto 10 with bus|].
    cbn [register_address].
    autorewrite with bus. cbn [Z.eqb Pos.eqb].
    rewrite !land_255_twice.
    split; [|split; reflexivity].
    rewrite <- !app_assoc. reflexivity.
Qed.

Lemma BMP58x_power_mode_reads (self : variant) (s : state) :
  self = BMP581 \/ self = BMP585 -> healthy s ->
  fst (power_mode self s) =
    match nth_error ["STANDBY"; "NORMAL"; "FORCED"; "NON_STOP"]%string
            (Z.to_nat (field_of (mkCBits 2 0x37 0 1) (reg_byte s 0x37))) with
    | Some name => Ok name
    | None => Raise IndexError
    end.
Proof.
  intros Self H.
  assert (power_mode self = BMP581_power_mode self) as ->
    by (destruct Self as [-> | ->]; reflexivity).
  unfold BMP581_power_mode.
  replace (_power_mode self) with (mkCBits 2 0x37 0 1)
    by (destruct Self as [-> | ->]; reflexivity).
  run_get. cbn [register_address]. unfold py_index.
  destruct (nth_error _ _); reflexivity.
Qed.

Lemma BMP58x_mode_of_name (self : variant) (s : state) :
  self = BMP581 \/ self = BMP585 -> healthy s ->
  fst (power_mode self s) = Ok "NORMAL"%string ->
  field_of (mkCBits 2 0x37 0 1) (reg_byte s 0x37) = NORMAL.
Proof.
  intros Self H Says. rewrite BMP58x_power_mode_reads in Says by assumption.
  destruct (power_mode_field_cases BMP581 (reg_byte s 0x37)) as [E|[E|[E|E]]];
    cbn [_power_mode] in E; rewrite E in Says |- *;
    cbn in Says; first [reflexivity | discriminate Says].
Qed.

Lemma mode_register_restored (c : Z) :
  0 <= c < 256 ->
  Z.land (merge_field (mkCBits 2 0x37 0 1)
            (Z.land (merge_field (mkCBits 2 0x37 0 1) c STANDBY) 255)
            (field_of (mkCBits 2 0x37 0 1) c)) 255 = c.
Proof.
  intros R.
  assert (all_below 256
            (fun c =>
               Z.land (merge_field (mkCBits 2 0x37 0 1)
                         (Z.land (merge_field (mkCBits 2 0x37 0 1) c STANDBY) 255)
                         (field_of (mkCBits 2 0x37 0 1) c)) 255 =? c) = true)
    as A by (vm_compute; reflexivity).
  apply Z.eqb_eq. exact (all_below_spec _ _ A c R).
Qed.

Lemma iir_value_fits (self : variant) (value : Z) :
  In value (iir_coefficient_values self) -> Z.land value (Z.ones 3) = value.
Proof.
  intros I. cbn [iir_coefficient_values In] in I.
  repeat (destruct I as [<-|I]); [..|contradiction]; reflexivity.
Qed.

(** C7. On a [BMP581] or [BMP585] whose power mode reads ["NORMAL"], setting
    a legal IIR coefficient performs exactly these bus transactions: the
    capture of the power mode, the switch to [STANDBY], the write of the
    pressure coefficient, the write of the temperature coefficient, and the
    switch back to the captured mode; the register writes are those four, in
    that order, the mode register ends as it started, and the power mode
    reads ["NORMAL"] again. *)
Theorem C7_iir_coefficient_sequence (self : variant) (value : Z) (s : state) :
  self = BMP581 \/ self = BMP585 ->
  healthy s ->
  In value (legal_values self IirCoefficient) ->
  fst (power_mode self s) = Ok "NORMAL"%string ->
  exists (s' : state) (w1 w2 w3 w4 : Z),
    setter self IirCoefficient value s = (Ok tt, s') /\
    log s' = log s ++ [MemRead (_address s) 0x37 1;
                       MemRead (_address s) 0x37 1; MemWrite (_address s) 0x37 [w1];
                       MemRead (_address s) 0x31 1; MemWrite (_address s) 0x31 [w2];
                       MemRead (_address s) 0x31 1; MemWrite (_address s) 0x31 [w3];
                       MemRead (_address s) 0x37 1; MemWrite (_address s) 0x37 [w4]] /\
    writes (log s') = writes (log s) ++ [(0x37, [w1]); (0x31, [w2]); (0x31, [w3]); (0x37, [w4])] /\
    field_of (_power_mode self) w1 = STANDBY /\
    field_of (_iir_coefficient self) w2 = value /\
    field_of (_iir_coefficient self) w3 = value /\
    field_of (_iir_temp_coefficient self) w3 = value /\
    field_of (_power_mode self) w4 = NORMAL /\
    w4 = reg_byte s 0x37 /\
    reg_byte s' 0x37 = w4 /\ reg_byte s' 0x31 = w3 /\
    fst (power_mode self s') = Ok "NORMAL"%string.
Proof.
  intros Self H I Says.
  pose proof (BMP58x_mode_of_name self s Self H Says) as Mode.
  pose proof (iir_value_fits self value I) as Fits.
  destruct (BMP58x_iir_coefficient_setter_run self value s Self H I)
    as (s' & Run & H' & Log & Mode' & Coef').
  { rewrite Mode. discriminate. }
  rewrite Mode in *.
  replace (_power_mode self) with (mkCBits 2 0x37 0 1)
    by (destruct Self as [-> | ->]; reflexivity).
  replace (_iir_coefficient self) with (mkCBits 3 0x31 3 1)
    by (destruct Self as [-> | ->]; reflexivity).
  unfold _iir_temp_coefficient.
  assert (Z.land
            (merge_field (mkCBits 2 0x37 0 1)
               (Z.land (merge_field (mkCBits 2 0x37 0 1) (reg_byte s 0x37) STANDBY) 255)
               NORMAL) 255 = reg_byte s 0x37) as Restored.
  { rewrite <- Mode at 1. apply mode_register_restored, reg_byte_range. }
  eexists s', _, _, _, _.
  split; [exact Run|]. split; [exact Log|].
  split.
  { rewrite Log. clear. induction (log s) as [|e l IH]; [reflexivity|].
    destruct e; cbn [writes app]; rewrite ?IH; reflexivity. }
  split; [rewrite field_of_merge_field by (cbn; lia); reflexivity|].
  split; [rewrite field_of_merge_field by (cbn; lia); exact Fits|].
  split.
  { rewrite field_of_merge_other by (cbn; lia).
    rewrite field_of_merge_field by (cbn; lia). exact Fits. }
  split; [rewrite field_of_merge_field by (cbn; lia); exact Fits|].
  split; [rewrite field_of_merge_field by (cbn; lia); reflexivity|].
  split; [exact Restored|].
  split; [exact Mode'|]. split; [exact Coef'|].
  rewrite BMP58x_power_mode_reads by assumption.
  rewrite Mode', Restored, Mode. reflexivity.
Qed.

Lemma C7_iir_coefficient_sequence_witness :
  exists s',
    setter BMP581 IirCoefficient COEF_3 (poke 0x37 NORMAL quiet_state) = (Ok tt, s') /\
    writes (log s') = [(0x37, [0]); (0x31, [16]); (0x31, [18]); (0x37, [1])] /\
    fst (power_mode BMP581 s') = Ok "NORMAL"%string.
Proof.
  assert (healthy (poke 0x37 NORMAL quiet_state)) as H by (split; reflexivity).
  assert (In COEF_3 (legal_values BMP581 IirCoefficient)) as I by (simpl; auto).
  assert (fst (power_mode BMP581 (poke 0x37 NORMAL quiet_state)) = Ok "NORMAL"%string)
    as Says by reflexivity.
  destruct (C7_iir_coefficient_sequence BMP581 COEF_3 (poke 0x37 NORMAL quiet_state)
              (or_introl eq_refl) H I Says)
    as (s' & w1 & w2 & w3 & w4 & Run & Log & _ & _ & _ & _ & _ & _ & _ & _ & _ & After).
  exists s'. split; [exact Run|]. split; [|exact After].
  vm_compute in Run. injection Run as <-. reflexivity.
Defined.

Lemma BMP58x_iir_coefficient_setter_from_standby (self : variant) (value : Z) (s : state) :
  self = BMP581 \/ self = BMP585 ->
  healthy s -> In value (iir_coefficient_values self) ->
  field_of (mkCBits 2 0x37 0 1) (reg_byte s 0x37) = STANDBY ->
  exists s',
    iir_coefficient_setter self value s = (Ok tt, s') /\
    healthy s' /\
    writes (log s') = writes (log s) ++
      [(0x31, [Z.land (merge_field (mkCBits 3 0x31 3 1) (reg_byte s 0x31) value) 255]);
       (0x31, [Z.land (merge_field (mkCBits 3 0x31 0 1)
                        (Z.land (merge_field (mkCBits 3 0x31 3 1) (reg_byte s 0x31) value) 255)
                        value) 255]);
       (0x37, [Z.land (merge_field (mkCBits 2 0x37 0 1) (reg_byte s 0x37) STANDBY) 255])] /\
    reg_byte s' 0x31 =
      Z.land (merge_field (mkCBits 3 0x31 0 1)
                (Z.land (merge_field (mkCBits 3 0x31 3 1) (reg_byte s 0x31) value) 255)
                value) 255.
Proof.
  intros Self H I Standby.
  apply py_in_spec in I.
  assert (iir_coefficient_setter self value = BMP581_iir_coefficient_setter self value) as ->
    by (destruct Self as [-> | ->]; reflexivity).
  unfold BMP581_iir_coefficient_setter. rewrite I. cbn [negb].
  replace (_power_mode self) with (mkCBits 2 0x37 0 1)
    by (destruct Self as [-> | ->]; reflexivity).
  replace (_iir_coefficient self) with (mkCBits 3 0x31 3 1)
    by (destruct Self as [-> | ->]; reflexivity).
  unfold _iir_temp_coefficient.
  eexists. split.
  - run_get. cbn [register_address]. rewrite Standby.
    rewrite Z.eqb_refl. cbn [negb].
    erewrite bind_run by reflexivity.
    rewrite !BMP58x_power_mode_setter_writes
      by (first [exact Self | unfold STANDBY; lia]).
    run_set. run_set.
    rewrite cbits_set_healthy by (auto with bus || reflexivity).
    reflexivity.
  - split; [auto 10 with bus|].
    cbn [register_address].
    autorewrite with bus. cbn [Z.eqb Pos.eqb].
    rewrite !land_255_twice.
    split; [|reflexivity].
    rewrite <- !app_assoc. cbn [app].
    clear. induction (log s) as [|e l IH]; [reflexivity|].
    destruct e; cbn [writes app]; rewrite ?IH; reflexivity.
Qed.

Lemma round_trip_BMP58x_iir_coefficient (self : variant) (value : Z) (s : state) :
  self = BMP581 \/ self = BMP585 ->
  healthy s -> In value (legal_values self IirCoefficient) ->
  round_trips self IirCoefficient value s.
Proof.
  intros Self H I.
  pose proof (iir_value_fits self value I) as Fits.
  assert (exists s',
             setter self IirCoefficient value s = (Ok tt, s') /\ healthy s' /\
             field_of (mkCBits 3 0x31 3 1) (reg_byte s' 0x31) = value)
    as (s' & Run & H' & Field).
  { destruct (Z.eq_dec (field_of (mkCBits 2 0x37 0 1) (reg_byte s 0x37)) STANDBY) as [E|N].
    - destruct (BMP58x_iir_coefficient_setter_from_standby self value s Self H I E)
        as (s' & Run & H' & _ & Coef).
      exists s'. split; [exact Run|]. split; [exact H'|].
      rewrite Coef, field_of_merge_other by (cbn; lia).
      rewrite field_of_merge_field by (cbn; lia). exact Fits.
    - destruct (BMP58x_iir_coefficient_setter_run self value s Self H I N)
        as (s' & Run & H' & _ & _ & Coef).
      exists s'. split; [exact Run|]. split; [exact H'|].
      rewrite Coef, field_of_merge_other by (cbn; lia).
      rewrite field_of_merge_field by (cbn; lia). exact Fits. }
  assert (fst (getter self IirCoefficient s') =
          match nth_error (constant_names IirCoefficient) (Z.to_nat value) with
          | Some name => Ok name
          | None => Raise IndexError
          end) as Reads.
  { assert (getter self IirCoefficient = BMP581_iir_coefficient self) as ->
      by (destruct Self as [-> | ->]; reflexivity).
    unfold BMP581_iir_coefficient.
    replace (_iir_coefficient self) with (mkCBits 3 0x31 3 1)
      by (destruct Self as [-> | ->]; reflexivity).
    run_get. cbn [register_address]. rewrite Field. unfold py_index.
    cbn [constant_names]. destruct (nth_error _ _); reflexivity. }
  cbn [legal_values iir_coefficient_values In] in I.
  repeat (destruct I as [<-|I]); [..|contradiction];
    eexists s', _; (split; [exact Run|]); (split; [reflexivity|]);
    rewrite Reads; reflexivity.
Qed.

(** The inherited IIR setter on a [BMP280] in its [NORMAL] mode ([0x03], as
    [__init__] leaves it): the coefficient is written, and the restoring
    [self.power_mode = original_mode] is refused by the [BMP280] validation. *)
Lemma BMP280_iir_coefficient_setter_raises (value : Z) (s : state) :
  healthy s -> In value (legal_values BMP280 IirCoefficient) ->
  field_of (mkCBits 2 0xF4 0 1) (reg_byte s 0xF4) = BMP280_NORMAL_POWER ->
  fst (setter BMP280 IirCoefficient value s) = Raise ValueError.
Proof.
  intros H I Mode. apply py_in_spec in I.
  cbn [setter iir_coefficient_setter legal_values] in *.
  unfold BMP581_iir_coefficient_setter. rewrite I. cbn [negb _power_mode].
  run_get. cbn [register_address]. rewrite Mode. cbn [Z.eqb Pos.eqb negb BMP280_NORMAL_POWER STANDBY].
  change (power_mode_setter BMP280 0) with (cbits_set (mkCBits 2 0xF4 0 1) 0).
  run_set. unfold _iir_coefficient, _iir_temp_coefficient. run_set. run_set.
  reflexivity.
Qed.

(** ** The oversampling setters of the BMP280 *)

Lemma merge_whole_byte (reg old value : Z) :
  Z.land (merge_field (mkCBits 8 reg 0 1) old value) 255 = Z.land value 255.
Proof.
  pose proof (field_of_merge_field (mkCBits 8 reg 0 1) old value) as F.
  unfold field_of in F. cbn [start_bit num_bits] in F.
  rewrite Z.shiftr_0_r in F. change (Z.ones 8) with 255 in F.
  rewrite land_255_twice in F. apply F; lia.
Qed.

Lemma control_update_spec (clear shift : Z) (kept1 kept2 : CBits) (value c : Z) :
  all_below 256 (control_update_ok clear shift kept1 kept2 value) = true ->
  0 <= c < 256 ->
  let w := Z.land c clear + Z.shiftl (_translate_osr_bmp280 value) shift in
  0 <= w < 256 /\
  field_of (mkCBits 3 0xF4 shift 1) w = _translate_osr_bmp280 value /\
  field_of kept1 w = field_of kept1 c /\
  field_of kept2 w = field_of kept2 c.
Proof.
  intros A R w. pose proof (all_below_spec _ _ A c R) as B.
  unfold control_update_ok in B. fold w in B.
  repeat (apply andb_true_iff in B as [B ?]).
  repeat split;
    first [ apply Z.leb_le; assumption | apply Z.ltb_lt; assumption
          | apply Z.eqb_eq; assumption ].
Qed.

Lemma BMP280_oversample_setter_run (what : setting) (value : Z) (s : state) :
  what = PressureOversampleRate \/ what = TemperatureOversampleRate ->
  healthy s -> In value (legal_values BMP280 what) ->
  let w := match what with
           | TemperatureOversampleRate =>
               Z.land (reg_byte s 0xF4) 0x1f + Z.shiftl (_translate_osr_bmp280 value) 5
           | _ =>
               Z.land (reg_byte s 0xF4) 0xe3 + Z.shiftl (_translate_osr_bmp280 value) 2
           end in
  exists s',
    setter BMP280 what value s = (Ok tt, s') /\
    healthy s' /\
    log s' = log s ++ [MemRead (_address s) 0xF4 1;
                       MemRead (_address s) 0xf5 1; MemWrite (_address s) 0xf5 [0];
                       MemRead (_address s) 0xF4 1; MemWrite (_address s) 0xF4 [Z.land w 255]] /\
    reg_byte s' 0xf5 = 0 /\
    reg_byte s' 0xF4 = Z.land w 255.
Proof.
  intros What H I w. apply py_in_spec in I.
  destruct What as [-> | ->];
    cbn [setter legal_values pressure_oversample_rate_setter
         temperature_oversample_rate_setter] in *;
    unfold BMP280_pressure_oversample_rate_setter,
      BMP280_temperature_oversample_rate_setter;
    rewrite I; cbn [negb]; unfold _control_register, _config_register;
    (eexists; split;
     [ run_get; run_set;
       rewrite cbits_set_healthy by (auto with bus || reflexivity);
       reflexivity
     | split; [auto 10 with bus|];
       cbn [register_address];
       autorewrite with bus; cbn [Z.eqb Pos.eqb];
       rewrite !merge_whole_byte, ?land_255_twice;
       split; [rewrite <- !app_assoc; reflexivity | split; reflexivity] ]).
Qed.

Lemma writes_app (l l' : list event) : writes (l ++ l') = writes l ++ writes l'.
Proof.
  induction l as [|e l IH]; [reflexivity|].
  destruct e; cbn [writes app]; rewrite ?IH; reflexivity.
Qed.

Lemma BMP280_iir_reads (s : state) :
  healthy s ->
  fst (getter BMP280 IirCoefficient s) =
    match nth_error (constant_names IirCoefficient)
            (Z.to_nat (field_of (mkCBits 3 0xf5 0 1) (reg_byte s 0xf5))) with
    | Some name => Ok name
    | None => Raise IndexError
    end.
Proof.
  intros H. cbn [getter iir_coefficient]. unfold BMP581_iir_coefficient.
  cbn [_iir_coefficient]. run_get. cbn [register_address]. unfold py_index.
  cbn [constant_names]. destruct (nth_error _ _); reflexivity.
Qed.

(** C10. On a [BMP280], setting either oversampling rate to a legal value
    writes [0x00] to the whole config register and then the control register:
    the IIR coefficient reads ["COEF_0"] afterwards whatever it was, the
    3-bit field of the rate holds the translated value, and the two other
    fields of the control register are as before. *)
Theorem C10_BMP280_oversample_setter_resets_config (what : setting) (value : Z) (s : state) :
  what = PressureOversampleRate \/ what = TemperatureOversampleRate ->
  healthy s ->
  In value (legal_values BMP280 what) ->
  let changed := match what with
                 | TemperatureOversampleRate => _temperature_oversample_rate BMP280
                 | _ => _pressure_oversample_rate BMP280
                 end in
  let other := match what with
               | TemperatureOversampleRate => _pressure_oversample_rate BMP280
               | _ => _temperature_oversample_rate BMP280
               end in
  exists (s' : state) (w : Z),
    setter BMP280 what value s = (Ok tt, s') /\
    writes (log s') = writes (log s) ++ [(0xf5, [0]); (0xF4, [w])] /\
    reg_byte s' 0xf5 = 0 /\
    fst (getter BMP280 IirCoefficient s') = Ok "COEF_0"%string /\
    reg_byte s' 0xF4 = w /\
    field_of changed w = _translate_osr_bmp280 value /\
    field_of other w = field_of other (reg_byte s 0xF4) /\
    field_of (_power_mode BMP280) w = field_of (_power_mode BMP280) (reg_byte s 0xF4).
Proof.
  intros What H I changed other.
  destruct (BMP280_oversample_setter_run what value s What H I)
    as (s' & Run & H' & Log & Config & Control).
  exists s', (reg_byte s' 0xF4).
  split; [exact Run|].
  split; [rewrite Log, writes_app, Control; reflexivity|].
  split; [exact Config|].
  split; [rewrite BMP280_iir_reads, Config by exact H'; reflexivity|].
  split; [reflexivity|].
  rewrite Control. pose proof (reg_byte_range s 0xF4) as R.
  subst changed other.
  destruct What as [-> | ->]; cbn [legal_values pressure_oversample_rate_values
    temperature_oversample_rate_values In] in I;
    repeat (destruct I as [<-|I]); try contradiction.
  all: match goal with
       | |- context [Z.land _ 0xe3 + Z.shiftl (_translate_osr_bmp280 ?v) 2] =>
           assert (all_below 256
                     (control_update_ok 0xe3 2 (_temperature_oversample_rate BMP280)
                        (_power_mode BMP280) v) = true) as A by (vm_compute; reflexivity);
           destruct (control_update_spec _ _ _ _ _ _ A R) as (W & F & K1 & K2)
       | |- context [Z.land _ 0x1f + Z.shiftl (_translate_osr_bmp280 ?v) 5] =>
           assert (all_below 256
                     (control_update_ok 0x1f 5 (_pressure_oversample_rate BMP280)
                        (_power_mode BMP280) v) = true) as A by (vm_compute; reflexivity);
           destruct (control_update_spec _ _ _ _ _ _ A R) as (W & F & K1 & K2)
       end;
    rewrite land_255_small by exact W;
    (split; [exact F | split; [exact K1 | exact K2]]).
Qed.

Lemma C10_BMP280_oversample_setter_resets_config_witness :
  fst (getter BMP280 IirCoefficient (poke 0xf5 COEF_7 quiet_state)) = Ok "COEF_7"%string /\
  exists s',
    setter BMP280 PressureOversampleRate OSR4 (poke 0xf5 COEF_7 quiet_state) = (Ok tt, s') /\
    writes (log s') = [(0xf5, [0]); (0xF4, [12])] /\
    fst (getter BMP280 IirCoefficient s') = Ok "COEF_0"%string.
Proof.
  split; [reflexivity|].
  assert (healthy (poke 0xf5 COEF_7 quiet_state)) as H by (split; reflexivity).
  assert (In OSR4 (legal_values BMP280 PressureOversampleRate)) as I by (simpl; auto).
  destruct (C10_BMP280_oversample_setter_resets_config PressureOversampleRate OSR4
              (poke 0xf5 COEF_7 quiet_state) (or_introl eq_refl) H I)
    as (s' & w & Run & _ & _ & Iir & _).
  exists s'. split; [exact Run|]. split; [|exact Iir].
  vm_compute in Run. injection Run as <-. reflexivity.
Defined.

Lemma round_trip_BMP280_oversample_rate (what : setting) (value : Z) (s : state) :
  what = PressureOversampleRate \/ what = TemperatureOversampleRate ->
  healthy s -> In value (legal_values BMP280 what) ->
  round_trips BMP280 what value s.
Proof.
  intros What H I.
  destruct (BMP280_oversample_setter_run what value s What H I)
    as (s' & Run & H' & _ & _ & Control).
  pose proof (reg_byte_range s 0xF4) as R.
  destruct What as [-> | ->];
    cbn [legal_values pressure_oversample_rate_values
         temperature_oversample_rate_values In] in I;
    repeat (destruct I as [<-|I]); try contradiction;
    eexists s', _; (split; [exact Run|]); (split; [reflexivity|]);
    cbn [getter pressure_oversample_rate temperature_oversample_rate];
    unfold BMP280_pressure_oversample_rate, BMP280_temperature_oversample_rate;
    run_get;
    cbn [register_address _pressure_oversample_rate _temperature_oversample_rate];
    rewrite Control;
    match goal with
    | |- context [Z.land _ 0xe3 + Z.shiftl (_translate_osr_bmp280 ?v) 2] =>
        assert (all_below 256
                  (control_update_ok 0xe3 2 (_temperature_oversample_rate BMP280)
                     (_power_mode BMP280) v) = true) as A by (vm_compute; reflexivity);
        destruct (control_update_spec _ _ _ _ _ _ A R) as (W & F & _)
    | |- context [Z.land _ 0x1f + Z.shiftl (_translate_osr_bmp280 ?v) 5] =>
        assert (all_below 256
                  (control_update_ok 0x1f 5 (_pressure_oversample_rate BMP280)
                     (_power_mode BMP280) v) = true) as A by (vm_compute; reflexivity);
        destruct (control_update_spec _ _ _ _ _ _ A R) as (W & F & _)
    end;
    rewrite land_255_small by exact W; rewrite F; reflexivity.
Qed.

(** Everywhere else on the configuration surface the round trip holds: on a
    bus without faults, setting a legal value succeeds and the getter then
    answers the name of that constant, for every class, setting and legal
    value other than the power modes NORMAL and FORCED of the [BMP390], the
    power mode NORMAL of the [BMP280] and the IIR coefficient of the
    [BMP280]. *)
Lemma round_trips_elsewhere (self : variant) (what : setting) (value : Z) (s : state) :
  healthy s ->
  In value (legal_values self what) ->
  match self, what with
  | BMP390, PowerMode => value = STANDBY
  | BMP280, PowerMode => value <> NORMAL
  | BMP280, IirCoefficient => False
  | _, _ => True
  end ->
  round_trips self what value s.
Proof.
  intros H I Sound.
  destruct self, what; try contradiction.
  - apply round_trip_BMP58x_power_mode; auto.
  - apply round_trip_BMP58x_oversample_rate; auto.
  - apply round_trip_BMP58x_oversample_rate; auto.
  - apply round_trip_BMP58x_iir_coefficient; auto.
  - apply round_trip_BMP58x_power_mode; auto.
  - apply round_trip_BMP58x_oversample_rate; auto.
  - apply round_trip_BMP58x_oversample_rate; auto.
  - apply round_trip_BMP58x_iir_coefficient; auto.
  - subst value. apply round_trip_BMP390_standby; exact H.
  - apply round_trip_BMP390_oversample_rate; auto.
  - apply round_trip_BMP390_oversample_rate; auto.
  - apply round_trip_BMP390_iir_coefficient; auto.
  - apply round_trip_BMP280_standby_forced; [|exact H].
    cbn [legal_values power_mode_values In] in I.
    destruct I as [<-|[<-|[<-|[]]]]; [left | right | contradiction]; reflexivity.
  - apply round_trip_BMP280_oversample_rate; auto.
  - apply round_trip_BMP280_oversample_rate; auto.
Qed.

Lemma round_trips_elsewhere_witness :
  round_trips BMP280 TemperatureOversampleRate OSR16 quiet_state /\
  round_trips BMP585 IirCoefficient COEF_127 quiet_state.
Proof.
  assert (healthy quiet_state) as H by (split; reflexivity).
  split.
  - apply (round_trips_elsewhere BMP280 TemperatureOversampleRate OSR16 quiet_state H).
    + cbn. tauto.
    + exact I.
  - apply (round_trips_elsewhere BMP585 IirCoefficient COEF_127 quiet_state H).
    + cbn. tauto.
    + exact I.
Defined.

(** ** Construction *)

Lemma nre_ret {A : Type} (a : A) : no_runtime_error (ret a).
Proof. intros s. discriminate. Qed.

Lemma nre_raise {A : Type} (e : exn) : e <> RuntimeError -> no_runtime_error (@raise A e).
Proof. intros N s E. injection E as ->. contradiction. Qed.

Lemma nre_bind {A B : Type} (m : M A) (k : A -> M B) :
  no_runtime_error m -> (forall a, no_runtime_error (k a)) -> no_runtime_error (bind m k).
Proof.
  intros Hm Hk s. unfold bind. specialize (Hm s).
  destruct (m s) as [[a|e] s']; [apply Hk|].
  cbn in *. intros E. apply Hm. injection E as ->. reflexivity.
Qed.

Lemma nre_readfrom_mem (addr reg : Z) (n : nat) : no_runtime_error (readfrom_mem addr reg n).
Proof.
  intros s. unfold readfrom_mem.
  destruct (transact addr _) as [[|] s2]; discriminate.
Qed.

Lemma nre_writeto_mem (addr reg : Z) (data : list Z) :
  no_runtime_error (writeto_mem addr reg data).
Proof.
  intros s. unfold writeto_mem.
  destruct (transact addr _) as [[|] s2]; discriminate.
Qed.

Lemma nre_cbits_get (d : CBits) : no_runtime_error (cbits_get d).
Proof.
  intros s. unfold cbits_get.
  apply nre_bind; [apply nre_readfrom_mem | intros; apply nre_ret].
Qed.

Lemma nre_cbits_set (d : CBits) (value : Z) : no_runtime_error (cbits_set d value).
Proof.
  intros s. unfold cbits_set.
  apply nre_bind; [apply nre_readfrom_mem | intros; apply nre_writeto_mem].
Qed.

Lemma nre_sleep_ms (ms : Z) : no_runtime_error (sleep_ms ms).
Proof. intros s. discriminate. Qed.

Lemma nre_fdiv (x y : float) : no_runtime_error (fdiv x y).
Proof.
  unfold fdiv. destruct (y =? 0)%float; [apply nre_raise; discriminate | apply nre_ret].
Qed.

Lemma nre_int_of_float (x : float) : no_runtime_error (int_of_float x).
Proof.
  unfold int_of_float.
  destruct (Prim2SF x); first [apply nre_ret | apply nre_raise; discriminate].
Qed.

Lemma nre_set_t_fine (t : Z) : no_runtime_error (set_t_fine t).
Proof. intros s. discriminate. Qed.

Lemma nre_get_t_fine : no_runtime_error get_t_fine.
Proof. intros s. discriminate. Qed.

Lemma nre_sea_level_pressure_setter (p : float) :
  no_runtime_error (sea_level_pressure_setter p).
Proof. intros s. discriminate. Qed.

Ltac nre :=
  repeat first
    [ apply nre_ret
    | apply nre_raise; discriminate
    | apply nre_cbits_get
    | apply nre_cbits_set
    | apply nre_sleep_ms
    | apply nre_fdiv
    | apply nre_int_of_float
    | apply nre_set_t_fine
    | apply nre_get_t_fine
    | apply nre_sea_level_pressure_setter
    | apply nre_bind; [|intros]
    | progress cbv zeta
    | match goal with
      | |- no_runtime_error (if ?b then _ else _) => destruct b
      | |- no_runtime_error (let '(_, _) := ?p in _) => destruct p
      end ].

Lemma nre_dig_unsigned (msb_reg lsb_reg : Z) : no_runtime_error (dig_unsigned msb_reg lsb_reg).
Proof. unfold dig_unsigned. nre. Qed.

Lemma nre_dig_signed (msb_reg lsb_reg : Z) : no_runtime_error (dig_signed msb_reg lsb_reg).
Proof. unfold dig_signed. nre. Qed.

Lemma nre_BMP280_pressure : no_runtime_error BMP280_pressure.
Proof.
  unfold BMP280_pressure, _get_raw_temp_pressure,
    _calculate_temperature_compensation_bmp280,
    _calculate_pressure_compensation_bmp280,
    dig_t1, dig_t2, dig_t3, dig_p1, dig_p2, dig_p3, dig_p4, dig_p5, dig_p6,
    dig_p7, dig_p8, dig_p9.
  repeat first [ apply nre_dig_unsigned | apply nre_dig_signed | progress nre ].
Qed.

Lemma init_shape (self : variant) (address : option Z) :
  exists tail : M unit,
    no_runtime_error tail /\
    __init__ self address =
      (sleep_ms 3 ;;;
       a <- resolve_address (default_address self) (secondary_address self) address ;;
       set_address a ;;;
       id <- _read_device_id self ;;
       if negb (id =? expected_id self) then raise RuntimeError else tail).
Proof.
  destruct self; eexists; (split; [|reflexivity]);
    repeat first [ apply nre_BMP280_pressure | progress nre ].
Qed.

Lemma check_address_run (address : Z) (s : state) :
  _check_address address s = (Ok (present s address), add_log [Probe address] s).
Proof.
  unfold _check_address, writeto_empty. cbn [present add_log].
  destruct (present s address); reflexivity.
Qed.

Lemma resolve_address_run (self : variant) (address : option Z) (s : state) :
  exists probes,
    resolve_address (default_address self) (secondary_address self) address s =
      (match acknowledging_candidate self address s with
       | Some a => Ok a
       | None => Raise RuntimeError
       end, add_log probes s).
Proof.
  unfold resolve_address, acknowledging_candidate. destruct address as [a|].
  - erewrite bind_run by apply check_address_run.
    exists [Probe a]. destruct (present s a); reflexivity.
  - erewrite bind_run by apply check_address_run.
    destruct (present s (default_address self)).
    + exists [Probe (default_address self)]. reflexivity.
    + erewrite bind_run by apply check_address_run.
      rewrite add_log_add_log. cbn [present add_log].
      eexists. destruct (present s (secondary_address self)); reflexivity.
Qed.

Lemma acknowledging_candidate_present (self : variant) (address : option Z) (s : state)
    (a : Z) :
  acknowledging_candidate self address s = Some a -> present s a = true.
Proof.
  unfold acknowledging_candidate. destruct address as [a'|].
  - destruct (present s a') eqn:P; [|discriminate]. intros [= <-]. exact P.
  - destruct (present s (default_address self)) eqn:P; [intros [= <-]; exact P|].
    destruct (present s (secondary_address self)) eqn:P'; [|discriminate].
    intros [= <-]. exact P'.
Qed.

Lemma read_device_id_run (self : variant) (s : state) :
  present s (_address s) = true ->
  exists s',
    _read_device_id self s =
      (if next_transaction_ok s
       then Ok (byte_at s (_address s) (_REG_WHOAMI self))
       else Raise OSError, s').
Proof.
  intros P. unfold _read_device_id, register_struct_get, bind, readfrom_mem, transact,
    next_transaction_ok.
  cbn [faults add_log present _address].
  destruct (faults s) as [|[|] fs]; cbn [negb andb]; rewrite ?P; cbn [andb];
    eexists; cbn [seq map nth ret]; rewrite ?Z.add_0_r; reflexivity.
Qed.

Lemma init_outcome (self : variant) (address : option Z) (tail : M unit) (s : state) :
  no_runtime_error tail ->
  fst ((sleep_ms 3 ;;;
        a <- resolve_address (default_address self) (secondary_address self) address ;;
        set_address a ;;;
        id <- _read_device_id self ;;
        if negb (id =? expected_id self) then raise RuntimeError else tail) s)
  = Raise RuntimeError
  <->
  match acknowledging_candidate self address s with
  | None => True
  | Some a =>
      next_transaction_ok s = true /\ byte_at s a (_REG_WHOAMI self) <> expected_id self
  end.
Proof.
  intros Tail.
  erewrite bind_run by reflexivity.
  destruct (resolve_address_run self address (add_log [Sleep 3] s)) as (probes & Resolve).
  change (acknowledging_candidate self address (add_log [Sleep 3] s))
    with (acknowledging_candidate self address s) in Resolve.
  destruct (acknowledging_candidate self address s) as [a|] eqn:Candidate.
  - apply acknowledging_candidate_present in Candidate.
    erewrite bind_run by exact Resolve.
    erewrite bind_run by reflexivity.
    destruct (read_device_id_run self
                (with_address a (add_log probes (add_log [Sleep 3] s))) Candidate)
      as (s' & Read).
    change (next_transaction_ok (with_address a (add_log probes (add_log [Sleep 3] s))))
      with (next_transaction_ok s) in Read.
    cbn [_address with_address] in Read.
    change (byte_at (with_address a (add_log probes (add_log [Sleep 3] s))) a
              (_REG_WHOAMI self))
      with (byte_at s a (_REG_WHOAMI self)) in Read.
    destruct (next_transaction_ok s).
    + erewrite bind_run by exact Read.
      destruct (Z.eqb_spec (byte_at s a (_REG_WHOAMI self)) (expected_id self)) as [E|N];
        cbn [negb].
      * split; [intros R; exfalso; exact (Tail s' R) | intros [_ N]; contradiction].
      * split; [intros _; split; [reflexivity | exact N] | reflexivity].
    + erewrite bind_raise by exact Read.
      split; [discriminate | intros [F _]; discriminate F].
  - erewrite bind_raise by exact Resolve.
    split; [intros _; exact I | reflexivity].
Qed.

Lemma init_transport_failure (self : variant) (address : option Z) (s : state) (a : Z) :
  acknowledging_candidate self address s = Some a ->
  next_transaction_ok s = false ->
  fst (__init__ self address s) = Raise OSError.
Proof.
  intros Candidate Faulty.
  destruct (init_shape self address) as (tail & Tail & ->).
  erewrite bind_run by reflexivity.
  destruct (resolve_address_run self address (add_log [Sleep 3] s)) as (probes & Resolve).
  change (acknowledging_candidate self address (add_log [Sleep 3] s))
    with (acknowledging_candidate self address s) in Resolve.
  rewrite Candidate in Resolve.
  apply acknowledging_candidate_present in Candidate.
  erewrite bind_run by exact Resolve.
  erewrite bind_run by reflexivity.
  destruct (read_device_id_run self
              (with_address a (add_log probes (add_log [Sleep 3] s))) Candidate)
    as (s' & Read).
  change (next_transaction_ok (with_address a (add_log probes (add_log [Sleep 3] s))))
    with (next_transaction_ok s) in Read.
  rewrite Faulty in Read.
  erewrite bind_raise by exact Read. reflexivity.
Qed.

(** C9. Construction raises [RuntimeError], the device-not-found error,
    exactly when no candidate address acknowledges (the address of the caller,
    or the default and then the secondary address of the class), or the first
    acknowledging device answers the read of its identification register with
    a byte other than the one of the class: [0x50], [0x51], [0x60], [0x58]. *)
Theorem C9_device_not_found (self : variant) (address : option Z) (s : state) :
  (expected_id BMP581 = 0x50 /\ expected_id BMP585 = 0x51 /\
   expected_id BMP390 = 0x60 /\ expected_id BMP280 = 0x58) /\
  (fst (__init__ self address s) = Raise RuntimeError
   <->
   acknowledging_candidate self address s = None \/
   exists a,
     acknowledging_candidate self address s = Some a /\
     next_transaction_ok s = true /\
     byte_at s a (_REG_WHOAMI self) <> expected_id self).
Proof.
  split; [repeat split|].
  destruct (init_shape self address) as (tail & Tail & ->).
  rewrite init_outcome by exact Tail.
  destruct (acknowledging_candidate self address s) as [a|].
  - split.
    + intros [T N]. right. exists a. repeat split; assumption.
    + intros [F | (a' & [= <-] & T & N)]; [discriminate F | split; assumption].
  - split; [intros _; left; reflexivity | intros _; exact I].
Qed.

Lemma C9_device_not_found_witness :
  fst (__init__ BMP390 None quiet_state) = Raise RuntimeError /\
  fst (__init__ BMP280 (Some 0x76)
         (mkState (fun _ => false) (fun _ _ => 0x58) [] [] 0 WORLD_AVERAGE_SEA_LEVEL_PRESSURE 0))
  = Raise RuntimeError.
Proof.
  split.
  - apply (proj2 (C9_device_not_found BMP390 None quiet_state)).
    right. exists 0x7f. split; [reflexivity|]. split; [reflexivity|].
    vm_compute. discriminate.
  - apply (proj2 (C9_device_not_found BMP280 (Some 0x76) _)).
    left. reflexivity.
Defined.

(** ** Readings of the linear-scale chips *)

Lemma cbits_get_span_healthy (d : CBits) (s : state) :
  healthy s ->
  cbits_get d s =
    (Ok (raw_reading d s),
     add_log [MemRead (_address s) (register_address d) (register_width d)] s).
Proof.
  intros H. unfold cbits_get.
  erewrite bind_run by (apply readfrom_mem_healthy; exact H).
  reflexivity.
Qed.

Lemma land_top_bit (bits raw : Z) :
  0 < bits -> 0 <= raw < 2 ^ bits ->
  Z.land raw (Z.shiftl 1 (bits - 1)) = 0 <-> raw < 2 ^ (bits - 1).
Proof.
  intros B R.
  rewrite Z.shiftl_1_l.
  assert (2 ^ bits = 2 * 2 ^ (bits - 1)) as P
    by (rewrite <- Z.pow_succ_r by lia; f_equal; lia).
  assert (0 < 2 ^ (bits - 1)) as Pos by (apply Z.pow_pos_nonneg; lia).
  assert (Z.land raw (2 ^ (bits - 1)) = if Z.testbit raw (bits - 1) then 2 ^ (bits - 1) else 0)
    as ->.
  { apply Z.bits_inj'. intros i I.
    rewrite Z.land_spec, Z.pow2_bits_eqb by lia.
    destruct (Z.eqb_spec (bits - 1) i) as [<-|N].
    - destruct (Z.testbit raw (bits - 1)); cbn.
      + rewrite Z.pow2_bits_true by lia. reflexivity.
      + rewrite Z.bits_0. reflexivity.
    - rewrite andb_false_r. destruct (Z.testbit raw (bits - 1)).
      + rewrite Z.pow2_bits_false by lia. reflexivity.
      + rewrite Z.bits_0. reflexivity. }
  pose proof (Z.testbit_spec' raw (bits - 1)) as T.
  assert (0 <= bits - 1) as Nonneg by lia. specialize (T Nonneg).
  destruct (Z.testbit raw (bits - 1)); cbn [Z.b2z] in T.
  - split; [lia|]. intros Small.
    rewrite Z.div_small in T by lia. discriminate T.
  - split; [|reflexivity]. intros _.
    destruct (Z.lt_ge_cases raw (2 ^ (bits - 1))) as [L|G]; [exact L|].
    assert (raw / 2 ^ (bits - 1) = 1) as Q.
    { symmetry. apply Z.div_unique with (r := raw - 2 ^ (bits - 1)); lia. }
    rewrite Q in T. discriminate T.
Qed.

Lemma twos_comp_spec (bits raw : Z) :
  0 < bits -> 0 <= raw < 2 ^ bits ->
  _twos_comp raw bits = sign_extend bits raw.
Proof.
  intros B R. unfold _twos_comp, sign_extend.
  pose proof (land_top_bit bits raw B R) as T.
  rewrite Z.shiftl_1_l with (n := bits).
  destruct (Z.eqb_spec (Z.land raw (Z.shiftl 1 (bits - 1))) 0) as [E|N],
    (Z.ltb_spec raw (2 ^ (bits - 1))) as [L|G]; cbn [negb]; try reflexivity.
  - apply T in E. lia.
  - apply T in L. contradiction.
Qed.

Lemma fdiv_run (x y : float) (s : state) :
  (y =? 0)%float = false -> fdiv x y s = (Ok (x / y)%float, s).
Proof. intros N. unfold fdiv. rewrite N. reflexivity. Qed.

Lemma raw_reading_range (d : CBits) (s : state) :
  0 <= num_bits d -> 0 <= raw_reading d s < 2 ^ num_bits d.
Proof. intros N. apply field_of_range. exact N. Qed.

(** C2. On a [BMP581] or [BMP585], the temperature is the 24-bit sign
    extension of the raw temperature field divided by [65536.0], and the
    pressure is the 24-bit sign extension of the raw pressure field divided by
    [64.0] and then by [100.0]; a raw temperature of 0 reads [0.0] and a raw
    pressure of 6400 reads [1.0]. *)
Theorem C2_linear_scale_readings (self : variant) (s : state) :
  self = BMP581 \/ self = BMP585 ->
  healthy s ->
  let raw_temp := raw_reading (_temperature self) s in
  let raw_pressure := raw_reading (_pressure self) s in
  fst (BMP581_temperature self s)
    = Ok (float_of_int (sign_extend 24 raw_temp) / 65536.0)%float /\
  fst (BMP581_pressure self s)
    = Ok (float_of_int (sign_extend 24 raw_pressure) / 64.0 / 100.0)%float /\
  (raw_temp = 0 -> fst (BMP581_temperature self s) = Ok 0.0%float) /\
  (raw_pressure = 6400 -> fst (BMP581_pressure self s) = Ok 1.0%float).
Proof.
  intros Self H raw_temp raw_pressure.
  assert (fst (BMP581_temperature self s)
          = Ok (float_of_int (sign_extend 24 raw_temp) / 65536.0)%float) as T.
  { unfold BMP581_temperature.
    erewrite bind_run by (apply cbits_get_span_healthy; exact H).
    rewrite fdiv_run by reflexivity. cbn [fst].
    rewrite twos_comp_spec;
      [reflexivity | lia
      | destruct Self as [-> | ->];
        apply (raw_reading_range (mkCBits 24 0x1D 0 3)); cbn; lia]. }
  assert (fst (BMP581_pressure self s)
          = Ok (float_of_int (sign_extend 24 raw_pressure) / 64.0 / 100.0)%float) as P.
  { unfold BMP581_pressure.
    erewrite bind_run by (apply cbits_get_span_healthy; exact H).
    erewrite bind_run by (apply fdiv_run; reflexivity).
    rewrite fdiv_run by reflexivity. cbn [fst].
    rewrite twos_comp_spec;
      [reflexivity | lia
      | destruct Self as [-> | ->];
        apply (raw_reading_range (mkCBits 24 0x20 0 3)); cbn; lia]. }
  split; [exact T|]. split; [exact P|]. split.
  - intros Zero. rewrite T, Zero. reflexivity.
  - intros Known. rewrite P, Known. reflexivity.
Qed.

Lemma C2_linear_scale_readings_witness :
  fst (BMP581_temperature BMP581 (poke 0x21 0x19 quiet_state)) = Ok 0.0%float /\
  fst (BMP581_pressure BMP581 (poke 0x21 0x19 quiet_state)) = Ok 1.0%float /\
  fst (BMP581_temperature BMP585 (poke 0x1F 0xFF quiet_state)) = Ok (-1.0)%float.
Proof.
  assert (healthy (poke 0x21 0x19 quiet_state)) as H by (split; reflexivity).
  assert (healthy (poke 0x1F 0xFF quiet_state)) as H' by (split; reflexivity).
  destruct (C2_linear_scale_readings BMP581 (poke 0x21 0x19 quiet_state)
              (or_introl eq_refl) H) as (_ & _ & T0 & P1).
  destruct (C2_linear_scale_readings BMP585 (poke 0x1F 0xFF quiet_state)
              (or_intror eq_refl) H') as (T & _).
  split; [apply T0; reflexivity|]. split; [apply P1; reflexivity|].
  rewrite T. reflexivity.
Defined.

(** ** Pressure compensation of the BMP280 *)

Lemma dig_signed_run (msb_reg lsb_reg : Z) (s : state) :
  healthy s ->
  dig_signed msb_reg lsb_reg s =
    (Ok (_combine_signed (reg_byte s msb_reg) (reg_byte s lsb_reg)),
     add_log [MemRead (_address s) msb_reg 1; MemRead (_address s) lsb_reg 1] s).
Proof.
  intros H. unfold dig_signed. run_get. run_get.
  autorewrite with bus. unfold ret. rewrite add_log_add_log. reflexivity.
Qed.

Lemma dig_unsigned_run (msb_reg lsb_reg : Z) (s : state) :
  healthy s ->
  dig_unsigned msb_reg lsb_reg s =
    (Ok (_combine_unsigned (reg_byte s msb_reg) (reg_byte s lsb_reg)),
     add_log [MemRead (_address s) msb_reg 1; MemRead (_address s) lsb_reg 1] s).
Proof.
  intros H. unfold dig_unsigned. run_get. run_get.
  autorewrite with bus. unfold ret. rewrite add_log_add_log. reflexivity.
Qed.

Ltac run_float :=
  repeat first
    [ erewrite bind_run by (apply dig_signed_run; auto 30 with bus)
    | erewrite bind_run by (apply dig_unsigned_run; auto 30 with bus)
    | erewrite bind_run by (apply fdiv_run; reflexivity)
    | erewrite bind_run by reflexivity ].

Lemma pressure_compensation_run (raw_pressure : Z) (tempc : float) (s : state) :
  healthy s ->
  fst (_calculate_pressure_compensation_bmp280 raw_pressure tempc s) =
    Ok (if (pressure_denominator s =? 0.0)%float
        then PyInt 0
        else PyFloat (pressure_polynomial s raw_pressure)).
Proof.
  intros H.
  unfold _calculate_pressure_compensation_bmp280,
    dig_p1, dig_p2, dig_p3, dig_p4, dig_p5, dig_p6, dig_p7, dig_p8, dig_p9.
  run_float. cbv zeta.
  unfold pressure_polynomial, pressure_offset, pressure_denominator, dig_s, dig_u.
  autorewrite with bus. cbn [t_fine add_log].
  match goal with
  | |- context [if ?c then ret _ else _] => destruct c eqn:Denominator
  end.
  - reflexivity.
  - run_float.
    erewrite bind_run by (apply fdiv_run; autorewrite with bus; exact Denominator).
    run_float.
    autorewrite with bus. reflexivity.
Qed.

(** C6. The BMP280 pressure compensation tests its intermediate denominator
    [var1] against [0.0]: when it is exactly zero the helper returns the
    sentinel integer [0], and otherwise it returns the rational polynomial,
    whose evaluation divides by [var1]; in neither case does a division by
    zero occur. *)
Theorem C6_pressure_compensation_guard (raw_pressure : Z) (tempc : float) (s : state) :
  healthy s ->
  ((pressure_denominator s =? 0.0)%float = true ->
   fst (_calculate_pressure_compensation_bmp280 raw_pressure tempc s) = Ok (PyInt 0)) /\
  ((pressure_denominator s =? 0.0)%float = false ->
   fst (_calculate_pressure_compensation_bmp280 raw_pressure tempc s)
   = Ok (PyFloat (pressure_polynomial s raw_pressure))) /\
  fst (_calculate_pressure_compensation_bmp280 raw_pressure tempc s)
  <> Raise ZeroDivisionError.
Proof.
  intros H. rewrite pressure_compensation_run by exact H.
  split; [|split].
  - intros ->. reflexivity.
  - intros ->. reflexivity.
  - discriminate.
Qed.

Lemma C6_pressure_compensation_guard_witness :
  fst (_calculate_pressure_compensation_bmp280 415148 25.0 quiet_state) = Ok (PyInt 0) /\
  fst (_calculate_pressure_compensation_bmp280 415148 25.0 datasheet_state)
  = Ok (PyFloat (pressure_polynomial datasheet_state 415148)).
Proof.
  assert (healthy quiet_state) as H by (split; reflexivity).
  assert (healthy datasheet_state) as H' by (split; reflexivity).
  split.
  - apply (proj1 (C6_pressure_compensation_guard 415148 25.0 quiet_state H)).
    vm_compute. reflexivity.
  - apply (proj1 (proj2 (C6_pressure_compensation_guard 415148 25.0 datasheet_state H'))).
    vm_compute. reflexivity.
Defined.

(** The calibration example of the data sheet evaluates as the Python code
    does on it, to 100653.258... Pa. *)
Example datasheet_pressure :
  (100653.25 <? pressure_polynomial datasheet_state 415148)%float = true /\
  (pressure_polynomial datasheet_state 415148 <? 100653.265625)%float = true.
Proof. split; vm_compute; reflexivity. Qed.

(** * Further properties *)

(** ** What the getters answer *)

Lemma getter_reads (self : variant) (what : setting) (s : state) :
  healthy s ->
  fst (getter self what s) =
    match nth_error (getter_names self what) (Z.to_nat (stored self what s)) with
    | Some name => Ok name
    | None => Raise IndexError
    end.
Proof.
  intros H. unfold stored.
  destruct self, what; cbn [getter power_mode pressure_oversample_rate
    temperature_oversample_rate iir_coefficient descriptor getter_names];
    unfold BMP581_power_mode, BMP390_power_mode, BMP280_power_mode,
      BMP581_pressure_oversample_rate, BMP390_pressure_oversample_rate,
      BMP280_pressure_oversample_rate,
      BMP581_temperature_oversample_rate, BMP390_temperature_oversample_rate,
      BMP280_temperature_oversample_rate,
      BMP581_iir_coefficient, BMP390_iir_coefficient;
    cbn [_power_mode _pressure_oversample_rate _temperature_oversample_rate
         _iir_coefficient];
    run_get; cbn [register_address]; unfold py_index;
    destruct (nth_error _ _); reflexivity.
Qed.

Lemma stored_range (self : variant) (what : setting) (s : state) :
  0 <= stored self what s < 2 ^ num_bits (descriptor self what).
Proof.
  unfold stored. apply field_of_range. destruct self, what; cbn; lia.
Qed.

(** A getter raises [IndexError] exactly on the field values its tuple of
    names does not reach: the mode [0x03] on a [BMP390], the oversampling
    codes 6 and 7 on a [BMP390] or [BMP280]; no other getter ever does. *)
Theorem getter_index_error (self : variant) (what : setting) (s : state) :
  healthy s ->
  (fst (getter self what s) = Raise IndexError
   <->
   match self, what with
   | BMP390, PowerMode => stored self what s = 3
   | (BMP390 | BMP280), (PressureOversampleRate | TemperatureOversampleRate) =>
       6 <= stored self what s
   | _, _ => False
   end) /\
  (forall e, fst (getter self what s) = Raise e -> e = IndexError).
Proof.
  intros H. rewrite getter_reads by exact H.
  pose proof (stored_range self what s) as R.
  assert (forall names : list string,
             match nth_error names (Z.to_nat (stored self what s)) with
             | Some name => Ok name
             | None => Raise IndexError
             end = Raise IndexError
             <-> Z.of_nat (List.length names) <= stored self what s) as Reach.
  { intros names. destruct (nth_error names _) eqn:E.
    - split; [discriminate|]. intros L.
      assert (nth_error names (Z.to_nat (stored self what s)) <> None) as N
        by congruence.
      apply nth_error_Some in N. lia.
    - split; [|reflexivity]. intros _. apply nth_error_None in E. lia. }
  split.
  - rewrite Reach.
    destruct self, what; cbn [getter_names List.length descriptor num_bits
      _power_mode _pressure_oversample_rate _temperature_oversample_rate
      _iir_coefficient] in *; lia.
  - intros e. destruct (nth_error _ _); [discriminate | intros [= <-]; reflexivity].
Qed.

Lemma getter_index_error_witness :
  fst (getter BMP390 PowerMode (poke 0x1b 0x30 quiet_state)) = Raise IndexError.
Proof.
  assert (healthy (poke 0x1b 0x30 quiet_state)) as H by (split; reflexivity).
  apply (proj2 (proj1 (getter_index_error BMP390 PowerMode (poke 0x1b 0x30 quiet_state) H))).
  reflexivity.
Defined.

(** ** Setters that write one field *)

Lemma cbits_set_effect (d d' : CBits) (value : Z) (s : state) :
  healthy s -> one_byte d -> one_byte d' ->
  exists s',
    cbits_set d value s = (Ok tt, s') /\ healthy s' /\
    field_of d (reg_byte s' (register_address d)) = Z.land value (Z.ones (num_bits d)) /\
    (apart d d' ->
     field_of d' (reg_byte s' (register_address d'))
     = field_of d' (reg_byte s (register_address d'))) /\
    writes (log s') = writes (log s) ++
      [(register_address d,
        [Z.land (merge_field d (reg_byte s (register_address d)) value) 255])].
Proof.
  intros H (W & N & S & B) (W' & N' & S' & B').
  eexists. split; [apply cbits_set_healthy; assumption|].
  split; [auto with bus|]. split; [|split].
  - autorewrite with bus. rewrite Z.eqb_refl, land_255_twice.
    apply field_of_merge_field; assumption.
  - intros A. autorewrite with bus.
    destruct (Z.eqb_spec (register_address d') (register_address d)) as [E|_];
      [|reflexivity].
    rewrite land_255_twice, E. apply field_of_merge_other; try assumption.
    destruct A as [A|A]; [congruence | exact A].
  - autorewrite with bus. rewrite writes_app. reflexivity.
Qed.

Lemma single_write_setter (self : variant) (what : setting) (value : Z) :
  single_write self what -> In value (legal_values self what) ->
  setter self what value = cbits_set (descriptor self what) (written self what value).
Proof.
  intros Single I. apply py_in_spec in I.
  destruct self, what; try contradiction;
    cbn [setter legal_values power_mode_setter pressure_oversample_rate_setter
         temperature_oversample_rate_setter iir_coefficient_setter] in *;
    unfold BMP581_power_mode_setter, BMP390_power_mode_setter, BMP280_power_mode_setter,
      BMP581_pressure_oversample_rate_setter, BMP390_pressure_oversample_rate_setter,
      BMP581_temperature_oversample_rate_setter, BMP390_temperature_oversample_rate_setter,
      BMP390_iir_coefficient_setter;
    rewrite I; reflexivity.
Qed.

Lemma one_byte_descriptor (self : variant) (what : setting) :
  one_byte (descriptor self what).
Proof. destruct self, what; repeat split; cbn; lia. Qed.

Lemma apart_descriptors (self : variant) (what what' : setting) :
  what <> what' -> apart (descriptor self what) (descriptor self what').
Proof.
  intros N. unfold apart.
  destruct self, what, what'; try contradiction; cbn; lia.
Qed.

(** A setter that writes one field leaves every other setting as it was:
    the other fields of the same register are merged back unchanged. *)
Theorem single_write_keeps_other_settings (self : variant) (what what' : setting)
    (value : Z) (s : state) :
  healthy s ->
  single_write self what ->
  In value (legal_values self what) ->
  what <> what' ->
  exists s',
    setter self what value s = (Ok tt, s') /\
    stored self what' s' = stored self what' s /\
    fst (getter self what' s') = fst (getter self what' s).
Proof.
  intros H Single I Other.
  rewrite single_write_setter by assumption.
  destruct (cbits_set_effect (descriptor self what) (descriptor self what')
              (written self what value) s H
              (one_byte_descriptor self what) (one_byte_descriptor self what'))
    as (s' & Run & H' & _ & Frame & _).
  specialize (Frame (apart_descriptors self what what' Other)).
  exists s'. split; [exact Run|]. split; [exact Frame|].
  rewrite !getter_reads by assumption. unfold stored at 1. rewrite Frame. reflexivity.
Qed.

Lemma single_write_keeps_other_settings_witness :
  exists s',
    setter BMP581 PressureOversampleRate OSR128 (poke 0x36 0x45 quiet_state) = (Ok tt, s') /\
    fst (getter BMP581 TemperatureOversampleRate s') = Ok "OSR32"%string.
Proof.
  assert (healthy (poke 0x36 0x45 quiet_state)) as H by (split; reflexivity).
  assert (single_write BMP581 PressureOversampleRate) as Single by exact I.
  assert (In OSR128 (legal_values BMP581 PressureOversampleRate)) as Legal
    by (simpl; tauto).
  assert (PressureOversampleRate <> TemperatureOversampleRate) as N by discriminate.
  destruct (single_write_keeps_other_settings BMP581 PressureOversampleRate
              TemperatureOversampleRate OSR128 (poke 0x36 0x45 quiet_state)
              H Single Legal N)
    as (s' & Run & _ & Same).
  exists s'. split; [exact Run|]. rewrite Same. reflexivity.
Defined.

(** ** The power mode of the BMP280 *)

(** No legal value makes the [BMP280] setter write the mode [0x03], the
    continuous mode of the chip: the field ends as 0, 1 or 2, and the getter
    never answers ["NORMAL"] after a set. *)
Theorem BMP280_power_mode_never_normal (value : Z) (s : state) :
  healthy s ->
  In value (legal_values BMP280 PowerMode) ->
  exists s',
    setter BMP280 PowerMode value s = (Ok tt, s') /\
    stored BMP280 PowerMode s' = written BMP280 PowerMode value /\
    stored BMP280 PowerMode s' <> BMP280_NORMAL_POWER /\
    fst (getter BMP280 PowerMode s') <> Ok "NORMAL"%string.
Proof.
  intros H Legal.
  rewrite single_write_setter by (exact I || exact Legal).
  destruct (cbits_set_effect (descriptor BMP280 PowerMode) (descriptor BMP280 PowerMode)
              (written BMP280 PowerMode value) s H
              (one_byte_descriptor _ _) (one_byte_descriptor _ _))
    as (s' & Run & H' & Same & _).
  exists s'. split; [exact Run|].
  rewrite getter_reads by exact H'. unfold stored. rewrite Same.
  cbn [legal_values power_mode_values In] in Legal.
  destruct Legal as [<-|[<-|[<-|[]]]]; repeat split; discriminate.
Qed.

Lemma BMP280_power_mode_never_normal_witness :
  exists s',
    setter BMP280 PowerMode NORMAL (poke 0xF4 0x27 quiet_state) = (Ok tt, s') /\
    stored BMP280 PowerMode s' = BMP280_FORCED_POWER.
Proof.
  assert (healthy (poke 0xF4 0x27 quiet_state)) as H by (split; reflexivity).
  assert (In NORMAL (legal_values BMP280 PowerMode)) as Legal by (simpl; tauto).
  destruct (BMP280_power_mode_never_normal NORMAL (poke 0xF4 0x27 quiet_state) H Legal)
    as (s' & Run & Stored & _).
  exists s'. split; [exact Run | exact Stored].
Defined.

(** ** The output data rate *)

Lemma apart_output_data_rate (self : variant) (what : setting) :
  apart (_output_data_rate self) (descriptor self what).
Proof. unfold apart. destruct self, what; cbn; lia. Qed.

Lemma one_byte_output_data_rate (self : variant) : one_byte (_output_data_rate self).
Proof. destruct self; repeat split; cbn; lia. Qed.

(** The output data rate accepts exactly the integers 0 to 31 (32, which
    the error message names, is refused with the state untouched); an
    accepted value is read back by the getter, and the four settings of the
    configuration surface, the power mode in the same register included,
    are as before. *)
Theorem output_data_rate_round_trip (self : variant) (value : Z) (s : state) :
  healthy s ->
  (~ 0 <= value < 32 -> output_data_rate_setter self value s = (Raise ValueError, s)) /\
  (0 <= value < 32 ->
   exists s',
     output_data_rate_setter self value s = (Ok tt, s') /\
     fst (output_data_rate self s') = Ok value /\
     forall what,
       stored self what s' = stored self what s /\
       fst (getter self what s') = fst (getter self what s)).
Proof.
  intros H. unfold output_data_rate_setter, output_data_rate. split.
  - intros Out.
    assert ((0 <=? value) && (value <? 32) = false) as ->; [|reflexivity].
    apply andb_false_iff.
    destruct (Z.leb_spec 0 value); [right; apply Z.ltb_ge; lia | left; reflexivity].
  - intros In_range.
    assert ((0 <=? value) && (value <? 32) = true) as ->
      by (apply andb_true_iff; split; [apply Z.leb_le | apply Z.ltb_lt]; lia).
    cbn [negb].
    assert (exists s',
               cbits_set (_output_data_rate self) value s = (Ok tt, s') /\ healthy s' /\
               field_of (_output_data_rate self)
                 (reg_byte s' (register_address (_output_data_rate self))) = value /\
               forall what, stored self what s' = stored self what s)
      as (s' & Run & H' & Same & Frame).
    { destruct (cbits_set_effect (_output_data_rate self) (_output_data_rate self)
                  value s H (one_byte_output_data_rate self)
                  (one_byte_output_data_rate self))
        as (s' & Run & H' & Same & _).
      exists s'. split; [exact Run|]. split; [exact H'|]. split.
      - rewrite Same.
        replace (num_bits (_output_data_rate self)) with 5 by (destruct self; reflexivity).
        rewrite Z.land_ones by lia. apply Z.mod_small. change (2 ^ 5) with 32. lia.
      - intros what.
        destruct (cbits_set_effect (_output_data_rate self) (descriptor self what)
                    value s H (one_byte_output_data_rate self)
                    (one_byte_descriptor self what))
          as (s2 & Run2 & _ & _ & Frame & _).
        rewrite Run in Run2. injection Run2 as <-.
        exact (Frame (apart_output_data_rate self what)). }
    exists s'. split; [exact Run|]. split.
    + rewrite cbits_get_healthy by (exact H' || (destruct self; reflexivity)).
      cbn [fst]. rewrite Same. reflexivity.
    + intros what. split; [apply Frame|].
      rewrite !getter_reads by assumption. rewrite Frame. reflexivity.
Qed.

Lemma output_data_rate_round_trip_witness :
  output_data_rate_setter BMP581 32 quiet_state = (Raise ValueError, quiet_state) /\
  exists s',
    output_data_rate_setter BMP581 31 (poke 0x37 NORMAL quiet_state) = (Ok tt, s') /\
    fst (output_data_rate BMP581 s') = Ok 31 /\
    fst (getter BMP581 PowerMode s') = Ok "NORMAL"%string.
Proof.
  assert (healthy quiet_state) as H0 by (split; reflexivity).
  assert (healthy (poke 0x37 NORMAL quiet_state)) as H by (split; reflexivity).
  split.
  - apply (proj1 (output_data_rate_round_trip BMP581 32 quiet_state H0)). lia.
  - assert (0 <= 31 < 32) as R by lia.
    destruct (proj2 (output_data_rate_round_trip BMP581 31 (poke 0x37 NORMAL quiet_state) H) R)
      as (s' & Run & Reads & Frame).
    exists s'. split; [exact Run|]. split; [exact Reads|].
    rewrite (proj2 (Frame PowerMode)). reflexivity.
Defined.

(** ** Transport failures *)

Lemma transact_blocked (s : state) :
  blocked s ->
  exists fs, transact (_address s) s = (false, with_faults fs s).
Proof.
  unfold blocked, next_transaction_ok, transact.
  destruct (faults s) as [|f fs] eqn:F.
  - intros [N | P]; [discriminate N|]. rewrite P. exists [].
    unfold with_faults. rewrite <- F. destruct s; reflexivity.
  - intros [N | P].
    + destruct f; [|discriminate N]. exists fs. reflexivity.
    + rewrite P, andb_false_r. exists fs. reflexivity.
Qed.

Lemma readfrom_mem_blocked (reg : Z) (n : nat) (s : state) :
  blocked s ->
  exists s',
    readfrom_mem (_address s) reg n s = (Raise OSError, s') /\
    mem s' = mem s /\ log s' = log s ++ [MemRead (_address s) reg n].
Proof.
  intros B. unfold readfrom_mem.
  destruct (transact_blocked (add_log [MemRead (_address s) reg n] s) B) as (fs & T).
  cbn [_address add_log] in T. rewrite T.
  eexists. split; [reflexivity|]. split; reflexivity.
Qed.

Lemma cbits_get_blocked (d : CBits) (s : state) :
  blocked s ->
  exists s',
    cbits_get d s = (Raise OSError, s') /\
    mem s' = mem s /\
    log s' = log s ++ [MemRead (_address s) (register_address d) (register_width d)].
Proof.
  intros B. unfold cbits_get.
  destruct (readfrom_mem_blocked (register_address d) (register_width d) s B)
    as (s' & Read & Mem & Log).
  exists s'. split; [apply bind_raise; exact Read|]. split; assumption.
Qed.

Lemma cbits_set_blocked (d : CBits) (value : Z) (s : state) :
  blocked s ->
  exists s',
    cbits_set d value s = (Raise OSError, s') /\
    mem s' = mem s /\
    log s' = log s ++ [MemRead (_address s) (register_address d) (register_width d)].
Proof.
  intros B. unfold cbits_set.
  destruct (readfrom_mem_blocked (register_address d) (register_width d) s B)
    as (s' & Read & Mem & Log).
  exists s'. split; [apply bind_raise; exact Read|]. split; assumption.
Qed.

(** When the next bus transaction fails, a setter called with a legal value
    raises [OSError] after that one attempted read: there is no retry, nothing
    is written and the registers are as before.  The same holds for the
    output data rate. *)
Theorem setter_transport_failure (self : variant) (what : setting) (value : Z) (s : state) :
  blocked s ->
  In value (legal_values self what) ->
  exists s' reg,
    setter self what value s = (Raise OSError, s') /\
    mem s' = mem s /\
    log s' = log s ++ [MemRead (_address s) reg 1].
Proof.
  intros B Legal.
  assert (single_write self what \/ ~ single_write self what) as [Single|Composite]
    by (destruct self, what; cbn; tauto).
  - rewrite single_write_setter by assumption.
    destruct (cbits_set_blocked (descriptor self what) (written self what value) s B)
      as (s' & Run & Mem & Log).
    exists s', (register_address (descriptor self what)).
    split; [exact Run|]. split; [exact Mem|].
    rewrite Log. destruct self, what; reflexivity.
  - apply py_in_spec in Legal.
    destruct self, what; try (exfalso; apply Composite; exact I);
      cbn [setter legal_values iir_coefficient_setter pressure_oversample_rate_setter
           temperature_oversample_rate_setter] in *;
      unfold BMP581_iir_coefficient_setter, BMP280_pressure_oversample_rate_setter,
        BMP280_temperature_oversample_rate_setter;
      rewrite Legal; cbn [negb];
      match goal with
      | |- context [bind (cbits_get ?d) _] =>
          destruct (cbits_get_blocked d s B) as (s' & Run & Mem & Log);
          exists s', (register_address d);
          split; [apply bind_raise; exact Run|]; split; [exact Mem | exact Log]
      end.
Qed.

Lemma setter_transport_failure_witness :
  exists s' reg,
    setter BMP581 IirCoefficient COEF_3
      (mkState (fun _ => true) (fun _ _ => 0) [true] [] 0x47
               WORLD_AVERAGE_SEA_LEVEL_PRESSURE 0)
    = (Raise OSError, s') /\
    log s' = [MemRead 0x47 reg 1].
Proof.
  set (s := mkState (fun _ => true) (fun _ _ => 0) [true] [] 0x47
                    WORLD_AVERAGE_SEA_LEVEL_PRESSURE 0).
  assert (blocked s) as B by (left; reflexivity).
  assert (In COEF_3 (legal_values BMP581 IirCoefficient)) as Legal by (simpl; tauto).
  destruct (setter_transport_failure BMP581 IirCoefficient COEF_3 s B Legal)
    as (s' & reg & Run & _ & Log).
  exists s', reg. split; [exact Run | exact Log].
Defined.

(** ** The IIR coefficient, from any power mode *)

Lemma mode_field_rewritten (c : Z) :
  0 <= c < 256 ->
  Z.land (merge_field (mkCBits 2 0x37 0 1) c (field_of (mkCBits 2 0x37 0 1) c)) 255 = c.
Proof.
  intros R.
  assert (all_below 256
            (fun c => Z.land (merge_field (mkCBits 2 0x37 0 1) c
                                (field_of (mkCBits 2 0x37 0 1) c)) 255 =? c) = true)
    as A by (vm_compute; reflexivity).
  apply Z.eqb_eq. exact (all_below_spec _ _ A c R).
Qed.

Lemma BMP58x_iir_coefficient_setter_effect (self : variant) (value : Z) (s : state) :
  self = BMP581 \/ self = BMP585 ->
  healthy s -> In value (iir_coefficient_values self) ->
  exists s',
    iir_coefficient_setter self value s = (Ok tt, s') /\
    healthy s' /\
    reg_byte s' 0x37 = reg_byte s 0x37 /\
    reg_byte s' 0x31 =
      Z.land (merge_field (mkCBits 3 0x31 0 1)
                (Z.land (merge_field (mkCBits 3 0x31 3 1) (reg_byte s 0x31) value) 255)
                value) 255 /\
    (forall r, r <> 0x37 -> r <> 0x31 -> reg_byte s' r = reg_byte s r) /\
    List.length (writes (log s')) =
      (List.length (writes (log s))
       + (if Z.eqb (field_of (mkCBits 2 55%Z 0%Z 1) (reg_byte s 55%Z)) STANDBY
          then 3 else 4))%nat.
Proof.
  intros Self H Legal.
  pose proof Legal as In_values. apply py_in_spec in Legal.
  assert (iir_coefficient_setter self value = BMP581_iir_coefficient_setter self value) as ->
    by (destruct Self as [-> | ->]; reflexivity).
  unfold BMP581_iir_coefficient_setter. rewrite Legal. cbn [negb].
  replace (_power_mode self) with (mkCBits 2 0x37 0 1)
    by (destruct Self as [-> | ->]; reflexivity).
  replace (_iir_coefficient self) with (mkCBits 3 0x31 3 1)
    by (destruct Self as [-> | ->]; reflexivity).
  unfold _iir_temp_coefficient.
  pose proof (reg_byte_range s 0x37) as R.
  assert (0 <= field_of (mkCBits 2 0x37 0 1) (reg_byte s 0x37) < 4) as Mode_range
    by (apply (field_of_range (mkCBits 2 0x37 0 1)); cbn; lia).
  destruct (Z.eqb_spec (field_of (mkCBits 2 0x37 0 1) (reg_byte s 0x37)) STANDBY)
    as [Standby|Running];
    (eexists; split;
     [ run_get; cbn [register_address];
       first [ rewrite Standby, Z.eqb_refl; cbn [negb]; erewrite bind_run by reflexivity
             | apply Z.eqb_neq in Running; rewrite Running; cbn [negb] ];
       rewrite !BMP58x_power_mode_setter_writes
         by (first [exact Self | unfold STANDBY; lia | exact Mode_range]);
       repeat run_set;
       rewrite cbits_set_healthy by (auto with bus || reflexivity);
       reflexivity
     | ]);
    (split; [auto 10 with bus|]);
    cbn [register_address]; autorewrite with bus.
  - split.
    { cbn [Z.eqb Pos.eqb]. rewrite ?land_255_twice.
      rewrite <- Standby at 1. apply mode_field_rewritten; exact R. }
    split; [cbn [Z.eqb Pos.eqb]; rewrite ?land_255_twice; reflexivity|]. split.
    + intros r N1 N2. autorewrite with bus.
      apply Z.eqb_neq in N1, N2. rewrite ?N1, ?N2. reflexivity.
    + rewrite !writes_app, !length_app. cbn [writes List.length]. lia.
  - split.
    { cbn [Z.eqb Pos.eqb]. rewrite ?land_255_twice. unfold STANDBY in *.
      apply (mode_register_restored (reg_byte s 0x37) R). }
    split; [cbn [Z.eqb Pos.eqb]; rewrite ?land_255_twice; reflexivity|]. split.
    + intros r N1 N2. autorewrite with bus.
      apply Z.eqb_neq in N1, N2. rewrite ?N1, ?N2. reflexivity.
    + rewrite !writes_app, !length_app. cbn [writes List.length]. lia.
Qed.

(** On a [BMP581] or [BMP585], whatever the power mode, setting a legal IIR
    coefficient succeeds, the getter reads the coefficient back, the mode
    register (power mode and output data rate) holds the byte it held, and
    the other settings are as before; it takes three register writes from
    [STANDBY] and four from any other mode. *)
Theorem BMP58x_iir_coefficient_keeps_configuration (self : variant) (value : Z) (s : state) :
  self = BMP581 \/ self = BMP585 ->
  healthy s ->
  In value (legal_values self IirCoefficient) ->
  exists s',
    setter self IirCoefficient value s = (Ok tt, s') /\
    stored self IirCoefficient s' = value /\
    reg_byte s' 0x37 = reg_byte s 0x37 /\
    (forall what, what <> IirCoefficient ->
       stored self what s' = stored self what s /\
       fst (getter self what s') = fst (getter self what s)) /\
    fst (output_data_rate self s') = fst (output_data_rate self s) /\
    List.length (writes (log s')) =
      (List.length (writes (log s))
       + (if Z.eqb (stored self PowerMode s) STANDBY then 3 else 4))%nat.
Proof.
  intros Self H Legal.
  destruct (BMP58x_iir_coefficient_setter_effect self value s Self H Legal)
    as (s' & Run & H' & Mode & Coef & Frame & Count).
  pose proof (iir_value_fits self value Legal) as Fits.
  exists s'. split; [exact Run|].
  assert (forall what, what <> IirCoefficient -> stored self what s' = stored self what s)
    as Kept.
  { intros what Other. unfold stored.
    destruct Self as [-> | ->], what; try contradiction;
      cbn [descriptor register_address _power_mode _pressure_oversample_rate
           _temperature_oversample_rate];
      first [ rewrite Mode; reflexivity | rewrite Frame by lia; reflexivity ]. }
  split.
  { unfold stored.
    replace (descriptor self IirCoefficient) with (mkCBits 3 0x31 3 1)
      by (destruct Self as [-> | ->]; reflexivity).
    cbn [register_address]. rewrite Coef.
    rewrite field_of_merge_other by (cbn; lia).
    rewrite field_of_merge_field by (cbn; lia). exact Fits. }
  split; [exact Mode|]. split; [|split].
  - intros what Other. split; [apply Kept; exact Other|].
    rewrite !getter_reads by assumption. rewrite Kept by exact Other. reflexivity.
  - unfold output_data_rate.
    rewrite !cbits_get_healthy by (assumption || (destruct Self as [-> | ->]; reflexivity)).
    cbn [fst].
    replace (register_address (_output_data_rate self)) with 0x37
      by (destruct Self as [-> | ->]; reflexivity).
    rewrite Mode. reflexivity.
  - rewrite Count. unfold stored.
    replace (descriptor self PowerMode) with (mkCBits 2 0x37 0 1)
      by (destruct Self as [-> | ->]; reflexivity).
    reflexivity.
Qed.

Lemma BMP58x_iir_coefficient_keeps_configuration_witness :
  exists s',
    setter BMP585 IirCoefficient COEF_127 (poke 0x37 0x7E quiet_state) = (Ok tt, s') /\
    fst (getter BMP585 IirCoefficient s') = Ok "COEF_127"%string /\
    fst (getter BMP585 PowerMode s') = Ok "FORCED"%string /\
    fst (output_data_rate BMP585 s') = Ok 31.
Proof.
  assert (healthy (poke 0x37 0x7E quiet_state)) as H by (split; reflexivity).
  assert (In COEF_127 (legal_values BMP585 IirCoefficient)) as Legal by (simpl; tauto).
  assert (PowerMode <> IirCoefficient) as N by discriminate.
  destruct (BMP58x_iir_coefficient_keeps_configuration BMP585 COEF_127
              (poke 0x37 0x7E quiet_state) (or_intror eq_refl) H Legal)
    as (s' & Run & Stored & _ & Kept & Rate & _).
  exists s'. split; [exact Run|].
  assert (healthy s') as H'.
  { vm_compute in Run. injection Run as <-. split; reflexivity. }
  split; [rewrite getter_reads, Stored by exact H'; reflexivity|].
  split; [rewrite (proj2 (Kept PowerMode N)); reflexivity|].
  rewrite Rate. reflexivity.
Defined.

(** ** The IIR setter the BMP280 inherits *)

Lemma BMP280_power_mode_setter_writes (value : Z) :
  value = 0 \/ value = 1 \/ value = 2 ->
  power_mode_setter BMP280 value = cbits_set (mkCBits 2 0xF4 0 1) value.
Proof. intros [-> | [-> | ->]]; reflexivity. Qed.

(** On a [BMP280] in the continuous mode [0x03], the mode [__init__] leaves,
    the inherited IIR setter raises [ValueError] for a legal coefficient, and
    only after three register writes: the chip has been put to sleep (mode
    0), the coefficient is in the config register, and register [0x31], which
    belongs to the register map of the [BMP581], has been written too. *)
Theorem BMP280_iir_coefficient_in_normal_mode (value : Z) (s : state) :
  healthy s ->
  In value (legal_values BMP280 IirCoefficient) ->
  stored BMP280 PowerMode s = BMP280_NORMAL_POWER ->
  exists s' w1 w2 w3,
    setter BMP280 IirCoefficient value s = (Raise ValueError, s') /\
    writes (log s') = writes (log s) ++ [(0xF4, [w1]); (0xf5, [w2]); (0x31, [w3])] /\
    stored BMP280 PowerMode s' = STANDBY /\
    stored BMP280 IirCoefficient s' = value /\
    fst (getter BMP280 PowerMode s') = Ok "STANDBY"%string.
Proof.
  intros H Legal Mode.
  pose proof (iir_value_fits BMP280 value Legal) as Fits.
  apply py_in_spec in Legal. unfold stored in *.
  cbn [setter iir_coefficient_setter legal_values descriptor _power_mode _iir_coefficient
       register_address] in *.
  unfold BMP581_iir_coefficient_setter. rewrite Legal. cbn [negb _power_mode].
  assert (exists s',
             (original_mode <- cbits_get (mkCBits 2 0xF4 0 1) ;;
              (if negb (original_mode =? STANDBY)
               then power_mode_setter BMP280 STANDBY else ret tt) ;;;
              cbits_set (_iir_coefficient BMP280) value ;;;
              cbits_set (_iir_temp_coefficient BMP280) value ;;;
              power_mode_setter BMP280 original_mode) s = (Raise ValueError, s') /\
             healthy s' /\
             writes (log s') = writes (log s) ++
               [(0xF4, [Z.land (merge_field (mkCBits 2 0xF4 0 1) (reg_byte s 0xF4) 0) 255]);
                (0xf5, [Z.land (merge_field (mkCBits 3 0xf5 0 1) (reg_byte s 0xf5) value) 255]);
                (0x31, [Z.land (merge_field (mkCBits 3 0x31 0 1) (reg_byte s 0x31) value) 255])] /\
             reg_byte s' 0xF4 = Z.land (merge_field (mkCBits 2 0xF4 0 1) (reg_byte s 0xF4) 0) 255 /\
             reg_byte s' 0xf5 = Z.land (merge_field (mkCBits 3 0xf5 0 1) (reg_byte s 0xf5) value) 255)
    as (s' & Run & H' & Log & Control & Config).
  { eexists. split.
    - run_get. cbn [register_address]. rewrite Mode.
      cbn [Z.eqb Pos.eqb negb BMP280_NORMAL_POWER STANDBY].
      erewrite bind_run
        by (rewrite (BMP280_power_mode_setter_writes STANDBY) by (left; reflexivity);
            apply cbits_set_healthy; [auto with bus | reflexivity]).
      unfold _iir_coefficient, _iir_temp_coefficient.
      run_set. run_set. reflexivity.
    - split; [auto 10 with bus|].
      cbn [register_address]. autorewrite with bus. cbn [Z.eqb Pos.eqb].
      rewrite ?land_255_twice, !writes_app. cbn [writes].
      rewrite <- !app_assoc. repeat split; reflexivity. }
  eexists s', _, _, _. split; [exact Run|]. split; [exact Log|].
  rewrite getter_reads by exact H'. unfold stored.
  cbn [descriptor _power_mode _iir_coefficient register_address].
  rewrite Control, Config, !field_of_merge_field by (cbn; lia).
  repeat split; [exact Fits].
Qed.

Lemma BMP280_iir_coefficient_in_normal_mode_witness :
  exists s',
    setter BMP280 IirCoefficient COEF_3 (poke 0xF4 0x27 quiet_state) = (Raise ValueError, s') /\
    writes (log s') = [(0xF4, [0x24]); (0xf5, [2]); (0x31, [2])] /\
    stored BMP280 PowerMode s' = STANDBY.
Proof.
  assert (healthy (poke 0xF4 0x27 quiet_state)) as H by (split; reflexivity).
  assert (In COEF_3 (legal_values BMP280 IirCoefficient)) as Legal by (simpl; tauto).
  assert (stored BMP280 PowerMode (poke 0xF4 0x27 quiet_state) = BMP280_NORMAL_POWER)
    as Mode by reflexivity.
  destruct (BMP280_iir_coefficient_in_normal_mode COEF_3 (poke 0xF4 0x27 quiet_state)
              H Legal Mode)
    as (s' & w1 & w2 & w3 & Run & _ & Sleeps & _).
  exists s'. split; [exact Run|]. split; [|exact Sleeps].
  vm_compute in Run. injection Run as <-. reflexivity.
Defined.

(** In any other mode the inherited setter succeeds on a [BMP280]: the
    coefficient is read back, the control register holds the byte it held,
    and register [0x31] has been written as well. *)
Theorem BMP280_iir_coefficient_in_other_modes (value : Z) (s : state) :
  healthy s ->
  In value (legal_values BMP280 IirCoefficient) ->
  stored BMP280 PowerMode s <> BMP280_NORMAL_POWER ->
  exists s' w,
    setter BMP280 IirCoefficient value s = (Ok tt, s') /\
    stored BMP280 IirCoefficient s' = value /\
    reg_byte s' 0xF4 = reg_byte s 0xF4 /\
    In (0x31, [w]) (writes (log s')) /\
    field_of (mkCBits 3 0x31 0 1) w = value.
Proof.
  intros H Legal Mode.
  pose proof (iir_value_fits BMP280 value Legal) as Fits.
  apply py_in_spec in Legal. unfold stored in *.
  cbn [setter iir_coefficient_setter legal_values descriptor _power_mode _iir_coefficient
       register_address] in *.
  unfold BMP581_iir_coefficient_setter. rewrite Legal. cbn [negb _power_mode].
  unfold _iir_coefficient, _iir_temp_coefficient.
  pose proof (reg_byte_range s 0xF4) as R.
  assert (all_below 256
            (fun c =>
               (Z.land (merge_field (mkCBits 2 0xF4 0 1) c (field_of (mkCBits 2 0xF4 0 1) c))
                  255 =? c)
               && (Z.land (merge_field (mkCBits 2 0xF4 0 1)
                             (Z.land (merge_field (mkCBits 2 0xF4 0 1) c 0) 255)
                             (field_of (mkCBits 2 0xF4 0 1) c)) 255 =? c)) = true)
    as Restored by (vm_compute; reflexivity).
  apply all_below_spec with (z := reg_byte s 0xF4) in Restored; [|exact R].
  apply andb_true_iff in Restored as [Same Back].
  apply Z.eqb_eq in Same, Back.
  assert (field_of (mkCBits 2 0xF4 0 1) (reg_byte s 0xF4) = 0 \/
          field_of (mkCBits 2 0xF4 0 1) (reg_byte s 0xF4) = 1 \/
          field_of (mkCBits 2 0xF4 0 1) (reg_byte s 0xF4) = 2) as Cases.
  { pose proof (field_of_range (mkCBits 2 0xF4 0 1) (reg_byte s 0xF4)) as F.
    cbn [num_bits] in F. change (2 ^ 2) with 4 in F.
    unfold BMP280_NORMAL_POWER in Mode. lia. }
  destruct (Z.eqb_spec (field_of (mkCBits 2 0xF4 0 1) (reg_byte s 0xF4)) STANDBY)
    as [Standby|Running];
    (eexists;
     exists (Z.land (merge_field (mkCBits 3 0x31 0 1) (reg_byte s 0x31) value) 255);
     split;
     [ run_get; cbn [register_address];
       first [ rewrite Standby, Z.eqb_refl; cbn [negb]; erewrite bind_run by reflexivity
             | apply Z.eqb_neq in Running; rewrite Running; cbn [negb] ];
       rewrite !BMP280_power_mode_setter_writes
         by (first [left; reflexivity | exact Cases]);
       repeat run_set;
       rewrite cbits_set_healthy by (auto with bus || reflexivity);
       reflexivity
     | ]);
    cbn [register_address]; autorewrite with bus; cbn [Z.eqb Pos.eqb];
    rewrite ?land_255_twice, !writes_app; cbn [writes].
  - split; [rewrite field_of_merge_field by (cbn; lia); exact Fits|].
    split; [rewrite <- Standby at 1; exact Same|].
    split; [|rewrite field_of_merge_field by (cbn; lia); exact Fits].
    rewrite <- !app_assoc. cbn [app]. apply in_or_app. right. cbn [In].
    repeat first [left; reflexivity | right].
  - split; [rewrite field_of_merge_field by (cbn; lia); exact Fits|].
    split; [exact Back|].
    split; [|rewrite field_of_merge_field by (cbn; lia); exact Fits].
    rewrite <- !app_assoc. cbn [app]. apply in_or_app. right. cbn [In].
    repeat first [left; reflexivity | right].
Qed.

Lemma BMP280_iir_coefficient_in_other_modes_witness :
  exists s' w,
    setter BMP280 IirCoefficient COEF_15 (poke 0xF4 0x25 quiet_state) = (Ok tt, s') /\
    stored BMP280 IirCoefficient s' = COEF_15 /\
    In (0x31, [w]) (writes (log s')).
Proof.
  assert (healthy (poke 0xF4 0x25 quiet_state)) as H by (split; reflexivity).
  assert (In COEF_15 (legal_values BMP280 IirCoefficient)) as Legal by (simpl; tauto).
  assert (stored BMP280 PowerMode (poke 0xF4 0x25 quiet_state) <> BMP280_NORMAL_POWER)
    as Mode by (vm_compute; discriminate).
  destruct (BMP280_iir_coefficient_in_other_modes COEF_15 (poke 0xF4 0x25 quiet_state)
              H Legal Mode)
    as (s' & w & Run & Stored & _ & Stray & _).
  exists s', w. split; [exact Run|]. split; [exact Stored | exact Stray].
Defined.

(** ** The raw block of the BMP280 *)
Lemma assemble_first_byte (b rest : Z) :
  Z.land (Z.lor (Z.land b 255) (Z.shiftl rest 8)) 255 = Z.land b 255.
Proof.
  apply Z.bits_inj'. intros i I.
  rewrite !Z.land_spec, Z.lor_spec, Z.land_spec, testbit_255.
  destruct (Z.ltb_spec i 8); decide_range; cbn [andb orb negb].
  - rewrite Z.shiftl_spec_low by lia. rewrite andb_true_r, orb_false_r, andb_true_r.
    reflexivity.
  - rewrite !andb_false_r. reflexivity.
Qed.

Lemma assemble_later_bytes (b rest k : Z) :
  0 <= k ->
  Z.shiftr (Z.lor (Z.land b 255) (Z.shiftl rest 8)) (8 + k) = Z.shiftr rest k.
Proof.
  intros K. apply Z.bits_inj'. intros i I.
  rewrite !Z.shiftr_spec, Z.lor_spec, Z.land_spec, testbit_255 by lia.
  rewrite Z.shiftl_spec by lia.
  decide_range. cbn [andb orb negb]. rewrite andb_false_r. cbn [orb]. f_equal. lia.
Qed.

Lemma field_48_byte (reg k : Z) :
  0 <= k <= 40 ->
  Z.land (Z.shiftr (field_of _d reg) k) 255 = Z.land (Z.shiftr reg k) 255.
Proof.
  intros K. unfold field_of, _d. cbn [start_bit num_bits].
  apply Z.bits_inj'. intros i I.
  rewrite !Z.land_spec, !Z.shiftr_spec, Z.land_spec, Z.shiftr_spec, testbit_255,
    Z.testbit_ones by lia.
  rewrite Z.add_0_r.
  destruct (Z.ltb_spec i 8); decide_range; cbn [andb orb negb].
  - rewrite !andb_true_r. reflexivity.
  - rewrite !andb_false_r. reflexivity.
Qed.

Lemma lor_shiftl_small (hi lo n : Z) :
  0 <= n -> 0 <= lo < 2 ^ n -> Z.lor (Z.shiftl hi n) lo = hi * 2 ^ n + lo.
Proof.
  intros N R.
  assert (Z.land (Z.shiftl hi n) lo = 0) as Disjoint.
  { apply Z.bits_inj'. intros i I. rewrite Z.land_spec, Z.bits_0.
    destruct (Z.ltb_spec i n).
    - rewrite Z.shiftl_spec_low by lia. reflexivity.
    - destruct (Z.eq_dec lo 0) as [->|NZ]; [rewrite Z.bits_0; apply andb_false_r|].
      rewrite (Z.bits_above_log2 lo i), andb_false_r; [reflexivity | lia |].
      apply Z.lt_le_trans with (m := n); [apply Z.log2_lt_pow2; lia | lia]. }
  rewrite <- Z.lxor_lor, <- Z.add_nocarry_lxor by exact Disjoint.
  rewrite Z.shiftl_mul_pow2 by exact N. reflexivity.
Qed.

Lemma assemble_shift (b rest k j : Z) :
  j = 8 + k -> 0 <= k ->
  Z.shiftr (Z.lor (Z.land b 255) (Z.shiftl rest 8)) j = Z.shiftr rest k.
Proof. intros -> K. apply assemble_later_bytes. exact K. Qed.

Lemma field_48_low (reg : Z) : Z.land (field_of _d reg) 255 = Z.land reg 255.
Proof.
  pose proof (field_48_byte reg 0) as F. rewrite !Z.shiftr_0_r in F. apply F. lia.
Qed.

Lemma pack_20_bits (a b c : Z) :
  0 <= a < 256 -> 0 <= b < 256 -> 0 <= c < 16 ->
  Z.lor (Z.lor (Z.shiftl a 12) (Z.shiftl b 4)) c = a * 4096 + b * 16 + c.
Proof.
  intros A B C.
  rewrite (Z.shiftl_mul_pow2 b 4) by lia. change (2 ^ 4) with 16.
  rewrite (lor_shiftl_small a (b * 16) 12) by (change (2 ^ 12) with 4096; lia).
  change (2 ^ 12) with 4096.
  replace (a * 4096 + b * 16) with (Z.shiftl (a * 256 + b) 4)
    by (rewrite Z.shiftl_mul_pow2 by lia; change (2 ^ 4) with 16; lia).
  rewrite lor_shiftl_small by (change (2 ^ 4) with 16; lia).
  rewrite Z.shiftl_mul_pow2 by lia. reflexivity.
Qed.

(** [BMP280._get_raw_temp_pressure] takes the pressure from registers
    [0xF7..0xF9] and the temperature from [0xFA..0xFC], most significant byte
    first, as 20-bit numbers whose four lowest bits are the high nibble of the
    third byte. *)
Theorem raw_block_layout (s : state) :
  healthy s ->
  let p_raw := reg_byte s 0xf7 * 4096 + reg_byte s 0xf8 * 16 + reg_byte s 0xf9 / 16 in
  let t_raw := reg_byte s 0xfa * 4096 + reg_byte s 0xfb * 16 + reg_byte s 0xfc / 16 in
  fst (_get_raw_temp_pressure s) = Ok (t_raw, p_raw) /\
  0 <= p_raw < 2 ^ 20 /\ 0 <= t_raw < 2 ^ 20.
Proof.
  intros H p_raw t_raw.
  pose proof (reg_byte_range s 0xf7). pose proof (reg_byte_range s 0xf8).
  pose proof (reg_byte_range s 0xf9). pose proof (reg_byte_range s 0xfa).
  pose proof (reg_byte_range s 0xfb). pose proof (reg_byte_range s 0xfc).
  assert (0 <= reg_byte s 0xf9 / 16 < 16)
    by (split; [apply Z.div_pos | apply Z.div_lt_upper_bound]; lia).
  assert (0 <= reg_byte s 0xfc / 16 < 16)
    by (split; [apply Z.div_pos | apply Z.div_lt_upper_bound]; lia).
  split; [|subst p_raw t_raw; change (2 ^ 20) with 1048576; lia].
  unfold _get_raw_temp_pressure.
  erewrite bind_run by (apply cbits_get_span_healthy; exact H).
  unfold ret. cbn [fst]. unfold raw_reading.
  cbn [register_address register_width _d seq map le_assemble].
  change (247 + Z.of_nat 0) with 0xf7. change (247 + Z.of_nat 1) with 0xf8.
  change (247 + Z.of_nat 2) with 0xf9. change (247 + Z.of_nat 3) with 0xfa.
  change (247 + Z.of_nat 4) with 0xfb. change (247 + Z.of_nat 5) with 0xfc.
  fold _d.
  rewrite !field_48_byte by lia. rewrite !field_48_low.
  assert (forall r, reg_byte s r = Z.land (mem s (_address s) r) 255) as Byte
    by reflexivity.
  rewrite (Byte 0xf7), (Byte 0xf8), (Byte 0xf9), (Byte 0xfa), (Byte 0xfb), (Byte 0xfc).
  repeat first
    [ rewrite (assemble_shift _ _ 32 40) by lia
    | rewrite (assemble_shift _ _ 24 32) by lia
    | rewrite (assemble_shift _ _ 16 24) by lia
    | rewrite (assemble_shift _ _ 8 16) by lia
    | rewrite (assemble_shift _ _ 0 8) by lia ].
  rewrite !Z.shiftr_0_r, !assemble_first_byte.
  rewrite <- (Byte 0xf7), <- (Byte 0xf8), <- (Byte 0xf9), <- (Byte 0xfa), <- (Byte 0xfb),
    <- (Byte 0xfc).
  rewrite !(Z.shiftr_div_pow2 _ 4) by lia. change (2 ^ 4) with 16.
  rewrite !pack_20_bits by lia.
  reflexivity.
Qed.

Lemma raw_block_layout_witness :
  fst (_get_raw_temp_pressure (poke 0xf7 0x65 (poke 0xf9 0xC0 (poke 0xfa 0x7E quiet_state))))
  = Ok (0x7E000, 0x6500C).
Proof.
  assert (healthy (poke 0xf7 0x65 (poke 0xf9 0xC0 (poke 0xfa 0x7E quiet_state)))) as H
    by (split; reflexivity).
  exact (proj1 (raw_block_layout _ H)).
Defined.

(** ** The readings of the BMP280 *)
Lemma int_of_float_pure (x : float) :
  exists r : result Z, forall s, int_of_float x s = (r, s).
Proof.
  unfold int_of_float. destruct (Prim2SF x) as [sg|sg| |sg m e]; eexists; intros s; reflexivity.
Qed.

Lemma healthy_with_t_fine_iff (t : Z) (s : state) : healthy (with_t_fine t s) <-> healthy s.
Proof. split; intros [F P]; split; assumption. Qed.

Lemma temperature_compensation_run (raw_temp : Z) (s : state) :
  healthy s ->
  exists (x : float) (l : list event),
    forall t,
      _calculate_temperature_compensation_bmp280 raw_temp (with_t_fine t s) =
        (fine <- int_of_float x ;; set_t_fine fine ;;; fdiv x 5120.0%float)
          (add_log l (with_t_fine t s)).
Proof.
  intros H.
  unfold _calculate_temperature_compensation_bmp280, dig_t1, dig_t2, dig_t3.
  eexists. eexists. intros t.
  assert (healthy (with_t_fine t s)) as Ht by (apply healthy_t_fine; exact H).
  run_float.
  autorewrite with bus.
  cbn [_address with_t_fine add_log].
  rewrite !add_log_add_log.
  reflexivity.
Qed.

Lemma with_t_fine_eta (s : state) : with_t_fine (t_fine s) s = s.
Proof. destruct s; reflexivity. Qed.


Lemma raw_block_run (s : state) :
  healthy s ->
  _get_raw_temp_pressure s =
    (Ok (raw_pair (raw_reading _d s)), add_log [MemRead (_address s) 0xf7 6] s).
Proof.
  intros H. unfold _get_raw_temp_pressure.
  erewrite bind_run by (apply cbits_get_span_healthy; exact H).
  reflexivity.
Qed.

Lemma raw_reading_t_fine (d : CBits) (t : Z) (s : state) :
  raw_reading d (with_t_fine t s) = raw_reading d s.
Proof. reflexivity. Qed.

Lemma BMP280_pressure_from_any_t_fine (s : state) :
  healthy s ->
  exists r : result float, forall t, fst (BMP280_pressure (with_t_fine t s)) = r.
Proof.
  intros H. unfold BMP280_pressure.
  destruct (raw_pair (raw_reading _d s)) as [raw_temp raw_pressure] eqn:Pair.
  destruct (temperature_compensation_run raw_temp
              (add_log [MemRead (_address s) 0xf7 6] s)) as (x & l & Temp);
    [auto with bus|].
  destruct (int_of_float_pure x) as (r & Pure).
  assert (forall t,
             _get_raw_temp_pressure (with_t_fine t s) =
               (Ok (raw_temp, raw_pressure),
                with_t_fine t (add_log [MemRead (_address s) 0xf7 6] s))) as Block.
  { intros t. rewrite raw_block_run by (apply healthy_t_fine; exact H).
    rewrite raw_reading_t_fine, Pair. reflexivity. }
  destruct r as [fine|e].
  - exists (fst ((comp_press <-
                    _calculate_pressure_compensation_bmp280 raw_pressure (x / 5120.0)%float ;;
                  fdiv (to_float comp_press) 100.0%float)
                   (with_t_fine fine
                      (add_log l (add_log [MemRead (_address s) 0xf7 6] s))))).
    intros t.
    erewrite bind_run by apply Block.
    cbv beta iota.
    erewrite bind_run.
    2:{ rewrite Temp. erewrite bind_run by apply Pure.
        erewrite bind_run by reflexivity. apply fdiv_run. reflexivity. }
    reflexivity.
  - exists (Raise e). intros t.
    erewrite bind_run by apply Block.
    cbv beta iota.
    erewrite bind_raise; [reflexivity|].
    rewrite Temp. apply bind_raise. apply Pure.
Qed.

(** [BMP280.pressure] recomputes [t_fine] from the temperature registers of
    the same raw block before the pressure compensation reads it: the value
    [t_fine] had before the call has no influence on the reading. *)
Theorem BMP280_pressure_ignores_stale_t_fine (t : Z) (s : state) :
  healthy s ->
  fst (BMP280_pressure (with_t_fine t s)) = fst (BMP280_pressure s).
Proof.
  intros H. destruct (BMP280_pressure_from_any_t_fine s H) as (r & Same).
  rewrite (Same t), <- (Same (t_fine s)), with_t_fine_eta. reflexivity.
Qed.

Lemma BMP280_pressure_ignores_stale_t_fine_witness :
  fst (BMP280_pressure (with_t_fine 999999 datasheet_state))
  = fst (BMP280_pressure datasheet_state).
Proof.
  assert (healthy datasheet_state) as H by (split; reflexivity).
  exact (BMP280_pressure_ignores_stale_t_fine 999999 datasheet_state H).
Defined.

(** ** A construction that succeeds *)

Lemma read_device_id_healthy (self : variant) (s : state) :
  healthy s ->
  _read_device_id self s =
    (Ok (reg_byte s (_REG_WHOAMI self)), add_log [MemRead (_address s) (_REG_WHOAMI self) 1] s).
Proof.
  intros H. unfold _read_device_id, register_struct_get.
  erewrite bind_run by (apply readfrom_mem_healthy; exact H).
  cbn [seq map nth]. rewrite Z.add_0_r. reflexivity.
Qed.

Lemma reg_byte_sea_level_pressure (p : float) (s : state) (reg : Z) :
  reg_byte (with_sea_level_pressure p s) reg = reg_byte s reg.
Proof. reflexivity. Qed.

Lemma log_sea_level_pressure (p : float) (s : state) :
  log (with_sea_level_pressure p s) = log s.
Proof. reflexivity. Qed.

Lemma healthy_sea_level_pressure (p : float) (s : state) :
  healthy s -> healthy (with_sea_level_pressure p s).
Proof. intros [F P]. split; assumption. Qed.

#[local] Hint Resolve healthy_sea_level_pressure : bus.
#[local] Hint Rewrite reg_byte_sea_level_pressure log_sea_level_pressure : bus.

Lemma BMP58x_configure (s : state) :
  healthy s ->
  exists s' w1 w2 w3 w4 w5,
    (cbits_set (mkCBits 2 0x37 0 1) STANDBY ;;;
     sleep_ms 5 ;;;
     cbits_set (mkCBits 3 0x31 3 1) COEF_0 ;;;
     cbits_set (mkCBits 3 0x31 0 1) COEF_0 ;;;
     cbits_set (mkCBits 2 0x37 0 1) NORMAL ;;;
     sleep_ms 5 ;;;
     cbits_set (mkCBits 1 0x36 6 1) 1 ;;;
     sea_level_pressure_setter WORLD_AVERAGE_SEA_LEVEL_PRESSURE) s = (Ok tt, s') /\
    healthy s' /\ _address s' = _address s /\
    _sea_level_pressure s' = WORLD_AVERAGE_SEA_LEVEL_PRESSURE /\
    log s' = log s ++
      [MemRead (_address s) 0x37 1; MemWrite (_address s) 0x37 [w1]; Sleep 5;
       MemRead (_address s) 0x31 1; MemWrite (_address s) 0x31 [w2];
       MemRead (_address s) 0x31 1; MemWrite (_address s) 0x31 [w3];
       MemRead (_address s) 0x37 1; MemWrite (_address s) 0x37 [w4]; Sleep 5;
       MemRead (_address s) 0x36 1; MemWrite (_address s) 0x36 [w5]] /\
    field_of (mkCBits 2 0x37 0 1) w1 = STANDBY /\
    reg_byte s' 0x37 = w4 /\ field_of (mkCBits 2 0x37 0 1) w4 = NORMAL /\
    field_of (mkCBits 5 0x37 2 1) w4 = field_of (mkCBits 5 0x37 2 1) (reg_byte s 0x37) /\
    reg_byte s' 0x31 = w3 /\
    field_of (mkCBits 3 0x31 3 1) w3 = COEF_0 /\ field_of (mkCBits 3 0x31 0 1) w3 = COEF_0 /\
    reg_byte s' 0x36 = w5 /\ field_of (mkCBits 1 0x36 6 1) w5 = 1 /\
    field_of (mkCBits 3 0x36 0 1) w5 = field_of (mkCBits 3 0x36 0 1) (reg_byte s 0x36) /\
    field_of (mkCBits 3 0x36 3 1) w5 = field_of (mkCBits 3 0x36 3 1) (reg_byte s 0x36).
Proof.
  intros H.
  eexists. eexists. eexists. eexists. eexists. eexists. split.
  - run_set. erewrite bind_run by reflexivity.
    run_set. run_set. run_set. erewrite bind_run by reflexivity. run_set.
    reflexivity.
  - cbn [register_address].
    split; [auto 20 with bus|].
    split; [reflexivity|]. split; [reflexivity|].
    autorewrite with bus. cbn [Z.eqb Pos.eqb]. rewrite ?land_255_twice.
    split; [rewrite <- !app_assoc; reflexivity|].
    repeat split;
      repeat first [ rewrite field_of_merge_field by (cbn; lia)
                   | rewrite field_of_merge_other by (cbn; lia) ];
      reflexivity.
Qed.


Lemma resolve_address_found (self : variant) (address : option Z) (s : state) (a : Z) :
  acknowledging_candidate self address s = Some a ->
  resolve_address (default_address self) (secondary_address self) address s =
    (Ok a, add_log (probes_of self address s) s).
Proof.
  unfold resolve_address, acknowledging_candidate, probes_of. destruct address as [a'|].
  - erewrite bind_run by apply check_address_run.
    destruct (present s a'); [intros [= <-]; reflexivity | discriminate].
  - erewrite bind_run by apply check_address_run.
    destruct (present s (default_address self)); [intros [= <-]; reflexivity|].
    erewrite bind_run by apply check_address_run.
    rewrite add_log_add_log. cbn [present add_log].
    destruct (present s (secondary_address self)); [intros [= <-]; reflexivity | discriminate].
Qed.

Lemma init_prefix (self : variant) (address : option Z) (tail : M unit) (s : state) (a : Z) :
  faults s = [] ->
  acknowledging_candidate self address s = Some a ->
  byte_at s a (_REG_WHOAMI self) = expected_id self ->
  let s2 := add_log [MemRead a (_REG_WHOAMI self) 1]
              (with_address a (add_log (probes_of self address s) (add_log [Sleep 3] s))) in
  healthy s2 /\
  (sleep_ms 3 ;;;
   a <- resolve_address (default_address self) (secondary_address self) address ;;
   set_address a ;;;
   id <- _read_device_id self ;;
   if negb (id =? expected_id self) then raise RuntimeError else tail) s = tail s2.
Proof.
  intros F Candidate Id s2.
  assert (healthy s2) as H2.
  { split; [exact F|]. cbn. apply (acknowledging_candidate_present _ _ _ _ Candidate). }
  split; [exact H2|].
  erewrite bind_run by reflexivity.
  erewrite bind_run by (apply resolve_address_found; exact Candidate).
  erewrite bind_run by reflexivity.
  erewrite bind_run.
  2:{ apply read_device_id_healthy. split; [exact F|].
      cbn. apply (acknowledging_candidate_present _ _ _ _ Candidate). }
  change (reg_byte _ (_REG_WHOAMI self)) with (byte_at s a (_REG_WHOAMI self)).
  rewrite Id, Z.eqb_refl. reflexivity.
Qed.

(** On a bus without faults where a candidate address acknowledges and the
    chip id register holds the id of the class, [BMP581.__init__] and
    [BMP585.__init__] succeed.  They keep the acknowledging address, set the
    sea level reference to 1013.25, go through STANDBY before NORMAL with
    exactly the transactions listed, and leave the device in NORMAL mode with
    both IIR filters bypassed, pressure measurement enabled and the
    oversampling fields untouched. *)
Theorem BMP58x_construction (self : variant) (address : option Z) (s : state) (a : Z) :
  self = BMP581 \/ self = BMP585 ->
  faults s = [] ->
  acknowledging_candidate self address s = Some a ->
  byte_at s a 0x01 = expected_id self ->
  exists s' w1 w2 w3 w4 w5,
    __init__ self address s = (Ok tt, s') /\
    _address s' = a /\
    _sea_level_pressure s' = WORLD_AVERAGE_SEA_LEVEL_PRESSURE /\
    log s' = log s ++ [Sleep 3] ++ probes_of self address s ++
      [MemRead a 0x01 1;
       MemRead a 0x37 1; MemWrite a 0x37 [w1]; Sleep 5;
       MemRead a 0x31 1; MemWrite a 0x31 [w2];
       MemRead a 0x31 1; MemWrite a 0x31 [w3];
       MemRead a 0x37 1; MemWrite a 0x37 [w4]; Sleep 5;
       MemRead a 0x36 1; MemWrite a 0x36 [w5]] /\
    field_of (_power_mode self) w1 = STANDBY /\
    field_of (_power_mode self) w4 = NORMAL /\
    fst (getter self PowerMode s') = Ok "NORMAL"%string /\
    fst (getter self IirCoefficient s') = Ok "COEF_0"%string /\
    stored self PressureOversampleRate s'
      = stored self PressureOversampleRate (with_address a s) /\
    stored self TemperatureOversampleRate s'
      = stored self TemperatureOversampleRate (with_address a s) /\
    field_of (_pressure_enabled self) (reg_byte s' 0x36) = 1 /\
    reg_byte s' 0x31 = w3 /\
    field_of (_iir_coefficient self) w3 = COEF_0 /\
    field_of (_iir_temp_coefficient self) w3 = COEF_0 /\
    reg_byte s' 0x37 = w4 /\
    reg_byte s' 0x36 = w5.
Proof.
  intros Self F Candidate Id.
  assert (_REG_WHOAMI self = 0x01) as Who by (destruct Self as [-> | ->]; reflexivity).
  rewrite <- Who in Id.
  assert (exists tail,
             __init__ self address =
               (sleep_ms 3 ;;;
                a <- resolve_address (default_address self) (secondary_address self) address ;;
                set_address a ;;;
                id <- _read_device_id self ;;
                if negb (id =? expected_id self) then raise RuntimeError else tail) /\
             tail =
               (cbits_set (mkCBits 2 0x37 0 1) STANDBY ;;;
                sleep_ms 5 ;;;
                cbits_set (mkCBits 3 0x31 3 1) COEF_0 ;;;
                cbits_set (mkCBits 3 0x31 0 1) COEF_0 ;;;
                cbits_set (mkCBits 2 0x37 0 1) NORMAL ;;;
                sleep_ms 5 ;;;
                cbits_set (mkCBits 1 0x36 6 1) 1 ;;;
                sea_level_pressure_setter WORLD_AVERAGE_SEA_LEVEL_PRESSURE))
    as (tail & Shape & Tail)
    by (destruct Self as [-> | ->]; eexists; split; reflexivity).
  rewrite Shape.
  destruct (init_prefix self address tail s a F Candidate Id) as (H2 & ->).
  subst tail.
  rewrite Who in *.
  destruct (BMP58x_configure _ H2)
    as (s' & w1 & w2 & w3 & w4 & w5 & Run & H' & Address & Reference & Log
        & Standby & Mode & Normal & _ & Coef & Press & Temp & Enable & Enabled & TOsr & POsr).
  exists s', w1, w2, w3, w4, w5.
  cbn [_address add_log with_address] in *.
  split; [exact Run|]. split; [exact Address|]. split; [exact Reference|].
  split; [rewrite Log; cbn [log add_log with_address]; rewrite <- !app_assoc; reflexivity|].
  replace (_power_mode self) with (mkCBits 2 0x37 0 1)
    by (destruct Self as [-> | ->]; reflexivity).
  replace (_pressure_enabled self) with (mkCBits 1 0x36 6 1)
    by (destruct Self as [-> | ->]; reflexivity).
  split; [exact Standby|]. split; [exact Normal|].
  rewrite !getter_reads by exact H'. unfold stored.
  replace (descriptor self PowerMode) with (mkCBits 2 0x37 0 1)
    by (destruct Self as [-> | ->]; reflexivity).
  replace (descriptor self IirCoefficient) with (mkCBits 3 0x31 3 1)
    by (destruct Self as [-> | ->]; reflexivity).
  replace (descriptor self PressureOversampleRate) with (mkCBits 3 0x36 3 1)
    by (destruct Self as [-> | ->]; reflexivity).
  replace (descriptor self TemperatureOversampleRate) with (mkCBits 3 0x36 0 1)
    by (destruct Self as [-> | ->]; reflexivity).
  replace (_iir_coefficient self) with (mkCBits 3 0x31 3 1)
    by (destruct Self as [-> | ->]; reflexivity).
  unfold _iir_temp_coefficient.
  cbn [register_address]. rewrite Mode, Normal, Coef, Press, Temp, Enable, Enabled, TOsr, POsr.
  repeat split; destruct Self as [-> | ->]; reflexivity.
Qed.

Lemma BMP58x_construction_witness :
  exists s',
    __init__ BMP581 None
      (mkState (fun a => a =? 0x46) (fun _ reg => if reg =? 0x01 then 0x50 else 0) [] [] 0
               0%float 0) = (Ok tt, s') /\
    _address s' = 0x46 /\
    fst (getter BMP581 PowerMode s') = Ok "NORMAL"%string.
Proof.
  set (s := mkState (fun a => a =? 0x46) (fun _ reg => if reg =? 0x01 then 0x50 else 0)
                    [] [] 0 0%float 0).
  assert (faults s = []) as F by reflexivity.
  assert (acknowledging_candidate BMP581 None s = Some 0x46) as Candidate by reflexivity.
  assert (byte_at s 0x46 0x01 = expected_id BMP581) as Id by reflexivity.
  destruct (BMP58x_construction BMP581 None s 0x46 (or_introl eq_refl) F Candidate Id)
    as (s' & w1 & w2 & w3 & w4 & w5 & Run & Address & _ & _ & _ & _ & Mode & _).
  exists s'. split; [exact Run|]. split; [exact Address | exact Mode].
Defined.

Lemma BMP390_configure (s : state) :
  healthy s ->
  exists s' w1 w2,
    (cbits_set (mkCBits 2 0x1b 4 1) NORMAL ;;;
     sleep_ms 4 ;;;
     cbits_set (mkCBits 1 0x1b 0 1) 1 ;;;
     sea_level_pressure_setter WORLD_AVERAGE_SEA_LEVEL_PRESSURE) s = (Ok tt, s') /\
    healthy s' /\ _address s' = _address s /\
    _sea_level_pressure s' = WORLD_AVERAGE_SEA_LEVEL_PRESSURE /\
    log s' = log s ++
      [MemRead (_address s) 0x1b 1; MemWrite (_address s) 0x1b [w1]; Sleep 4;
       MemRead (_address s) 0x1b 1; MemWrite (_address s) 0x1b [w2]] /\
    reg_byte s' 0x1b = w2 /\
    field_of (mkCBits 2 0x1b 4 1) w2 = NORMAL /\
    field_of (mkCBits 1 0x1b 0 1) w2 = 1.
Proof.
  intros H.
  eexists. eexists. eexists. split.
  - run_set. erewrite bind_run by reflexivity. run_set. reflexivity.
  - cbn [register_address].
    split; [auto 20 with bus|].
    split; [reflexivity|]. split; [reflexivity|].
    autorewrite with bus. cbn [Z.eqb Pos.eqb]. rewrite ?land_255_twice.
    split; [rewrite <- !app_assoc; reflexivity|].
    repeat split;
      repeat first [ rewrite field_of_merge_field by (cbn; lia)
                   | rewrite field_of_merge_other by (cbn; lia) ];
      reflexivity.
Qed.

(** [BMP390.__init__] succeeds under the same conditions with chip id 0x60.
    It writes the constant NORMAL (0x01) to the mode field of register 0x1b
    and enables pressure measurement; the mode getter of the constructed
    object answers "FORCED", the name 0x01 has in [BMP390]'s table. *)
Theorem BMP390_construction (address : option Z) (s : state) (a : Z) :
  faults s = [] ->
  acknowledging_candidate BMP390 address s = Some a ->
  byte_at s a 0x00 = expected_id BMP390 ->
  exists s' w1 w2,
    __init__ BMP390 address s = (Ok tt, s') /\
    _address s' = a /\
    _sea_level_pressure s' = WORLD_AVERAGE_SEA_LEVEL_PRESSURE /\
    log s' = log s ++ [Sleep 3] ++ probes_of BMP390 address s ++
      [MemRead a 0x00 1;
       MemRead a 0x1b 1; MemWrite a 0x1b [w1]; Sleep 4;
       MemRead a 0x1b 1; MemWrite a 0x1b [w2]] /\
    stored BMP390 PowerMode s' = NORMAL /\
    fst (getter BMP390 PowerMode s') = Ok "FORCED"%string /\
    field_of (_pressure_enabled BMP390) (reg_byte s' 0x1b) = 1.
Proof.
  intros F Candidate Id.
  change (__init__ BMP390 address) with
    (sleep_ms 3 ;;;
     a <- resolve_address (default_address BMP390) (secondary_address BMP390) address ;;
     set_address a ;;;
     id <- _read_device_id BMP390 ;;
     if negb (id =? expected_id BMP390) then raise RuntimeError
     else
       (cbits_set (mkCBits 2 0x1b 4 1) NORMAL ;;;
        sleep_ms 4 ;;;
        cbits_set (mkCBits 1 0x1b 0 1) 1 ;;;
        sea_level_pressure_setter WORLD_AVERAGE_SEA_LEVEL_PRESSURE)).
  destruct (init_prefix BMP390 address
              (cbits_set (mkCBits 2 0x1b 4 1) NORMAL ;;;
               sleep_ms 4 ;;;
               cbits_set (mkCBits 1 0x1b 0 1) 1 ;;;
               sea_level_pressure_setter WORLD_AVERAGE_SEA_LEVEL_PRESSURE)
              s a F Candidate Id) as (H2 & ->).
  destruct (BMP390_configure _ H2)
    as (s' & w1 & w2 & Run & H' & Address & Reference & Log & Control & Mode & Enabled).
  exists s', w1, w2.
  cbn [_address add_log with_address _REG_WHOAMI] in *.
  split; [exact Run|]. split; [exact Address|]. split; [exact Reference|].
  split; [rewrite Log; cbn [log add_log with_address]; rewrite <- !app_assoc; reflexivity|].
  rewrite getter_reads by exact H'. unfold stored.
  cbn [descriptor _power_mode _pressure_enabled register_address].
  rewrite Control, Mode, Enabled. repeat split.
Qed.

Lemma BMP390_construction_witness :
  exists s',
    __init__ BMP390 (Some 0x7e)
      (mkState (fun a => a =? 0x7e) (fun _ reg => if reg =? 0x00 then 0x60 else 0) [] [] 0
               0%float 0) = (Ok tt, s') /\
    fst (getter BMP390 PowerMode s') = Ok "FORCED"%string.
Proof.
  set (s := mkState (fun a => a =? 0x7e) (fun _ reg => if reg =? 0x00 then 0x60 else 0)
                    [] [] 0 0%float 0).
  assert (faults s = []) as F by reflexivity.
  assert (acknowledging_candidate BMP390 (Some 0x7e) s = Some 0x7e) as Candidate
    by reflexivity.
  assert (byte_at s 0x7e 0x00 = expected_id BMP390) as Id by reflexivity.
  destruct (BMP390_construction (Some 0x7e) s 0x7e F Candidate Id)
    as (s' & w1 & w2 & Run & _ & _ & _ & _ & Mode & _).
  exists s'. split; [exact Run | exact Mode].
Defined.

(** ** Reading never writes *)

Lemma ro_ret {A : Type} (a : A) : read_only (ret a).
Proof. intros s. split; [|split]; reflexivity. Qed.

Lemma ro_raise {A : Type} (e : exn) : read_only (@raise A e).
Proof. intros s. split; [|split]; reflexivity. Qed.

Lemma ro_bind {A B : Type} (m : M A) (k : A -> M B) :
  read_only m -> (forall a, read_only (k a)) -> read_only (bind m k).
Proof.
  intros Hm Hk s. unfold bind. specialize (Hm s).
  destruct (m s) as [[a|e] s1]; cbn [snd] in *.
  - destruct (Hk a s1) as (M1 & W1 & R1). destruct Hm as (M0 & W0 & R0).
    split; [|split]; congruence.
  - exact Hm.
Qed.

Lemma ro_readfrom_mem (addr reg : Z) (n : nat) : read_only (readfrom_mem addr reg n).
Proof.
  intros s. unfold readfrom_mem, transact. cbn [faults add_log present].
  destruct (faults s) as [|f fs].
  - destruct (present s addr); cbn [snd mem log add_log _address];
      rewrite writes_app, app_nil_r; (split; [|split]; reflexivity).
  - destruct (negb f && present s addr); cbn [snd mem log add_log with_faults _address];
      rewrite writes_app, app_nil_r; (split; [|split]; reflexivity).
Qed.

Lemma ro_cbits_get (d : CBits) : read_only (cbits_get d).
Proof.
  intros s. unfold cbits_get.
  apply (ro_bind (readfrom_mem (_address s) (register_address d) (register_width d))).
  - apply ro_readfrom_mem.
  - intros a. apply ro_ret.
Qed.

Lemma ro_register_struct_get (reg : Z) : read_only (register_struct_get reg).
Proof.
  intros s. unfold register_struct_get.
  apply (ro_bind (readfrom_mem (_address s) reg 1)).
  - apply ro_readfrom_mem.
  - intros a. apply ro_ret.
Qed.

Lemma ro_fdiv (x y : float) : read_only (fdiv x y).
Proof. unfold fdiv. destruct (y =? 0)%float; [apply ro_raise | apply ro_ret]. Qed.

Lemma ro_int_of_float (x : float) : read_only (int_of_float x).
Proof.
  unfold int_of_float.
  destruct (Prim2SF x) as [sg|sg| |sg m e];
    first [apply ro_ret | apply ro_raise].
Qed.

Lemma ro_set_t_fine (t : Z) : read_only (set_t_fine t).
Proof. intros s. split; [|split]; reflexivity. Qed.

Lemma ro_get_t_fine : read_only get_t_fine.
Proof. intros s. split; [|split]; reflexivity. Qed.

Lemma ro_py_index (names : list string) (i : Z) : read_only (py_index names i).
Proof.
  unfold py_index. destruct (nth_error names (Z.to_nat i)); [apply ro_ret | apply ro_raise].
Qed.

Ltac ro :=
  repeat first
    [ apply ro_ret
    | apply ro_raise
    | apply ro_cbits_get
    | apply ro_register_struct_get
    | apply ro_fdiv
    | apply ro_int_of_float
    | apply ro_set_t_fine
    | apply ro_get_t_fine
    | apply ro_py_index
    | apply ro_bind; [|intros]
    | progress cbv zeta
    | match goal with
      | |- read_only (if ?b then _ else _) => destruct b
      | |- read_only (let '(_, _) := ?p in _) => destruct p
      end ].

Lemma ro_dig_unsigned (msb_reg lsb_reg : Z) : read_only (dig_unsigned msb_reg lsb_reg).
Proof. unfold dig_unsigned. ro. Qed.

Lemma ro_dig_signed (msb_reg lsb_reg : Z) : read_only (dig_signed msb_reg lsb_reg).
Proof. unfold dig_signed. ro. Qed.

Lemma ro_temperature_compensation (raw_temp : Z) :
  read_only (_calculate_temperature_compensation_bmp280 raw_temp).
Proof.
  unfold _calculate_temperature_compensation_bmp280, dig_t1, dig_t2, dig_t3.
  repeat first [ apply ro_dig_unsigned | apply ro_dig_signed | progress ro ].
Qed.

Lemma ro_pressure_compensation (raw_pressure : Z) (tempc : float) :
  read_only (_calculate_pressure_compensation_bmp280 raw_pressure tempc).
Proof.
  unfold _calculate_pressure_compensation_bmp280,
    dig_p1, dig_p2, dig_p3, dig_p4, dig_p5, dig_p6, dig_p7, dig_p8, dig_p9.
  repeat first [ apply ro_dig_unsigned | apply ro_dig_signed | progress ro ].
Qed.

Lemma ro_get_raw_temp_pressure : read_only _get_raw_temp_pressure.
Proof. unfold _get_raw_temp_pressure. ro. Qed.

Lemma ro_sleep_ms (ms : Z) : read_only (sleep_ms ms).
Proof.
  intros s. cbn [sleep_ms snd mem log add_log]. rewrite writes_app, app_nil_r.
  split; [|split]; reflexivity.
Qed.

Lemma ro_set_address (a : Z) : read_only (set_address a).
Proof. intros s. split; [|split]; reflexivity. Qed.

Lemma ro_check_address (address : Z) : read_only (_check_address address).
Proof.
  intros s. rewrite check_address_run. cbn [snd mem log add_log].
  rewrite writes_app, app_nil_r. split; [|split]; reflexivity.
Qed.

Lemma ro_resolve_address (default secondary : Z) (address : option Z) :
  read_only (resolve_address default secondary address).
Proof.
  unfold resolve_address. destruct address as [a|];
    repeat first [ apply ro_check_address | progress ro ].
Qed.

Lemma failure_before_tail {A : Type} (m : M A) (c : A -> bool) (tail : M unit) (s : state) :
  read_only m -> no_runtime_error tail ->
  let run := (x <- m ;; if c x then raise RuntimeError else tail) s in
  fst run = Raise RuntimeError ->
  mem (snd run) = mem s /\ writes (log (snd run)) = writes (log s).
Proof.
  intros Hm Tail run. subst run. unfold bind. specialize (Hm s).
  destruct (m s) as [[a|e] s1]; cbn [snd] in Hm.
  - destruct (c a).
    + intros _. split; apply Hm.
    + intros R. exfalso. exact (Tail s1 R).
  - intros _. split; apply Hm.
Qed.

(** ** A construction that fails *)

(** A construction that raises [RuntimeError] has written no register: the
    address probes and the read of the identification register are all it
    has done on the bus. *)
Theorem failed_construction_writes_nothing (self : variant) (address : option Z) (s : state) :
  fst (__init__ self address s) = Raise RuntimeError ->
  mem (snd (__init__ self address s)) = mem s /\
  writes (log (snd (__init__ self address s))) = writes (log s).
Proof.
  destruct (init_shape self address) as (tail & Tail & ->).
  set (prefix :=
         sleep_ms 3 ;;;
         a <- resolve_address (default_address self) (secondary_address self) address ;;
         set_address a ;;;
         _read_device_id self).
  assert (read_only prefix) as Prefix.
  { subst prefix. unfold _read_device_id.
    repeat first [ apply ro_sleep_ms | apply ro_resolve_address | apply ro_set_address
                 | progress ro ]. }
  assert (forall K : Z -> M unit,
             (sleep_ms 3 ;;;
              a <- resolve_address (default_address self) (secondary_address self) address ;;
              set_address a ;;;
              id <- _read_device_id self ;; K id) s
             = (id <- prefix ;; K id) s) as Assoc.
  { intros K. subst prefix. unfold bind.
    destruct (sleep_ms 3 s) as [[u|e] s1]; [|reflexivity].
    destruct (resolve_address (default_address self) (secondary_address self) address s1)
      as [[a|e] s2]; [|reflexivity].
    destruct (set_address a s2) as [[u'|e] s3]; [|reflexivity].
    destruct (_read_device_id self s3) as [[i|e] s4]; reflexivity. }
  rewrite Assoc.
  apply (failure_before_tail prefix (fun id => negb (id =? expected_id self)) tail s Prefix Tail).
Qed.

Lemma failed_construction_writes_nothing_witness :
  mem (snd (__init__ BMP390 None quiet_state)) = mem quiet_state /\
  writes (log (snd (__init__ BMP390 None quiet_state))) = writes (log quiet_state).
Proof.
  apply (failed_construction_writes_nothing BMP390 None quiet_state).
  reflexivity.
Defined.

(** ** The construction of a BMP280 *)

Lemma rq_ret {A : Type} (a : A) : reads_quietly (ret a).
Proof. intros s H. repeat split; [apply H | apply H | discriminate]. Qed.

Lemma rq_bind {A B : Type} (m : M A) (k : A -> M B) :
  reads_quietly m -> (forall a, reads_quietly (k a)) -> reads_quietly (bind m k).
Proof.
  intros Hm Hk s H. unfold bind.
  destruct (Hm s H) as (H1 & A1 & M1 & W1 & E1).
  destruct (m s) as [[a|e] s1]; cbn [fst snd] in *.
  - destruct (Hk a s1 H1) as (H2 & A2 & M2 & W2 & E2).
    split; [exact H2|]. split; [congruence|]. split; [congruence|].
    split; [congruence | exact E2].
  - split; [exact H1|]. split; [exact A1|]. split; [exact M1|].
    split; [exact W1|]. intros e' [= <-]. apply E1. reflexivity.
Qed.

Lemma rq_cbits_get (d : CBits) : reads_quietly (cbits_get d).
Proof.
  intros s H. rewrite cbits_get_span_healthy by exact H.
  cbn [fst snd mem log add_log _address]. rewrite writes_app, app_nil_r.
  split; [apply healthy_add_log; exact H|].
  repeat split. discriminate.
Qed.

Lemma rq_fdiv (x y : float) : (y =? 0)%float = false -> reads_quietly (fdiv x y).
Proof. intros N. unfold fdiv. rewrite N. apply rq_ret. Qed.

Lemma rq_int_of_float (x : float) : reads_quietly (int_of_float x).
Proof.
  unfold int_of_float.
  destruct (Prim2SF x) as [sg|sg| |sg m e]; try apply rq_ret;
    intros s H; cbn [raise fst snd];
    (split; [exact H|]); repeat split; intros e' [= <-]; [left | right]; reflexivity.
Qed.

Lemma rq_set_t_fine (t : Z) : reads_quietly (set_t_fine t).
Proof.
  intros s H. cbn [set_t_fine fst snd].
  split; [apply healthy_t_fine; exact H|]. repeat split. discriminate.
Qed.

Lemma rq_get_t_fine : reads_quietly get_t_fine.
Proof. intros s H. cbn [get_t_fine fst snd]. split; [exact H|]. repeat split. discriminate. Qed.

Ltac rq :=
  repeat first
    [ apply rq_ret
    | apply rq_cbits_get
    | apply rq_fdiv; first [reflexivity | assumption]
    | apply rq_int_of_float
    | apply rq_set_t_fine
    | apply rq_get_t_fine
    | apply rq_bind; [|intros]
    | progress cbv zeta
    | match goal with
      | |- reads_quietly (if ?b then _ else _) => destruct b eqn:?
      | |- reads_quietly (let '(_, _) := ?p in _) => destruct p
      end ].

Lemma rq_BMP280_pressure : reads_quietly BMP280_pressure.
Proof.
  unfold BMP280_pressure, _get_raw_temp_pressure,
    _calculate_temperature_compensation_bmp280, _calculate_pressure_compensation_bmp280,
    dig_t1, dig_t2, dig_t3,
    dig_p1, dig_p2, dig_p3, dig_p4, dig_p5, dig_p6, dig_p7, dig_p8, dig_p9,
    dig_unsigned, dig_signed.
  rq.
Qed.

Lemma BMP280_configure (s : state) :
  healthy s ->
  exists s',
    (cbits_set _config_register 0x00 ;;;
     cbits_set _control_register
       (Z.shiftl (_translate_osr_bmp280 OSR1) 5
        + Z.shiftl (_translate_osr_bmp280 OSR1) 2
        + BMP280_NORMAL_POWER)) s = (Ok tt, s') /\
    healthy s' /\ _address s' = _address s /\
    log s' = log s ++ [MemRead (_address s) 0xf5 1; MemWrite (_address s) 0xf5 [0x00];
                       MemRead (_address s) 0xF4 1; MemWrite (_address s) 0xF4 [0x27]] /\
    reg_byte s' 0xf5 = 0x00 /\
    reg_byte s' 0xF4 = 0x27.
Proof.
  intros H. unfold _control_register, _config_register.
  eexists. split.
  - run_set. rewrite cbits_set_healthy by (auto with bus || reflexivity). reflexivity.
  - split; [auto 10 with bus|].
    cbn [register_address].
    autorewrite with bus. cbn [Z.eqb Pos.eqb].
    rewrite !merge_whole_byte, ?land_255_twice.
    split; [reflexivity|].
    split; [rewrite <- !app_assoc; reflexivity | split; reflexivity].
Qed.

Lemma bind_assoc {A B C : Type} (m : M A) (k : A -> M B) (h : B -> M C) (s : state) :
  bind m (fun a => bind (k a) h) s = bind (bind m k) h s.
Proof. unfold bind. destruct (m s) as [[a|e] s1]; reflexivity. Qed.

Lemma reg_byte_same (s s' : state) (reg : Z) :
  mem s' = mem s -> _address s' = _address s -> reg_byte s' reg = reg_byte s reg.
Proof. intros Hm Ha. unfold reg_byte, byte_at. rewrite Hm, Ha. reflexivity. Qed.

Lemma BMP280_after_configuration (s : state) :
  healthy s -> reg_byte s 0xf5 = 0x00 -> reg_byte s 0xF4 = 0x27 ->
  stored BMP280 PowerMode s = BMP280_NORMAL_POWER /\
  fst (getter BMP280 PowerMode s) = Ok "NORMAL"%string /\
  fst (getter BMP280 PressureOversampleRate s) = Ok "OSR1"%string /\
  fst (getter BMP280 TemperatureOversampleRate s) = Ok "OSR1"%string /\
  fst (getter BMP280 IirCoefficient s) = Ok "COEF_0"%string.
Proof.
  intros H Config Control.
  rewrite !getter_reads by exact H. unfold stored.
  cbn [descriptor _power_mode _pressure_oversample_rate _temperature_oversample_rate
       _iir_coefficient register_address].
  rewrite Config, Control. repeat split.
Qed.

(** On a bus without faults where a candidate address acknowledges and the
    identification register 0xd0 holds 0x58, [BMP280.__init__] writes 0x00
    to the configuration register 0xf5 and then 0x27 to the control register
    0xF4, and nothing else.  It returns, with [t_fine] reset to 0 and the sea
    level reference at 1013.25, unless the [int()] conversion of the first
    temperature compensation fails; either way the device is left in the raw
    mode 0x03, which the getter names NORMAL, with both oversampling rates
    at OSR1 and the IIR filter at COEF_0. *)
Theorem BMP280_construction (address : option Z) (s : state) (a : Z) :
  faults s = [] ->
  acknowledging_candidate BMP280 address s = Some a ->
  byte_at s a 0xd0 = expected_id BMP280 ->
  exists r s',
    __init__ BMP280 address s = (r, s') /\
    (r = Ok tt \/ r = Raise OverflowError \/ r = Raise ValueError) /\
    (r = Ok tt -> t_fine s' = 0 /\
                  _sea_level_pressure s' = WORLD_AVERAGE_SEA_LEVEL_PRESSURE) /\
    _address s' = a /\
    writes (log s') = writes (log s) ++ [(0xf5, [0x00]); (0xF4, [0x27])] /\
    stored BMP280 PowerMode s' = BMP280_NORMAL_POWER /\
    fst (getter BMP280 PowerMode s') = Ok "NORMAL"%string /\
    fst (getter BMP280 PressureOversampleRate s') = Ok "OSR1"%string /\
    fst (getter BMP280 TemperatureOversampleRate s') = Ok "OSR1"%string /\
    fst (getter BMP280 IirCoefficient s') = Ok "COEF_0"%string.
Proof.
  intros F Candidate Id.
  change (__init__ BMP280 address) with
    (sleep_ms 3 ;;;
     a <- resolve_address (default_address BMP280) (secondary_address BMP280) address ;;
     set_address a ;;;
     id <- _read_device_id BMP280 ;;
     if negb (id =? expected_id BMP280) then raise RuntimeError
     else
       (cbits_set _config_register 0x00 ;;;
        cbits_set _control_register
          (Z.shiftl (_translate_osr_bmp280 OSR1) 5
           + Z.shiftl (_translate_osr_bmp280 OSR1) 2
           + BMP280_NORMAL_POWER) ;;;
        BMP280_pressure ;;;
        sleep_ms 4 ;;;
        sleep_ms 63 ;;;
        sea_level_pressure_setter WORLD_AVERAGE_SEA_LEVEL_PRESSURE ;;;
        set_t_fine 0)).
  match goal with
  | |- context [if _ then raise RuntimeError else ?t] =>
      destruct (init_prefix BMP280 address t s a F Candidate Id) as (H2 & ->)
  end.
  destruct (BMP280_configure _ H2) as (s4 & Run & H4 & A4 & Log & Config & Control).
  rewrite bind_assoc. erewrite bind_run by exact Run.
  destruct (rq_BMP280_pressure s4 H4) as (H5 & A5 & M5 & W5 & E5).
  assert (_address s4 = a) as Aa by (rewrite A4; reflexivity).
  assert (writes (log s4) = writes (log s) ++ [(0xf5, [0x00]); (0xF4, [0x27])]) as W4.
  { rewrite Log. cbn [log add_log with_address].
    rewrite !writes_app.
    assert (writes (probes_of BMP280 address s) = []) as ->
        by (unfold probes_of; destruct address; [|destruct (present s _)]; reflexivity).
    cbn [writes app]. rewrite !app_nil_r. reflexivity. }
  unfold bind at 1.
  destruct (BMP280_pressure s4) as [[p|e] s5]; cbn [fst snd] in *.
  - eexists (Ok tt), _. split; [reflexivity|].
    split; [left; reflexivity|].
    split; [intros _; split; reflexivity|].
    split; [cbn; congruence|].
    split; [cbn [log with_t_fine with_sea_level_pressure add_log];
            rewrite <- app_assoc, writes_app, app_nil_r; congruence|].
    apply BMP280_after_configuration.
    + auto 10 with bus.
    + rewrite <- Config. apply reg_byte_same; [exact M5 | exact A5].
    + rewrite <- Control. apply reg_byte_same; [exact M5 | exact A5].
  - exists (Raise e), s5. split; [reflexivity|].
    split; [right; destruct (E5 e eq_refl) as [-> | ->]; [left | right]; reflexivity|].
    split; [discriminate|].
    split; [congruence|].
    split; [congruence|].
    apply BMP280_after_configuration.
    + exact H5.
    + rewrite <- Config. apply reg_byte_same; [exact M5 | exact A5].
    + rewrite <- Control. apply reg_byte_same; [exact M5 | exact A5].
Qed.

Lemma BMP280_construction_witness :
  exists s',
    __init__ BMP280 None
      (mkState (fun a => a =? 0x76)
               (fun _ reg => if reg =? 0xd0 then 0x58 else lookup_register datasheet_registers reg)
               [] [] 0 0%float 7) = (Ok tt, s') /\
    _address s' = 0x76 /\
    t_fine s' = 0 /\
    fst (getter BMP280 PowerMode s') = Ok "NORMAL"%string.
Proof.
  set (s := mkState (fun a => a =? 0x76)
                    (fun _ reg => if reg =? 0xd0 then 0x58
                                  else lookup_register datasheet_registers reg)
                    [] [] 0 0%float 7).
  assert (faults s = []) as F by reflexivity.
  assert (acknowledging_candidate BMP280 None s = Some 0x76) as Candidate by reflexivity.
  assert (byte_at s 0x76 0xd0 = expected_id BMP280) as Id by reflexivity.
  assert (fst (__init__ BMP280 None s) = Ok tt) as Returns by (vm_compute; reflexivity).
  destruct (BMP280_construction None s 0x76 F Candidate Id)
    as (r & s' & Run & _ & Fine & Address & _ & _ & Mode & _).
  rewrite Run in Returns. cbn [fst] in Returns. subst r.
  exists s'. split; [exact Run|]. split; [exact Address|].
  split; [exact (proj1 (Fine eq_refl)) | exact Mode].
Defined.

(** ** The IIR coefficient, interrupted *)

Lemma cbits_get_budget (d : CBits) (s : state) (k : nat) (rest : list bool) :
  register_width d = 1%nat ->
  present s (_address s) = true ->
  faults s = repeat false (S k) ++ true :: rest ->
  exists s',
    cbits_get d s = (Ok (field_of d (reg_byte s (register_address d))), s') /\
    (forall r, reg_byte s' r = reg_byte s r) /\
    present s' (_address s') = true /\
    faults s' = repeat false k ++ true :: rest.
Proof.
  intros W P F. unfold cbits_get, bind, readfrom_mem, transact.
  cbn [faults add_log present _address]. rewrite F, W, P.
  cbn [repeat app negb andb seq map ret].
  rewrite le_assemble_one, Z.add_0_r.
  eexists. split; [reflexivity|]. split; [intros r; reflexivity|]. split; [exact P | reflexivity].
Qed.


Lemma cbits_set_budget (d : CBits) (value : Z) (s : state) (k : nat) (rest : list bool) :
  register_width d = 1%nat ->
  present s (_address s) = true ->
  faults s = repeat false k ++ true :: rest ->
  exists s',
    present s' (_address s') = true /\
    match k with
    | O | S O =>
        cbits_set d value s = (Raise OSError, s') /\
        (forall r, reg_byte s' r = reg_byte s r) /\
        faults s' = rest
    | S (S k') =>
        cbits_set d value s = (Ok tt, s') /\
        (forall r, reg_byte s' r =
                   if r =? register_address d
                   then Z.land (merge_field d (reg_byte s (register_address d)) value) 255
                   else reg_byte s r) /\
        faults s' = repeat false k' ++ true :: rest
    end.
Proof.
  intros W P F. unfold cbits_set, bind, readfrom_mem, writeto_mem, transact.
  cbn [faults add_log present _address]. rewrite F, W, P.
  destruct k as [|[|k']]; cbn [repeat app negb andb seq map ret faults with_faults
                               add_log present _address le_bytes];
    rewrite ?P; cbn [negb andb].
  - eexists. split; cycle 1.
    + split; [reflexivity|]. split; [intros r|]; reflexivity.
    + exact P.
  - eexists. split; cycle 1.
    + split; [reflexivity|]. split; [intros r|]; reflexivity.
    + exact P.
  - rewrite le_assemble_one, Z.add_0_r.
    eexists. split; cycle 1; [split; [reflexivity|]; split; [|reflexivity] | exact P].
    intros r.
    change (reg_byte ?x r) with
      (reg_byte (poke (register_address d)
                   (Z.land (merge_field d (reg_byte s (register_address d)) value) 255) s) r)
      at 1.
    rewrite reg_byte_poke, land_255_twice. reflexivity.
Qed.

(** The IIR update of the [BMP581] and [BMP585] is not atomic.  When the
    device is measuring (its mode is not STANDBY) and the transport fails
    after the write of STANDBY went through, that is on the fourth to the
    ninth bus transaction of the setter, the setter raises [OSError] and
    does not restore the mode: the device is left in STANDBY. *)
Theorem BMP58x_iir_coefficient_interrupted (self : variant) (value : Z) (s : state)
    (n : nat) (rest : list bool) :
  self = BMP581 \/ self = BMP585 ->
  In value (iir_coefficient_values self) ->
  present s (_address s) = true ->
  stored self PowerMode s <> STANDBY ->
  (3 <= n <= 8)%nat ->
  faults s = repeat false n ++ true :: rest ->
  exists s',
    setter self IirCoefficient value s = (Raise OSError, s') /\
    stored self PowerMode s' = STANDBY /\
    faults s' = rest.
Proof.
  intros Self I P Running N F.
  apply py_in_spec in I.
  assert (setter self IirCoefficient value = BMP581_iir_coefficient_setter self value) as ->
    by (destruct Self as [-> | ->]; reflexivity).
  unfold stored in *.
  replace (descriptor self PowerMode) with (mkCBits 2 0x37 0 1) in *
    by (destruct Self as [-> | ->]; reflexivity).
  cbn [register_address] in *.
  unfold BMP581_iir_coefficient_setter. rewrite I. cbn [negb].
  replace (_power_mode self) with (mkCBits 2 0x37 0 1)
    by (destruct Self as [-> | ->]; reflexivity).
  replace (_iir_coefficient self) with (mkCBits 3 0x31 3 1)
    by (destruct Self as [-> | ->]; reflexivity).
  unfold _iir_temp_coefficient.
  destruct n as [|[|[|m]]]; try lia.
  destruct (cbits_get_budget (mkCBits 2 0x37 0 1) s (S (S m)) rest eq_refl P F)
    as (s1 & Run1 & R1 & P1 & F1).
  erewrite bind_run by exact Run1. cbn [register_address].
  apply Z.eqb_neq in Running. rewrite Running. cbn [negb].
  rewrite !BMP58x_power_mode_setter_writes
    by (first [ exact Self | unfold STANDBY; lia
              | apply (field_of_range (mkCBits 2 0x37 0 1)); cbn; lia ]).
  destruct (cbits_set_budget (mkCBits 2 0x37 0 1) STANDBY s1 (S (S m)) rest eq_refl P1 F1)
    as (s2 & P2 & Run2 & R2 & F2).
  erewrite bind_run by exact Run2.
  assert (field_of (mkCBits 2 0x37 0 1) (reg_byte s2 0x37) = STANDBY) as Standby.
  { rewrite R2. cbn [register_address Z.eqb Pos.eqb].
    rewrite field_of_merge_field by (cbn; lia). reflexivity. }
  clear Run1 Run2 R1 R2 F1 P1 F P Running.
  destruct (cbits_set_budget (mkCBits 3 0x31 3 1) value s2 m rest eq_refl P2 F2)
    as (s3 & P3 & Step3).
  destruct m as [|[|m]];
    [ destruct Step3 as (Run3 & R3 & F3); erewrite bind_raise by exact Run3;
      exists s3; split; [reflexivity|]; split; [rewrite R3; exact Standby | exact F3] ..
    | destruct Step3 as (Run3 & R3 & F3) ].
  erewrite bind_run by exact Run3.
  assert (field_of (mkCBits 2 0x37 0 1) (reg_byte s3 0x37) = STANDBY) as Standby3
    by (rewrite R3; exact Standby).
  destruct (cbits_set_budget (mkCBits 3 0x31 0 1) value s3 m rest eq_refl P3 F3)
    as (s4 & P4 & Step4).
  destruct m as [|[|m]];
    [ destruct Step4 as (Run4 & R4 & F4); erewrite bind_raise by exact Run4;
      exists s4; split; [reflexivity|]; split; [rewrite R4; exact Standby3 | exact F4] ..
    | destruct Step4 as (Run4 & R4 & F4) ].
  erewrite bind_run by exact Run4.
  assert (field_of (mkCBits 2 0x37 0 1) (reg_byte s4 0x37) = STANDBY) as Standby4
    by (rewrite R4; exact Standby3).
  destruct (cbits_set_budget (mkCBits 2 0x37 0 1)
              (field_of (mkCBits 2 0x37 0 1) (reg_byte s 0x37)) s4 m rest eq_refl P4 F4)
    as (s5 & P5 & Step5).
  destruct m as [|[|m]]; [| |lia];
    destruct Step5 as (Run5 & R5 & F5); rewrite Run5;
    exists s5; (split; [reflexivity|]); (split; [rewrite R5; exact Standby4 | exact F5]).
Qed.

Lemma BMP58x_iir_coefficient_interrupted_witness :
  exists s',
    setter BMP581 IirCoefficient COEF_3
      (mkState (fun _ => true) (fun _ reg => if reg =? 0x37 then NORMAL else 0)
               [false; false; false; false; false; true] [] 0x47 0%float 0)
    = (Raise OSError, s') /\
    stored BMP581 PowerMode s' = STANDBY /\
    faults s' = [].
Proof.
  apply (BMP58x_iir_coefficient_interrupted BMP581 COEF_3 _ 5 []).
  - left. reflexivity.
  - cbn. tauto.
  - reflexivity.
  - vm_compute. discriminate.
  - lia.
  - reflexivity.
Defined.

(** ** The readings of the BMP390 *)

Lemma traced_ret {A : Type} (a : A) : traced [] (ret a).
Proof.
  intros s H. exists a. unfold ret, reads_of, add_log. cbn [map].
  rewrite app_nil_r. destruct s; reflexivity.
Qed.

Lemma traced_bind {A B : Type} (l1 l2 : list (Z * Z)) (m : M A) (k : A -> M B) :
  traced l1 m -> (forall a, traced l2 (k a)) -> traced (l1 ++ l2) (bind m k).
Proof.
  intros Hm Hk s H.
  destruct (Hm s H) as (a & Run).
  destruct (Hk a (add_log (reads_of (_address s) l1) s)) as (b & Run');
    [apply healthy_add_log; exact H|].
  exists b. erewrite bind_run by exact Run. rewrite Run'.
  rewrite add_log_add_log. unfold reads_of. rewrite map_app. reflexivity.
Qed.

Lemma traced_cbits_get (d : CBits) :
  traced [(register_address d, Z.of_nat (register_width d))] (cbits_get d).
Proof.
  intros s H. eexists. rewrite cbits_get_span_healthy by exact H.
  unfold reads_of. cbn [map fst snd]. rewrite Nat2Z.id. reflexivity.
Qed.

Lemma traced_fdiv (x y : float) : (y =? 0)%float = false -> traced [] (fdiv x y).
Proof. intros N. unfold fdiv. rewrite N. apply traced_ret. Qed.

Lemma traced_spans {A : Type} (l l' : list (Z * Z)) (m : M A) :
  traced l m -> l = l' -> traced l' m.
Proof. intros T <-. exact T. Qed.

Ltac traced :=
  repeat first
    [ eapply traced_ret
    | eapply traced_cbits_get
    | eapply traced_fdiv; reflexivity
    | eapply traced_bind; [|intros]
    | progress cbv zeta
    | match goal with
      | |- traced _ (if ?b then _ else _) =>
          destruct b; (eapply traced_spans; [traced | reflexivity])
      end ].

Lemma traced_par_signed_byte (reg : Z) : traced [(reg, 1); (reg, 1)] (par_signed_byte reg).
Proof. eapply traced_spans; [unfold par_signed_byte; traced | reflexivity]. Qed.

Lemma traced_par_signed_word (msb_reg lsb_reg : Z) :
  traced [(msb_reg, 1); (lsb_reg, 1)] (par_signed_word msb_reg lsb_reg).
Proof. eapply traced_spans; [unfold par_signed_word; traced | reflexivity]. Qed.

Lemma traced_temperature_compensation (raw_temp : float) :
  traced [(0x32, 1); (0x31, 1); (0x34, 1); (0x33, 1); (0x35, 1); (0x35, 1)]
    (_calculate_temperature_compensation raw_temp).
Proof.
  eapply traced_spans;
    [unfold _calculate_temperature_compensation, par_t1, par_t2, par_t3; traced | reflexivity].
Qed.

Lemma traced_pressure_compensation (raw_pressure tempc : float) :
  traced
    [(0x3F, 1); (0x3E, 1); (0x40, 1); (0x40, 1); (0x41, 1); (0x41, 1);
     (0x3D, 1); (0x3C, 1);
     (0x39, 1); (0x38, 1); (0x3A, 1); (0x3A, 1); (0x3B, 1); (0x3B, 1);
     (0x37, 1); (0x36, 1);
     (0x43, 1); (0x42, 1); (0x44, 1); (0x44, 1); (0x45, 1); (0x45, 1)]
    (_calculate_pressure_compensation raw_pressure tempc).
Proof.
  eapply traced_spans;
    [ unfold _calculate_pressure_compensation, par_p1, par_p2, par_p3, par_p4, par_p5,
        par_p6, par_p7, par_p8, par_p9, par_p10, par_p11;
      repeat first [ eapply traced_par_signed_byte | eapply traced_par_signed_word
                   | progress traced ]
    | reflexivity ].
Qed.

(** On a bus without faults the [BMP390] readings return a float for every
    register content: nothing in the compensation can raise.  All they do
    to the state is to log their reads: 7 for a temperature, 30 for a
    pressure, the data registers first and then every calibration constant
    the formulas mention, each one-byte signed constant twice. *)
Theorem BMP390_readings_return (s : state) :
  healthy s ->
  (exists t : float,
      BMP390_temperature s =
        (Ok t, add_log (reads_of (_address s) BMP390_temperature_spans) s)) /\
  (exists p : float,
      BMP390_pressure s =
        (Ok p, add_log (reads_of (_address s) BMP390_pressure_spans) s)).
Proof.
  intros H. split.
  - assert (traced BMP390_temperature_spans BMP390_temperature) as T.
    { eapply traced_spans;
        [ unfold BMP390_temperature;
          repeat first [ eapply traced_temperature_compensation | progress traced ]
        | reflexivity ]. }
    exact (T s H).
  - assert (traced BMP390_pressure_spans BMP390_pressure) as T.
    { eapply traced_spans;
        [ unfold BMP390_pressure;
          repeat first [ eapply traced_temperature_compensation
                       | eapply traced_pressure_compensation | progress traced ]
        | reflexivity ]. }
    exact (T s H).
Qed.

Lemma BMP390_readings_return_witness :
  (exists t : float,
      BMP390_temperature quiet_state =
        (Ok t, add_log (reads_of 0x47 BMP390_temperature_spans) quiet_state)) /\
  (exists p : float,
      BMP390_pressure quiet_state =
        (Ok p, add_log (reads_of 0x47 BMP390_pressure_spans) quiet_state)).
Proof.
  assert (healthy quiet_state) as H by (split; reflexivity).
  exact (BMP390_readings_return quiet_state H).
Defined.

(** ** Reading never writes, on any class *)

Lemma ro_par_signed_byte (reg : Z) : read_only (par_signed_byte reg).
Proof. unfold par_signed_byte. ro. Qed.

Lemma ro_par_signed_word (msb_reg lsb_reg : Z) : read_only (par_signed_word msb_reg lsb_reg).
Proof. unfold par_signed_word. ro. Qed.

Lemma ro_BMP390_temperature_compensation (raw_temp : float) :
  read_only (_calculate_temperature_compensation raw_temp).
Proof. unfold _calculate_temperature_compensation, par_t1, par_t2, par_t3. ro. Qed.

Lemma ro_BMP390_pressure_compensation (raw_pressure tempc : float) :
  read_only (_calculate_pressure_compensation raw_pressure tempc).
Proof.
  unfold _calculate_pressure_compensation, par_p1, par_p2, par_p3, par_p4, par_p5,
    par_p6, par_p7, par_p8, par_p9, par_p10, par_p11.
  repeat first [ apply ro_par_signed_byte | apply ro_par_signed_word | progress ro ].
Qed.

Lemma ro_temperature (self : variant) : read_only (temperature self).
Proof.
  destruct self; cbn [temperature].
  - unfold BMP581_temperature. ro.
  - unfold BMP581_temperature. ro.
  - unfold BMP390_temperature.
    repeat first [ apply ro_BMP390_temperature_compensation | progress ro ].
  - unfold BMP280_temperature.
    apply ro_bind; [apply ro_get_raw_temp_pressure|]. intros [t p].
    apply ro_temperature_compensation.
Qed.

Lemma ro_pressure (self : variant) : read_only (pressure self).
Proof.
  destruct self; cbn [pressure].
  - unfold BMP581_pressure. ro.
  - unfold BMP581_pressure. ro.
  - unfold BMP390_pressure.
    repeat first [ apply ro_BMP390_temperature_compensation
                 | apply ro_BMP390_pressure_compensation | progress ro ].
  - unfold BMP280_pressure.
    apply ro_bind; [apply ro_get_raw_temp_pressure|]. intros [t p].
    apply ro_bind; [apply ro_temperature_compensation|]. intros tempc.
    apply ro_bind; [apply ro_pressure_compensation|]. intros c. ro.
Qed.

Lemma ro_getter (self : variant) (what : setting) : read_only (getter self what).
Proof.
  destruct self, what; cbn;
    unfold BMP581_power_mode, BMP390_power_mode, BMP280_power_mode,
      BMP581_pressure_oversample_rate, BMP390_pressure_oversample_rate,
      BMP280_pressure_oversample_rate, BMP581_temperature_oversample_rate,
      BMP390_temperature_oversample_rate, BMP280_temperature_oversample_rate,
      BMP581_iir_coefficient, BMP390_iir_coefficient; ro.
Qed.

(** No getter of the configuration surface and no reading writes a
    register, on any class: on every bus, faulty or not, and whatever the
    result, the register cells and the sea level reference are the ones
    before the call and the log has gained no register write. *)
Theorem reading_never_writes (self : variant) (what : setting) :
  read_only (getter self what) /\
  read_only (output_data_rate self) /\
  read_only (temperature self) /\
  read_only (pressure self) /\
  read_only (_read_device_id self).
Proof.
  split; [apply ro_getter|].
  split; [unfold output_data_rate; ro|].
  split; [apply ro_temperature|].
  split; [apply ro_pressure|].
  unfold _read_device_id. ro.
Qed.

(** ** Readings on a failing transport *)

Lemma first_read_fails {B : Type} (d : CBits) (k : Z -> M B) (s : state) :
  blocked s -> fails_at_first_read (bind (cbits_get d) k) s.
Proof.
  intros B0. destruct (cbits_get_blocked d s B0) as (s' & Run & Mem & Log).
  exists s', (register_address d), (register_width d).
  split; [apply bind_raise; exact Run|]. split; assumption.
Qed.

Lemma first_read_fails_nested {B C : Type} (d : CBits) (k : Z -> M B) (h : B -> M C)
    (s : state) :
  blocked s -> fails_at_first_read (bind (bind (cbits_get d) k) h) s.
Proof.
  intros B0. destruct (cbits_get_blocked d s B0) as (s' & Run & Mem & Log).
  exists s', (register_address d), (register_width d).
  split; [apply bind_raise; apply bind_raise; exact Run|]. split; assumption.
Qed.

(** When the next bus transaction fails, every getter of the configuration
    surface and every reading, on every class, raises [OSError] after that
    one attempted read: there is no retry and no stale value is returned. *)
Theorem reading_transport_failure (self : variant) (what : setting) (s : state) :
  blocked s ->
  fails_at_first_read (getter self what) s /\
  fails_at_first_read (output_data_rate self) s /\
  fails_at_first_read (temperature self) s /\
  fails_at_first_read (pressure self) s.
Proof.
  intros B0.
  split; [|split; [|split]].
  - destruct self, what; apply first_read_fails; exact B0.
  - unfold output_data_rate.
    destruct (cbits_get_blocked (_output_data_rate self) s B0) as (s' & Run & Mem & Log).
    eexists s', _, _. split; [exact Run|]. split; [exact Mem | exact Log].
  - destruct self; first [ apply first_read_fails; exact B0
                         | apply first_read_fails_nested; exact B0 ].
  - destruct self; first [ apply first_read_fails; exact B0
                         | apply first_read_fails_nested; exact B0 ].
Qed.

Lemma reading_transport_failure_witness :
  fails_at_first_read (getter BMP390 IirCoefficient) (with_faults [true] quiet_state) /\
  fails_at_first_read (output_data_rate BMP390) (with_faults [true] quiet_state) /\
  fails_at_first_read (temperature BMP390) (with_faults [true] quiet_state) /\
  fails_at_first_read (pressure BMP390) (with_faults [true] quiet_state).
Proof.
  apply (reading_transport_failure BMP390 IirCoefficient (with_faults [true] quiet_state)).
  left. reflexivity.
Defined.

(** ** The altitude *)

(** The test for a fractional exponent on some values. *)
Example fractional_examples :
  fractional BAROMETRIC_EXPONENT = true /\
  fractional (1 / BAROMETRIC_EXPONENT)%float = true /\
  fractional 0.5%float = true /\
  fractional 2%float = false /\
  fractional 0%float = false /\
  fractional 4503599627370497%float = false /\
  fractional infinity = false /\
  fractional nan = false.
Proof. repeat split; vm_compute; reflexivity. Qed.

Lemma ro_sea_level_pressure : read_only sea_level_pressure.
Proof. intros s. split; [|split]; reflexivity. Qed.

Lemma ro_float_pow (libm_pow : float -> float -> float) (x y : float) :
  read_only (float_pow libm_pow x y).
Proof. unfold float_pow. ro. Qed.

Lemma ro_altitude (libm_pow : float -> float -> float) (self : variant) :
  read_only (altitude libm_pow self).
Proof.
  unfold altitude.
  apply ro_bind; [apply ro_pressure|]. intros p.
  apply ro_bind; [apply ro_sea_level_pressure|]. intros reference.
  apply ro_bind; [apply ro_fdiv|]. intros ratio.
  apply ro_bind; [apply ro_float_pow|]. intros w.
  apply ro_ret.
Qed.

Lemma traced_BMP58x_getter (self : variant) (what : setting) :
  self = BMP581 \/ self = BMP585 ->
  traced [(register_address (descriptor self what), 1)] (getter self what).
Proof.
  intros Self s H.
  pose proof (stored_range self what s) as R.
  assert (exists name, nth_error (getter_names self what) (Z.to_nat (stored self what s))
                       = Some name) as (name & Name).
  { destruct (nth_error (getter_names self what) (Z.to_nat (stored self what s))) eqn:E;
      [eexists; reflexivity|].
    apply nth_error_None in E.
    destruct Self as [-> | ->], what; cbn in E, R; lia. }
  exists name.
  destruct Self as [-> | ->], what;
    cbn [getter power_mode pressure_oversample_rate temperature_oversample_rate
         iir_coefficient];
    unfold BMP581_power_mode, BMP581_pressure_oversample_rate,
      BMP581_temperature_oversample_rate, BMP581_iir_coefficient;
    cbn [_power_mode _pressure_oversample_rate _temperature_oversample_rate
         _iir_coefficient];
    run_get; unfold stored in Name;
    cbn [descriptor getter_names _power_mode _pressure_oversample_rate
         _temperature_oversample_rate _iir_coefficient register_address] in Name |- *;
    unfold py_index; rewrite Name; reflexivity.
Qed.

Lemma BMP581_pressure_run (self : variant) (s : state) :
  healthy s ->
  BMP581_pressure self s =
    (Ok (linear_pressure self s),
     add_log [MemRead (_address s) (register_address (_pressure self))
                (register_width (_pressure self))] s).
Proof.
  intros H. unfold BMP581_pressure, linear_pressure.
  erewrite bind_run by (apply cbits_get_span_healthy; exact H).
  erewrite bind_run by (apply fdiv_run; reflexivity).
  rewrite fdiv_run by reflexivity. reflexivity.
Qed.

Lemma traced_BMP581_pressure (self : variant) :
  traced [(register_address (_pressure self), Z.of_nat (register_width (_pressure self)))]
    (BMP581_pressure self).
Proof.
  intros s H. eexists. rewrite BMP581_pressure_run by exact H.
  unfold reads_of. cbn [map fst snd]. rewrite Nat2Z.id. reflexivity.
Qed.

Lemma traced_BMP581_temperature (self : variant) :
  traced [(register_address (_temperature self),
           Z.of_nat (register_width (_temperature self)))]
    (BMP581_temperature self).
Proof.
  intros s H. eexists. unfold BMP581_temperature.
  erewrite bind_run by (apply cbits_get_span_healthy; exact H).
  rewrite fdiv_run by reflexivity.
  unfold reads_of. cbn [map fst snd]. rewrite Nat2Z.id. reflexivity.
Qed.

Lemma traced_register_struct_get (reg : Z) : traced [(reg, 1)] (register_struct_get reg).
Proof.
  intros s H. eexists. unfold register_struct_get.
  erewrite bind_run by (apply readfrom_mem_healthy; exact H).
  reflexivity.
Qed.

Lemma linear_pressure_add_log (self : variant) (es : list event) (s : state) :
  linear_pressure self (add_log es s) = linear_pressure self s.
Proof. reflexivity. Qed.

Ltac step_traced T :=
  match goal with
  | |- bind ?m ?k ?s0 = _ =>
      let x := fresh "x" in
      let Run := fresh "Run" in
      destruct (T s0) as (x & Run); [auto 30 with bus|];
      rewrite (bind_run m k s0 _ x Run); clear Run x
  end.





(** ** The altitude setter *)




(** ** The diagnostic property *)

(** Reading [config] is a pure read on every class and every bus: whatever
    it prints or raises, no register is written and the sea level reference
    is the one before the call. *)
Theorem config_never_writes (libm_pow : float -> float -> float) (self : variant) :
  read_only (config libm_pow self).
Proof.
  unfold config.
  apply ro_bind; [apply ro_register_struct_get|]. intros _.
  apply ro_bind; [apply (ro_getter self PowerMode)|]. intros _.
  apply ro_bind; [apply (ro_getter self PressureOversampleRate)|]. intros _.
  apply ro_bind; [apply (ro_getter self TemperatureOversampleRate)|]. intros _.
  apply ro_bind; [apply (ro_getter self IirCoefficient)|]. intros _.
  apply ro_bind; [apply ro_sea_level_pressure|]. intros _.
  apply ro_bind; [apply ro_pressure|]. intros _.
  apply ro_bind; [apply ro_temperature|]. intros _.
  apply ro_bind; [apply ro_altitude|]. intros _.
  apply ro_ret.
Qed.

Lemma float_pow_returns (libm_pow : float -> float -> float) (x y : float) (s : state) :
  (x <? 0)%float = false -> (y <? 0)%float = false ->
  exists w : float, float_pow libm_pow x y s = (Ok w, s).
Proof.
  intros X Y. unfold float_pow. rewrite X, Y, andb_false_r. cbn [andb].
  repeat match goal with
         | |- exists _, (if ?c then _ else _) _ = _ => destruct c
         end; eexists; reflexivity.
Qed.

(** On a [BMP581] or [BMP585] on a bus without faults, with a reference
    other than zero and a ratio of pressure to reference that is not
    negative, reading [config] returns, and all it does to the state is to
    log eight reads: the identification register, the four settings, the
    pressure, the temperature and the pressure again for the altitude.  The
    sea level reference the caller stored is kept. *)
Theorem config_returns (libm_pow : float -> float -> float) (self : variant) (s : state) :
  self = BMP581 \/ self = BMP585 ->
  healthy s ->
  (_sea_level_pressure s =? 0)%float = false ->
  (linear_pressure self s / _sea_level_pressure s <? 0)%float = false ->
  config libm_pow self s =
    (Ok tt,
     add_log
       (reads_of (_address s)
          [(0x01, 1); (0x37, 1); (0x36, 1); (0x36, 1); (0x31, 1);
           (0x20, 3); (0x1D, 3); (0x20, 3)])
       s).
Proof.
  intros Self H Reference Ratio. unfold config.
  step_traced (traced_register_struct_get (_REG_WHOAMI self)).
  step_traced (traced_BMP58x_getter self PowerMode Self).
  step_traced (traced_BMP58x_getter self PressureOversampleRate Self).
  step_traced (traced_BMP58x_getter self TemperatureOversampleRate Self).
  step_traced (traced_BMP58x_getter self IirCoefficient Self).
  erewrite bind_run by reflexivity.
  replace (pressure self) with (BMP581_pressure self)
    by (destruct Self as [-> | ->]; reflexivity).
  replace (temperature self) with (BMP581_temperature self)
    by (destruct Self as [-> | ->]; reflexivity).
  step_traced (traced_BMP581_pressure self).
  step_traced (traced_BMP581_temperature self).
  unfold altitude.
  replace (pressure self) with (BMP581_pressure self)
    by (destruct Self as [-> | ->]; reflexivity).
  match goal with
  | |- bind (bind _ _) _ ?s0 = _ =>
      assert (healthy s0) as H0 by auto 30 with bus;
      destruct (float_pow_returns libm_pow
                  (linear_pressure self s / _sea_level_pressure s)%float
                  BAROMETRIC_EXPONENT
                  (add_log [MemRead (_address s0) (register_address (_pressure self))
                              (register_width (_pressure self))] s0)
                  Ratio eq_refl) as (w & Power);
      erewrite (bind_run (bind _ _) _ s0)
  end.
  2:{ erewrite bind_run by (apply BMP581_pressure_run; exact H0).
      erewrite bind_run by reflexivity.
      erewrite bind_run by (apply fdiv_run; exact Reference).
      rewrite !linear_pressure_add_log.
      cbn [_sea_level_pressure add_log].
      erewrite bind_run by exact Power.
      reflexivity. }
  unfold reads_of, ret.
  rewrite !add_log_add_log.
  cbn [_address add_log map fst snd app Z.to_nat Pos.to_nat Pos.iter_op Nat.add].
  destruct Self as [-> | ->]; reflexivity.
Qed.

Lemma config_returns_witness :
  config (fun x _ => x) BMP585
    (snd (sea_level_pressure_setter 1000.5%float quiet_state)) =
    (Ok tt,
     add_log
       (reads_of 0x47
          [(0x01, 1); (0x37, 1); (0x36, 1); (0x36, 1); (0x31, 1);
           (0x20, 3); (0x1D, 3); (0x20, 3)])
       (snd (sea_level_pressure_setter 1000.5%float quiet_state))) /\
  _sea_level_pressure
    (snd (config (fun x _ => x) BMP585
            (snd (sea_level_pressure_setter 1000.5%float quiet_state))))
  = 1000.5%float.
Proof.
  assert (healthy (snd (sea_level_pressure_setter 1000.5%float quiet_state))) as H
    by (split; reflexivity).
  pose proof (config_returns (fun x _ => x) BMP585
                (snd (sea_level_pressure_setter 1000.5%float quiet_state))
                (or_intror eq_refl) H eq_refl eq_refl) as Run.
  split; [exact Run|]. rewrite Run. reflexivity.
Defined.
